(** * Phaser WebGL render nodes: batching pipeline

    A shallow embedding of [RenderNodeManager], [BatchHandlerPointLight],
    [SubmitterTile] and [Camera] (src/renderer/webgl/renderNodes),
    followed by the properties established about them.

    Conventions.
    - JavaScript objects compared by identity (render nodes, drawing
      contexts) are references, natural numbers into a store.
    - Objects used as dictionaries ([_nodes], [_nodeConstructors], the
      node tables of a game object) are plain objects: their own
      properties in creation order, read through [o[name]], which also
      finds the properties every object inherits from
      [Object.prototype].
    - Calls that leave the modelled classes (the WebGL renderer, the shader
      program, the event emitter, [setDebug] on a node) add an [Event]
      to a log, kept most recent event first.
    - A thrown exception is a [Throw] result.
    - Fields set by classes defined elsewhere ([BatchHandler],
      [SubmitterQuad], the renderer) are fields or parameters here, and
      so are the arithmetic operations that round. *)

From Stdlib Require Import ZArith QArith Lia Sorted.
From stdpp Require Import base gmap strings list.

Local Open Scope Z_scope.
Local Open Scope nat_scope.
Local Set Warnings "-register-all".

(* ================================================================== *)
(** * Part I: the embedding *)
(* ================================================================== *)

(** ** Typed arrays *)

(** Conversion of an integer to an element of a [Uint16Array]. *)
Definition toUint16 (v : Z) : Z := (v `mod` 65536)%Z.

(** [indices[offset] = v] on a [Uint16Array]: the element is converted;
    an offset past the end stores nothing. *)
Definition u16_set (indices : list Z) (offset : nat) (v : Z) : list Z :=
  <[offset := toUint16 v]> indices.

(** ** BatchHandlerPointLight._generateElementIndices *)

(** The body of the [for] loop, at loop counter [i], on the pair of the
    array and the running [offset]. *)
Definition elementIndicesBody (st : list Z * nat) (i : nat) : list Z * nat :=
  let '(indices, offset) := st in
  let index := (Z.of_nat i * 4)%Z in
  let indices := u16_set indices offset index in
  let offset := S offset in
  let indices := u16_set indices offset index in
  let offset := S offset in
  let indices := u16_set indices offset (index + 1)%Z in
  let offset := S offset in
  let indices := u16_set indices offset (index + 2)%Z in
  let offset := S offset in
  let indices := u16_set indices offset (index + 3)%Z in
  let offset := S offset in
  let indices := u16_set indices offset (index + 3)%Z in
  let offset := S offset in
  (indices, offset).

(** [new ArrayBuffer(instances * 6 * 2)] viewed as a [Uint16Array] has
    [instances * 6] elements, all zero. The result is the content of that
    view once the loop [for (i = 0; i < instances; i++)] has run. *)
Definition _generateElementIndices (instances : nat) : list Z :=
  let indices := replicate (instances * 6 * 2 / 2) 0%Z in
  fst (fold_left elementIndicesBody (seq 0 instances) (indices, 0)).

(** The six indices the documentation gives for quad [i]. *)
Definition quadIndices (i : nat) : list Z :=
  let index := (4 * Z.of_nat i)%Z in
  [index; index; index + 1; index + 2; index + 3; index + 3]%Z.

(** ** JavaScript values *)

Inductive JSError : Type :=
  | Error (message : string)
  | TypeError (message : string).

(** A JavaScript number: every finite double is a rational. Operations
    that round are not defined here; they are parameters where used. *)
Inductive JSNumber : Type :=
  | NaN
  | NegInfinity
  | Finite (q : Q)
  | PosInfinity.

(** An optional numeric argument: omitted ([undefined]) or a number. *)
Inductive JSValue : Type :=
  | Undefined
  | Number (n : JSNumber).

Definition ToNumber (v : JSValue) : JSNumber :=
  match v with
  | Undefined => NaN
  | Number n => n
  end.

(** [a <= b] on numbers; false as soon as one side is [NaN]. *)
Definition num_leb (a b : JSNumber) : bool :=
  match a, b with
  | NaN, _ | _, NaN => false
  | NegInfinity, _ => true
  | _, PosInfinity => true
  | Finite x, Finite y => Qle_bool x y
  | PosInfinity, _ => false
  | Finite _, NegInfinity => false
  end.

Definition isNaN (a : JSNumber) : bool :=
  match a with NaN => true | _ => false end.

Definition Math_min (a b : JSNumber) : JSNumber :=
  if isNaN a || isNaN b then NaN else if num_leb a b then a else b.

Definition Math_max (a b : JSNumber) : JSNumber :=
  if isNaN a || isNaN b then NaN else if num_leb a b then b else a.

Definition one : JSNumber := Finite 1.

(** ** Objects used as dictionaries *)

Module JSObject.

(** A plain object ([{}]): its own properties, in the order in which
    they were created. *)
Definition t (V : Type) : Type := list (string * V).

(** The properties a plain object inherits from [Object.prototype]
    (ECMAScript, properties of the Object prototype object). Their
    values are functions, and for [__proto__] the prototype itself: all
    are truthy, none is enumerable. *)
Definition Object_prototype : list string :=
  [ "constructor"; "hasOwnProperty"; "isPrototypeOf"; "propertyIsEnumerable";
    "toLocaleString"; "toString"; "valueOf"; "__proto__";
    "__defineGetter__"; "__defineSetter__";
    "__lookupGetter__"; "__lookupSetter__" ].

Definition inherited (name : string) : bool :=
  bool_decide (name ∈ Object_prototype).

(** What [o[name]] evaluates to when it is not [undefined]: the value of
    an own property, or a property of [Object.prototype]. *)
Inductive Property (V : Type) : Type :=
  | Own (v : V)
  | Inherited (name : string).
Arguments Own {V} v.
Arguments Inherited {V} name.

Fixpoint own {V : Type} (o : t V) (name : string) : option V :=
  match o with
  | [] => None
  | (key, v) :: rest => if decide (key = name) then Some v else own rest name
  end.

(** [o[name]]; [None] stands for [undefined]. The values stored are
    objects and functions, so that [if (o[name])] tests for [Some]. *)
Definition get {V : Type} (o : t V) (name : string) : option (Property V) :=
  match own o name with
  | Some v => Some (Own v)
  | None => if inherited name then Some (Inherited name) else None
  end.

(** [o[name] = v]: an own property keeps its place and takes the value;
    otherwise a new own property is created, last in creation order.
    (Assigning to the inherited accessor [__proto__] would change the
    prototype instead; the methods below assign only after [o[name]] was
    found [undefined], which it never is for an inherited name.) *)
Fixpoint put {V : Type} (o : t V) (name : string) (v : V) : t V :=
  match o with
  | [] => [(name, v)]
  | (key, x) :: rest =>
      if decide (key = name) then (key, v) :: rest
      else (key, x) :: put rest name v
  end.

Definition digit (c : Ascii.ascii) : option N :=
  let n := Ascii.N_of_ascii c in
  if ((48 <=? n) && (n <=? 57))%N then Some (n - 48)%N else None.

Fixpoint digits (s : string) (acc : N) : option N :=
  match s with
  | EmptyString => Some acc
  | String c rest =>
      match digit c with
      | Some d => digits rest (10 * acc + d)%N
      | None => None
      end
  end.

(** The array index a property name denotes, if any: a decimal numeral
    without sign or leading zero (character 48 is the digit 0), below
    2^32 - 1. *)
Definition array_index (name : string) : option N :=
  match name with
  | EmptyString => None
  | String c rest =>
      if bool_decide (c = Ascii.ascii_of_nat 48)
         && negb (bool_decide (rest = EmptyString))
      then None
      else
        match digits name 0 with
        | Some n => if (n <? 4294967295)%N then Some n else None
        | None => None
        end
  end.

Definition index_of {V : Type} (entry : string * V) : N :=
  default 0%N (array_index (fst entry)).

Fixpoint insert_entry {V : Type} (entry : string * V) (sorted : list (string * V))
    : list (string * V) :=
  match sorted with
  | [] => [entry]
  | e :: rest =>
      if (index_of entry <=? index_of e)%N then entry :: sorted
      else e :: insert_entry entry rest
  end.

(** The own properties in the order [for (key in o)] visits them: those
    whose name is an array index first, in ascending numeric order, then
    the others in creation order (ECMAScript, EnumerateObjectProperties
    over OrdinaryOwnPropertyKeys). Nothing inherited is visited, no
    property of [Object.prototype] being enumerable. *)
Definition enumerate {V : Type} (o : t V) : list (string * V) :=
  foldr insert_entry [] (filter (fun e => is_Some (array_index (fst e))) o)
  ++ filter (fun e => ~ is_Some (array_index (fst e))) o.

Definition keys {V : Type} (o : t V) : list string :=
  map fst (enumerate o).

End JSObject.

(** ** Objects, references and events *)

(** Render nodes are objects compared with [!==]: a reference. *)
Definition NodeRef : Type := nat.

(** A node constructor: one of the built-in classes, or a function
    supplied through [addNodeConstructor]. *)
Inductive Ctor : Type :=
  | BuiltinCtor (className : string)
  | CustomCtor (id : nat).

(** The fields of a drawing context the render nodes read. *)
Record DrawingContext : Type := {
  dc_ref : nat;
  camera_alpha : JSNumber;
  camera_zoom : JSNumber;
  dc_width : JSNumber;
  dc_height : JSNumber
}.

(** What [currentBatchDrawingContext] can hold: [null], a context, or
    [undefined] when [setCurrentBatchNode] was called without one. *)
Inductive CtxVal : Type :=
  | CtxUndefined
  | CtxNull
  | Ctx (drawingContext : DrawingContext).

Inductive UniformValue : Type :=
  | UFloat (x : JSNumber)
  | UVec2 (x y : JSNumber)
  | UProjectionMatrix (width height : JSNumber).

(** Calls that leave the modelled classes, and calls of [run] on the
    current batch node (recorded where the manager makes them). *)
Inductive Event : Type :=
  | CallRun (node : NodeRef) (drawingContext : CtxVal)
  | SetUniform (node : NodeRef) (name : string) (value : UniformValue)
  | SetProjectionMatrix (width height : JSNumber)
  | BufferUpdate (node : NodeRef) (bytes : Z)
  | DrawElements (node : NodeRef) (drawingContext : CtxVal)
      (count : Z) (offset : Z)
  | OnRunEnd (node : NodeRef) (drawingContext : CtxVal)
  | NodeSetDebug (node : NodeRef) (value : bool)
  | Construct (ctor : Ctor) (node : NodeRef)
  | RendererOncePostRender
  | Emit_SET_PARALLEL_TEXTURE_UNITS (value : JSNumber).

(** ** The debug graph *)

(** A [DebugGraphNode] with its children; the [parent] field of the
    source only serves to walk back up and is replaced below by the path
    from the root to the current node. *)
Inductive DebugGraphNode : Type :=
  | DebugNode (name : string) (children : list DebugGraphNode).

Definition node_name (n : DebugGraphNode) : string :=
  match n with DebugNode name _ => name end.

Definition node_children (n : DebugGraphNode) : list DebugGraphNode :=
  match n with DebugNode _ children => children end.

(** ** RenderNodeManager: state *)

Record RenderNodeManager : Type := {
  renderer_maxTextures : JSNumber;
  maxParallelTextureUnits : JSNumber;
  _nodes : JSObject.t NodeRef;
  _nodeConstructors : JSObject.t Ctor;
  currentBatchNode : option NodeRef;
  currentBatchDrawingContext : CtxVal;
  debug : bool;
  debugGraph : option DebugGraphNode;
  currentDebugNode : option (list nat)
}.

(** ** BatchHandlerPointLight: state *)

(** The fields of the handler that [run] and [batch] use. All but
    [instanceCount] and the buffer content are fixed by the constructor
    of the base class. *)
Record BatchHandlerPointLight : Type := {
  instanceCount : Z;
  instancesPerBatch : Z;
  indicesPerInstance : Z;
  bytesPerInstance : Z;
  floatsPerInstance : Z;
  viewF32 : list JSNumber
}.

Record PointLight : Type := {
  color_r : JSNumber;
  color_g : JSNumber;
  color_b : JSNumber;
  intensity : JSNumber;
  radius : JSNumber;
  attenuation : JSNumber;
  light_alpha : JSNumber
}.

(** ** The world: manager, node objects, event log *)

Record World : Type := {
  manager : RenderNodeManager;
  handlers : gmap NodeRef BatchHandlerPointLight;
  next_ref : NodeRef;
  log : list Event
}.

Inductive Result (A : Type) : Type :=
  | Ok (a : A) (w : World)
  | Throw (e : JSError) (w : World).
Arguments Ok {A} a w.
Arguments Throw {A} e w.

(** The world a computation ends in, returning or throwing. *)
Definition world_of {A : Type} (r : Result A) : World :=
  match r with
  | Ok _ w => w
  | Throw _ w => w
  end.

Definition Exec (A : Type) : Type := World -> Result A.

Definition ret {A : Type} (a : A) : Exec A := fun w => Ok a w.

Definition throw {A : Type} (e : JSError) : Exec A := fun w => Throw e w.

Definition bind {A B : Type} (c : Exec A) (k : A -> Exec B) : Exec B :=
  fun w =>
    match c w with
    | Ok a w' => k a w'
    | Throw e w' => Throw e w'
    end.

Notation "'let!' x ':=' c 'in' k" := (bind c (fun x => k))
  (at level 10, x name, c at level 100, k at level 200).
Notation "c ;; k" := (bind c (fun _ => k))
  (at level 100, k at level 200, right associativity).

Definition with_manager (w : World) (m : RenderNodeManager) : World :=
  {| manager := m; handlers := handlers w; next_ref := next_ref w; log := log w |}.

Definition with_handler (w : World) (this : NodeRef) (h : BatchHandlerPointLight) : World :=
  {| manager := manager w; handlers := <[this := h]> (handlers w);
     next_ref := next_ref w; log := log w |}.

(** The log is kept most recent event first. *)
Definition with_event (w : World) (e : Event) : World :=
  {| manager := manager w; handlers := handlers w; next_ref := next_ref w;
     log := e :: log w |}.

Definition get_manager : Exec RenderNodeManager :=
  fun w => Ok (manager w) w.

Definition put_manager (m : RenderNodeManager) : Exec unit :=
  fun w => Ok tt (with_manager w m).

(** A reference that is not in [handlers] is an object of another class:
    it has none of the methods modelled here. *)
Definition get_handler (this : NodeRef) : Exec BatchHandlerPointLight :=
  fun w =>
    match handlers w !! this with
    | Some h => Ok h w
    | None => Throw (TypeError "not a batch handler") w
    end.

Definition put_handler (this : NodeRef) (h : BatchHandlerPointLight) : Exec unit :=
  fun w => Ok tt (with_handler w this h).

Definition emit (e : Event) : Exec unit :=
  fun w => Ok tt (with_event w e).

Definition fresh_ref : Exec NodeRef :=
  fun w => Ok (next_ref w) {| manager := manager w; handlers := handlers w;
                              next_ref := S (next_ref w); log := log w |}.

(** The index counts of the draw calls of [node] in a log, and the calls
    of [run] made by the manager. *)
Definition drawCounts (node : NodeRef) (events : list Event) : list Z :=
  omap (fun e =>
          match e with
          | DrawElements n _ count _ => if decide (n = node) then Some count else None
          | _ => None
          end) events.

Definition runCalls (events : list Event) : list (NodeRef * CtxVal) :=
  omap (fun e =>
          match e with
          | CallRun n c => Some (n, c)
          | _ => None
          end) events.

(** Field updates. *)

Definition set_instanceCount (h : BatchHandlerPointLight) (n : Z) : BatchHandlerPointLight :=
  {| instanceCount := n; instancesPerBatch := instancesPerBatch h;
     indicesPerInstance := indicesPerInstance h;
     bytesPerInstance := bytesPerInstance h;
     floatsPerInstance := floatsPerInstance h; viewF32 := viewF32 h |}.

Definition set_viewF32 (h : BatchHandlerPointLight) (buf : list JSNumber) : BatchHandlerPointLight :=
  {| instanceCount := instanceCount h; instancesPerBatch := instancesPerBatch h;
     indicesPerInstance := indicesPerInstance h;
     bytesPerInstance := bytesPerInstance h;
     floatsPerInstance := floatsPerInstance h; viewF32 := buf |}.

Definition set_currentBatch (m : RenderNodeManager) (node : option NodeRef)
    (drawingContext : CtxVal) : RenderNodeManager :=
  {| renderer_maxTextures := renderer_maxTextures m;
     maxParallelTextureUnits := maxParallelTextureUnits m;
     _nodes := _nodes m; _nodeConstructors := _nodeConstructors m;
     currentBatchNode := node; currentBatchDrawingContext := drawingContext;
     debug := debug m; debugGraph := debugGraph m;
     currentDebugNode := currentDebugNode m |}.

Definition set_maxParallelTextureUnits (m : RenderNodeManager) (v : JSNumber) : RenderNodeManager :=
  {| renderer_maxTextures := renderer_maxTextures m;
     maxParallelTextureUnits := v;
     _nodes := _nodes m; _nodeConstructors := _nodeConstructors m;
     currentBatchNode := currentBatchNode m;
     currentBatchDrawingContext := currentBatchDrawingContext m;
     debug := debug m; debugGraph := debugGraph m;
     currentDebugNode := currentDebugNode m |}.

Definition set_nodes (m : RenderNodeManager) (nodes : JSObject.t NodeRef) : RenderNodeManager :=
  {| renderer_maxTextures := renderer_maxTextures m;
     maxParallelTextureUnits := maxParallelTextureUnits m;
     _nodes := nodes; _nodeConstructors := _nodeConstructors m;
     currentBatchNode := currentBatchNode m;
     currentBatchDrawingContext := currentBatchDrawingContext m;
     debug := debug m; debugGraph := debugGraph m;
     currentDebugNode := currentDebugNode m |}.

Definition set_nodeConstructors (m : RenderNodeManager) (ctors : JSObject.t Ctor) : RenderNodeManager :=
  {| renderer_maxTextures := renderer_maxTextures m;
     maxParallelTextureUnits := maxParallelTextureUnits m;
     _nodes := _nodes m; _nodeConstructors := ctors;
     currentBatchNode := currentBatchNode m;
     currentBatchDrawingContext := currentBatchDrawingContext m;
     debug := debug m; debugGraph := debugGraph m;
     currentDebugNode := currentDebugNode m |}.

Definition set_debug (m : RenderNodeManager) (value : bool) : RenderNodeManager :=
  {| renderer_maxTextures := renderer_maxTextures m;
     maxParallelTextureUnits := maxParallelTextureUnits m;
     _nodes := _nodes m; _nodeConstructors := _nodeConstructors m;
     currentBatchNode := currentBatchNode m;
     currentBatchDrawingContext := currentBatchDrawingContext m;
     debug := value; debugGraph := debugGraph m;
     currentDebugNode := currentDebugNode m |}.

Definition set_debugGraph (m : RenderNodeManager) (graph : option DebugGraphNode)
    (current : option (list nat)) : RenderNodeManager :=
  {| renderer_maxTextures := renderer_maxTextures m;
     maxParallelTextureUnits := maxParallelTextureUnits m;
     _nodes := _nodes m; _nodeConstructors := _nodeConstructors m;
     currentBatchNode := currentBatchNode m;
     currentBatchDrawingContext := currentBatchDrawingContext m;
     debug := debug m; debugGraph := graph;
     currentDebugNode := current |}.

(** ** BatchHandlerPointLight.run *)

(** [onRunBegin] reads [drawingContext.camera] before anything else: on a
    value that is not a drawing context this is a [TypeError]. *)
Definition onRunBegin (this : NodeRef) (drawingContext : CtxVal) : Exec unit :=
  match drawingContext with
  | Ctx dc =>
      emit (SetUniform this "uCameraZoom" (UFloat (camera_zoom dc))) ;;
      emit (SetUniform this "uResolution" (UVec2 (dc_width dc) (dc_height dc))) ;;
      emit (SetProjectionMatrix (dc_width dc) (dc_height dc)) ;;
      emit (SetUniform this "uProjectionMatrix"
              (UProjectionMatrix (dc_width dc) (dc_height dc)))
  | CtxUndefined =>
      throw (TypeError "Cannot read properties of undefined (reading 'camera')")
  | CtxNull =>
      throw (TypeError "Cannot read properties of null (reading 'camera')")
  end.

Definition run (this : NodeRef) (drawingContext : CtxVal) : Exec unit :=
  let! h := get_handler this in
  let instanceCount' := instanceCount h in
  if (instanceCount' =? 0)%Z then ret tt
  else
    onRunBegin this drawingContext ;;
    emit (BufferUpdate this (instanceCount h * bytesPerInstance h)) ;;
    emit (DrawElements this drawingContext
            (instanceCount' * indicesPerInstance h) 0) ;;
    put_handler this (set_instanceCount h 0) ;;
    emit (OnRunEnd this drawingContext).

(** ** RenderNodeManager: the current batch *)

Definition setCurrentBatchNode (node : option NodeRef) (drawingContext : CtxVal) : Exec unit :=
  let! m := get_manager in
  if bool_decide (currentBatchNode m <> node) then
    match currentBatchNode m with
    | Some current =>
        emit (CallRun current (currentBatchDrawingContext m)) ;;
        run current (currentBatchDrawingContext m)
    | None => ret tt
    end ;;
    let! m := get_manager in
    put_manager
      (set_currentBatch m node
         (match node with Some _ => drawingContext | None => CtxNull end))
  else ret tt.

Definition startStandAloneRender : Exec unit :=
  setCurrentBatchNode None CtxUndefined.

(** ** RenderNodeManager.setMaxParallelTextureUnits *)

Definition setMaxParallelTextureUnits (value : JSValue) : Exec unit :=
  let! m := get_manager in
  put_manager
    (set_maxParallelTextureUnits m
       (Math_max one (Math_min (ToNumber value) (renderer_maxTextures m)))) ;;
  let! m := get_manager in
  emit (Emit_SET_PARALLEL_TEXTURE_UNITS (maxParallelTextureUnits m)).

(** ** RenderNodeManager: the node registry *)

Definition addNode (name : string) (node : NodeRef) : Exec unit :=
  let! m := get_manager in
  match JSObject.get (_nodes m) name with
  | Some _ => throw (Error ("node " +:+ name +:+ " already exists."))
  | None =>
      put_manager (set_nodes m (JSObject.put (_nodes m) name node)) ;;
      if debug m then emit (NodeSetDebug node true) else ret tt
  end.

Definition addNodeConstructor (name : string) (constructor : Ctor) : Exec unit :=
  let! m := get_manager in
  match JSObject.get (_nodeConstructors m) name with
  | Some _ => throw (Error ("node constructor " +:+ name +:+ " already exists."))
  | None =>
      put_manager
        (set_nodeConstructors m
           (JSObject.put (_nodeConstructors m) name constructor))
  end.

(** [new constructor(manager)]: a new object. *)
Definition construct (constructor : Ctor) : Exec NodeRef :=
  let! node := fresh_ref in
  emit (Construct constructor node) ;;
  ret node.

(** The result is what [this._nodes[name]] holds, which for a name
    inherited from [Object.prototype] is the inherited property and no
    node; [None] is [null]. ([new] on an inherited property is not
    reached: such a name is found in [_nodes] first, the two objects
    sharing their prototype.) *)
Definition getNode (name : string) : Exec (option (JSObject.Property NodeRef)) :=
  let! m := get_manager in
  match JSObject.get (_nodes m) name with
  | Some found => ret (Some found)
  | None =>
      match JSObject.get (_nodeConstructors m) name with
      | Some (JSObject.Own constructor) =>
          let! node := construct constructor in
          addNode name node ;;
          ret (Some (JSObject.Own node))
      | Some (JSObject.Inherited _) =>
          throw (TypeError "this._nodeConstructors[name] is not a constructor")
      | None => ret None
      end
  end.

Definition hasNode (m : RenderNodeManager) (name : string) (constructed : bool) : bool :=
  bool_decide (is_Some (JSObject.get (_nodes m) name))
  || (negb constructed
      && bool_decide (is_Some (JSObject.get (_nodeConstructors m) name))).

(** ** RenderNodeManager: the debug graph *)

(** The node reached from [t] along [path] (child positions). *)
Fixpoint subtree (path : list nat) (t : DebugGraphNode) : option DebugGraphNode :=
  match path with
  | [] => Some t
  | i :: rest =>
      match node_children t !! i with
      | Some child => subtree rest child
      | None => None
      end
  end.

(** [children.push(node)] on the node at [path]. *)
Fixpoint push_child (path : list nat) (node t : DebugGraphNode) : DebugGraphNode :=
  match path with
  | [] => DebugNode (node_name t) (node_children t ++ [node])
  | i :: rest =>
      DebugNode (node_name t) (alter (push_child rest node) i (node_children t))
  end.

Definition pushDebug (name : string) : Exec unit :=
  let! m := get_manager in
  if negb (debug m) then ret tt
  else
    let node := DebugNode name [] in
    match debugGraph m with
    | Some graph =>
        match currentDebugNode m with
        | Some path =>
            let index :=
              match subtree path graph with
              | Some t => length (node_children t)
              | None => 0
              end in
            put_manager
              (set_debugGraph m (Some (push_child path node graph))
                 (Some (path ++ [index])))
        | None =>
            throw (TypeError "Cannot read properties of null (reading 'children')")
        end
    | None => put_manager (set_debugGraph m (Some node) (Some []))
    end.

Definition popDebug : Exec unit :=
  let! m := get_manager in
  if negb (debug m) then ret tt
  else
    match currentDebugNode m with
    | None =>
        throw (TypeError "Cannot read properties of null (reading 'parent')")
    | Some [] => put_manager (set_debugGraph m (debugGraph m) None)
    | Some path =>
        put_manager (set_debugGraph m (debugGraph m) (Some (removelast path)))
    end.

Fixpoint for_each {A : Type} (f : A -> Exec unit) (l : list A) : Exec unit :=
  match l with
  | [] => ret tt
  | x :: rest => f x ;; for_each f rest
  end.

(** The body of the [for (key in this._nodes)] loop:
    [this._nodes[key].setDebug(value)]. *)
Definition setDebug_node (m : RenderNodeManager) (value : bool) (key : string)
    : Exec unit :=
  match JSObject.get (_nodes m) key with
  | Some (JSObject.Own node) => emit (NodeSetDebug node value)
  | Some (JSObject.Inherited _) =>
      throw (TypeError "this._nodes[key].setDebug is not a function")
  | None =>
      throw (TypeError "Cannot read properties of undefined (reading 'setDebug')")
  end.

(** The listener registered with [renderer.once] calls [setDebug(false)]
    when the renderer emits its post-render event, outside this class. *)
Definition setDebug (value : bool) : Exec unit :=
  let! m := get_manager in
  put_manager (set_debug m value) ;;
  for_each (setDebug_node m value) (JSObject.keys (_nodes m)) ;;
  if value then
    let! m := get_manager in
    put_manager (set_debugGraph m None None) ;;
    pushDebug "[Render Tree Root]" ;;
    emit RendererOncePostRender
  else ret tt.

Definition newline : string := String (Ascii.ascii_of_nat 10) EmptyString.

(** ['  '.repeat(indent)] *)
Fixpoint indentString (indent : nat) : string :=
  match indent with
  | 0 => EmptyString
  | S n => "  " +:+ indentString n
  end.

Fixpoint formatNode (node : DebugGraphNode) (indent : nat) : string :=
  match node with
  | DebugNode name children =>
      fold_left (fun str child => str +:+ formatNode child (indent + 1))
        children (indentString indent +:+ name +:+ newline)
  end.

(** [formatNode(node, indent)] starts by reading [node.name]: a
    [TypeError] when [debugGraph] is [null]. *)
Definition debugToString : Exec string :=
  let! m := get_manager in
  match debugGraph m with
  | Some node => ret (formatNode node 0)
  | None => throw (TypeError "Cannot read properties of null (reading 'name')")
  end.

(** ** RenderNodeManager: the constructor *)

Definition builtinNodeConstructors : list string :=
  [ "BatchHandlerPointLight"; "BatchHandlerQuad"; "BatchHandlerQuadLight";
    "BatchHandlerQuadLightShadow"; "BatchHandlerStrip";
    "BatchHandlerTileSprite"; "BatchHandlerTileSpriteLight";
    "BatchHandlerTileSpriteLightShadow"; "BatchHandlerTriFlat";
    "BatchHandlerTriFlatLight"; "Camera"; "DrawLine"; "FillCamera";
    "FillPath"; "FillRect"; "FillTri"; "ListCompositor"; "RebindContext";
    "StrokePath"; "SubmitterQuad"; "SubmitterQuadLight";
    "SubmitterTileSprite"; "SubmitterTileSpriteLight"; "TexturerImage";
    "TexturerTileSprite"; "TransformerImage"; "TransformerTile";
    "TransformerTileSprite"; "YieldContext" ].

Definition initialize (maxTextures : JSNumber)
    (autoMobilePipeline desktop selfShadow : bool) : RenderNodeManager :=
  let constructors : JSObject.t Ctor :=
    (fun name => (name, BuiltinCtor name)) <$> builtinNodeConstructors in
  {| renderer_maxTextures := maxTextures;
     maxParallelTextureUnits :=
       if autoMobilePipeline && negb desktop then one else maxTextures;
     _nodes := [];
     _nodeConstructors :=
       if selfShadow then
         JSObject.put
           (JSObject.put constructors
              "BatchHandlerQuadLight" (BuiltinCtor "BatchHandlerQuadLightShadow"))
           "BatchHandlerTileSpriteLight" (BuiltinCtor "BatchHandlerTileSpriteLightShadow")
       else constructors;
     currentBatchNode := None;
     currentBatchDrawingContext := CtxNull;
     debug := false;
     debugGraph := None;
     currentDebugNode := None |}.

(** ** The methods of the manager, as data *)

Inductive Call : Type :=
  | CallAddNode (name : string) (node : NodeRef)
  | CallAddNodeConstructor (name : string) (constructor : Ctor)
  | CallGetNode (name : string)
  | CallSetCurrentBatchNode (node : option NodeRef) (drawingContext : CtxVal)
  | CallSetMaxParallelTextureUnits (value : JSValue)
  | CallStartStandAloneRender
  | CallSetDebug (value : bool)
  | CallPushDebug (name : string)
  | CallPopDebug
  | CallDebugToString.

Definition perform (c : Call) : Exec unit :=
  match c with
  | CallAddNode name node => addNode name node
  | CallAddNodeConstructor name constructor => addNodeConstructor name constructor
  | CallGetNode name => getNode name ;; ret tt
  | CallSetCurrentBatchNode node drawingContext =>
      setCurrentBatchNode node drawingContext
  | CallSetMaxParallelTextureUnits value => setMaxParallelTextureUnits value
  | CallStartStandAloneRender => startStandAloneRender
  | CallSetDebug value => setDebug value
  | CallPushDebug name => pushDebug name
  | CallPopDebug => popDebug
  | CallDebugToString => debugToString ;; ret tt
  end.

(** The world after a sequence of calls, each made whether or not an
    earlier one threw. *)
Definition perform_all (calls : list Call) (w : World) : World :=
  fold_left (fun w c => world_of (perform c w)) calls w.

(** ** BatchHandlerPointLight.batch *)

Section Batch.

(** Double-precision multiplication, and the rounding of a value stored
    in a [Float32Array]. *)
Variable mul : JSNumber -> JSNumber -> JSNumber.
Variable fround : JSNumber -> JSNumber.

(** [view[offset] = v]; a store outside the view is ignored. *)
Definition f32_set (view : list JSNumber) (offset : Z) (v : JSNumber) : list JSNumber :=
  if (0 <=? offset)%Z then <[Z.to_nat offset := fround v]> view else view.

(** [view[offset++] = v] for each [v] of [values], in order. *)
Fixpoint f32_write (view : list JSNumber) (offset : Z) (values : list JSNumber)
    : list JSNumber * Z :=
  match values with
  | [] => (view, offset)
  | v :: rest => f32_write (f32_set view offset v) (offset + 1)%Z rest
  end.

(** The forty stores of one light: four vertices (bottom left, top
    left, bottom right, top right) of ten floats each, from
    [vertexOffset32] on. The result is the view after the stores. *)
Definition store_light (vertexViewF32 : list JSNumber) (vertexOffset32 : Z)
    (xTL yTL xBL yBL xTR yTR xBR yBR lightX lightY
     radius attenuation r g b a : JSNumber) : list JSNumber :=
  let '(vertexViewF32, vertexOffset32) :=
    f32_write vertexViewF32 vertexOffset32
      [xBL; yBL; lightX; lightY; radius; attenuation; r; g; b; a] in
  let '(vertexViewF32, vertexOffset32) :=
    f32_write vertexViewF32 vertexOffset32
      [xTL; yTL; lightX; lightY; radius; attenuation; r; g; b; a] in
  let '(vertexViewF32, vertexOffset32) :=
    f32_write vertexViewF32 vertexOffset32
      [xBR; yBR; lightX; lightY; radius; attenuation; r; g; b; a] in
  let '(vertexViewF32, vertexOffset32) :=
    f32_write vertexViewF32 vertexOffset32
      [xTR; yTR; lightX; lightY; radius; attenuation; r; g; b; a] in
  vertexViewF32.

Definition batch (this : NodeRef) (drawingContext : DrawingContext)
    (light : PointLight)
    (xTL yTL xBL yBL xTR yTR xBR yBR lightX lightY : JSNumber) : Exec unit :=
  let! h := get_handler this in
  (if (instanceCount h =? 0)%Z
   then setCurrentBatchNode (Some this) (Ctx drawingContext)
   else ret tt) ;;
  let radius := radius light in
  let attenuation := attenuation light in
  let r := mul (color_r light) (intensity light) in
  let g := mul (color_g light) (intensity light) in
  let b := mul (color_b light) (intensity light) in
  let a := mul (camera_alpha drawingContext) (light_alpha light) in
  let! h := get_handler this in
  let vertexOffset32 := (instanceCount h * floatsPerInstance h)%Z in
  let vertexViewF32 :=
    store_light (viewF32 h) vertexOffset32
      xTL yTL xBL yBL xTR yTR xBR yBR lightX lightY
      radius attenuation r g b a in
  let h := set_instanceCount (set_viewF32 h vertexViewF32) (instanceCount h + 1)%Z in
  put_handler this h ;;
  if (instanceCount h =? instancesPerBatch h)%Z
  then run this (Ctx drawingContext)
  else ret tt.

(** The arguments of one call of [batch], and a sequence of calls on
    the same handler with nothing in between. *)
Record LightQuad : Type := {
  lq_drawingContext : DrawingContext;
  lq_light : PointLight;
  lq_xTL : JSNumber; lq_yTL : JSNumber;
  lq_xBL : JSNumber; lq_yBL : JSNumber;
  lq_xTR : JSNumber; lq_yTR : JSNumber;
  lq_xBR : JSNumber; lq_yBR : JSNumber;
  lq_lightX : JSNumber; lq_lightY : JSNumber
}.

Definition batch_call (this : NodeRef) (c : LightQuad) : Exec unit :=
  batch this (lq_drawingContext c) (lq_light c)
    (lq_xTL c) (lq_yTL c) (lq_xBL c) (lq_yBL c)
    (lq_xTR c) (lq_yTR c) (lq_xBR c) (lq_yBR c)
    (lq_lightX c) (lq_lightY c).

Definition batch_all (this : NodeRef) (calls : list LightQuad) : Exec unit :=
  for_each (batch_call this) calls.

(** Calls of [batch] and of [run] on the same handler, in any order. *)
Inductive HandlerCall : Type :=
  | DoBatch (c : LightQuad)
  | DoRun (drawingContext : DrawingContext).

Definition handler_call (this : NodeRef) (c : HandlerCall) : Exec unit :=
  match c with
  | DoBatch c => batch_call this c
  | DoRun drawingContext => run this (Ctx drawingContext)
  end.

Definition handler_calls (this : NodeRef) (calls : list HandlerCall) : Exec unit :=
  for_each (handler_call this) calls.

End Batch.

(** ** Utils.getTintAppendFloatAlpha *)

(** [ToInt32]: the number truncated towards zero, modulo 2^32, read as
    a signed 32-bit integer; 0 for [NaN] and the infinities. *)
Definition int32 (z : Z) : Z :=
  ((z + 2147483648) `mod` 4294967296 - 2147483648)%Z.

Definition uint32 (z : Z) : Z := (z `mod` 4294967296)%Z.

Definition ToInt32 (n : JSNumber) : Z :=
  match n with
  | Finite q => int32 (Z.quot (Qnum q) (Z.pos (Qden q)))
  | _ => 0%Z
  end.

(** Modelled from the spec: [Utils.getTintAppendFloatAlpha], which
    SubmitterTile.js calls [getTint], is defined in
    renderer/webgl/Utils.js, a file of the repository that is not among
    the sources at hand. The spec has tints "packed 32-bit for
    tint+alpha". The packing taken here is the one of that function, an
    alpha byte set above a 24-bit colour:
    [var ua = ((a * 255.0) | 0) & 0xff; return ((ua << 24) | rgb) >>> 0;]
    The double-precision product is the parameter [mul]. *)
Definition getTintAppendFloatAlpha (mul : JSNumber -> JSNumber -> JSNumber)
    (rgb a : JSNumber) : JSNumber :=
  let ua := Z.land (ToInt32 (mul a (Finite 255))) 255 in
  Finite (inject_Z (uint32 (Z.lor (int32 (Z.shiftl ua 24)) (ToInt32 rgb)))).

(** ** SubmitterTile.run *)

Module SubmitterTile.

Record UVSource : Type := {
  u0 : JSNumber; v0 : JSNumber; u1 : JSNumber; v1 : JSNumber
}.

(** What a texturer exposes: [frame.source.glTexture] and [uvSource]. *)
Record TexturerFields : Type := {
  frame_source_glTexture : nat;
  uvSource : UVSource
}.

(** What a tinter exposes. *)
Record TintFields : Type := {
  tintFill : bool;
  tintTopLeft : JSNumber;
  tintBottomLeft : JSNumber;
  tintTopRight : JSNumber;
  tintBottomRight : JSNumber
}.

(** A stage is a node with a [run] method, which updates the fields it
    exposes, or a plain object with the fields and no [run]. For the
    game object and element of one call, [run] is a function of the
    fields (and, for a transformer, of the texturer passed to it). *)
Record TexturerNode : Type := {
  texturer_run : option (TexturerFields -> TexturerFields);
  texturer_fields : TexturerFields
}.

Record TransformerNode : Type := {
  transformer_run : option (TexturerFields -> list JSNumber -> list JSNumber);
  transformer_quad : list JSNumber
}.

Record TinterNode : Type := {
  tinter_run : option (TintFields -> TintFields);
  tinter_fields : TintFields
}.

(** The two node tables of a game object are created outside these
    files; they are plain objects, like the tables of the manager. A
    property inherited from [Object.prototype] that is found under the
    key has no [batch] method, and calling it is a [TypeError] (the
    wording of the message is the engine's). *)
Record GameObject : Type := {
  go_tintFill : bool;
  customRenderNodes : JSObject.t NodeRef;
  defaultRenderNodes : JSObject.t NodeRef
}.

(** [0xffffffff] *)
Definition white : JSNumber := Finite 4294967295.

(** [quad[i]] on a [Float32Array]. *)
Definition quad_at (quad : list JSNumber) (i : nat) : JSValue :=
  match quad !! i with
  | Some x => Number x
  | None => Undefined
  end.

Section Run.

(** [getTint] is [Utils.getTintAppendFloatAlpha] (Utils.js, see above);
    it and the methods inherited from [SubmitterQuad] belong to other
    files of the renderer and are parameters of [run]. So is
    double-precision subtraction. *)
Variable getTint : JSNumber -> JSNumber -> JSNumber.
Variable sub : JSNumber -> JSNumber -> JSNumber.
Variable RenderOptions : Type.
Variable NormalMap : Type.
Variable setRenderOptions :
  GameObject -> option NormalMap -> JSValue -> RenderOptions -> RenderOptions.

Record SubmitterTile : Type := {
  batchHandler : string;
  _renderOptions : RenderOptions
}.

(** The arguments of the call of [batch], in order. *)
Record BatchArgs : Type := {
  arg_drawingContext : DrawingContext;
  arg_glTexture : nat;
  arg_quad : list JSValue;
  arg_texX : JSNumber;
  arg_texY : JSNumber;
  arg_texWidth : JSNumber;
  arg_texHeight : JSNumber;
  arg_frame : list JSNumber;
  arg_tintFill : bool;
  arg_tintTopLeft : JSNumber;
  arg_tintBottomLeft : JSNumber;
  arg_tintTopRight : JSNumber;
  arg_tintBottomRight : JSNumber;
  arg_renderOptions : RenderOptions
}.

(** The calls [run] makes, in call order. *)
Inductive SubmitterEvent : Type :=
  | SubmitterOnRunBegin (drawingContext : DrawingContext)
  | TexturerRun
  | TransformerRun
  | TinterRun
  | SetRenderOptions
  | BatchCalled (handler : NodeRef) (args : BatchArgs)
  | SubmitterOnRunEnd (drawingContext : DrawingContext).

Definition run (this : SubmitterTile) (drawingContext : DrawingContext)
    (gameObject : GameObject) (texturerNode : TexturerNode)
    (transformerNode : TransformerNode) (tinterNode : option TinterNode)
    (normalMap : option NormalMap) (normalMapRotation : JSValue)
    : list SubmitterEvent * option JSError :=
  let cameraAlpha := camera_alpha drawingContext in
  let '(texturerCalls, texturer) :=
    match texturer_run texturerNode with
    | Some f => ([TexturerRun], f (texturer_fields texturerNode))
    | None => ([], texturer_fields texturerNode)
    end in
  let '(transformerCalls, quad) :=
    match transformer_run transformerNode with
    | Some f => ([TransformerRun], f texturer (transformer_quad transformerNode))
    | None => ([], transformer_quad transformerNode)
    end in
  let '(tinterCalls, tints) :=
    match tinterNode with
    | Some tinter =>
        match tinter_run tinter with
        | Some f => ([TinterRun], f (tinter_fields tinter))
        | None => ([], tinter_fields tinter)
        end
    | None =>
        let tint := getTint white cameraAlpha in
        ([], {| tintFill := go_tintFill gameObject;
                tintTopLeft := tint; tintBottomLeft := tint;
                tintTopRight := tint; tintBottomRight := tint |})
    end in
  let uvSource := uvSource texturer in
  let u0 := u0 uvSource in
  let v0 := v0 uvSource in
  let u1 := u1 uvSource in
  let v1 := v1 uvSource in
  let renderOptions :=
    setRenderOptions gameObject normalMap normalMapRotation (_renderOptions this) in
  let before :=
    [SubmitterOnRunBegin drawingContext] ++ texturerCalls ++ transformerCalls
    ++ tinterCalls ++ [SetRenderOptions] in
  let handler :=
    match JSObject.get (customRenderNodes gameObject) (batchHandler this) with
    | Some found => Some found
    | None => JSObject.get (defaultRenderNodes gameObject) (batchHandler this)
    end in
  match handler with
  | Some (JSObject.Own node) =>
      let args :=
        {| arg_drawingContext := drawingContext;
           arg_glTexture := frame_source_glTexture texturer;
           arg_quad :=
             [ quad_at quad 0; quad_at quad 1;
               quad_at quad 2; quad_at quad 3;
               quad_at quad 6; quad_at quad 7;
               quad_at quad 4; quad_at quad 5 ];
           arg_texX := u0; arg_texY := v0;
           arg_texWidth := sub u1 u0; arg_texHeight := sub v1 v0;
           arg_frame := [u0; v0; u0; v1; u1; v0; u1; v1];
           arg_tintFill := tintFill tints;
           arg_tintTopLeft := tintTopLeft tints;
           arg_tintBottomLeft := tintBottomLeft tints;
           arg_tintTopRight := tintTopRight tints;
           arg_tintBottomRight := tintBottomRight tints;
           arg_renderOptions := renderOptions |} in
      (before ++ [BatchCalled node args; SubmitterOnRunEnd drawingContext], None)
  | Some (JSObject.Inherited _) =>
      (before, Some (TypeError "batch is not a function"))
  | None =>
      (before,
       Some (TypeError "Cannot read properties of undefined (reading 'batch')"))
  end.

(** The calls of [batch] among the calls made. *)
Definition batchCalls (events : list SubmitterEvent) : list (NodeRef * BatchArgs) :=
  omap (fun e =>
          match e with
          | BatchCalled node args => Some (node, args)
          | _ => None
          end) events.

End Run.

End SubmitterTile.

(** ** Notions used in the statements *)

(** What one flush of handler [h] (reference [this]) under the drawing
    context [dc] appends to the log, most recent first. *)
Definition flush_events (this : NodeRef) (dc : DrawingContext)
    (h : BatchHandlerPointLight) : list Event :=
  [ OnRunEnd this (Ctx dc);
    DrawElements this (Ctx dc) (instanceCount h * indicesPerInstance h) 0;
    BufferUpdate this (instanceCount h * bytesPerInstance h);
    SetUniform this "uProjectionMatrix"
      (UProjectionMatrix (dc_width dc) (dc_height dc));
    SetProjectionMatrix (dc_width dc) (dc_height dc);
    SetUniform this "uResolution" (UVec2 (dc_width dc) (dc_height dc));
    SetUniform this "uCameraZoom" (UFloat (camera_zoom dc)) ].

(** The world after that flush. *)
Definition flushed (w : World) (this : NodeRef) (dc : DrawingContext)
    (h : BatchHandlerPointLight) : World :=
  {| manager := manager w;
     handlers := <[this := set_instanceCount h 0]> (handlers w);
     next_ref := next_ref w;
     log := flush_events this dc h ++ log w |}.

(** The manager keeps [currentBatchDrawingContext] at [null] while there
    is no current batch node. *)
Definition batch_state_ok (m : RenderNodeManager) : Prop :=
  currentBatchNode m = None -> currentBatchDrawingContext m = CtxNull.

(** The fields of a handler fixed at construction. *)
Definition same_layout (h h' : BatchHandlerPointLight) : Prop :=
  instancesPerBatch h' = instancesPerBatch h /\
  indicesPerInstance h' = indicesPerInstance h /\
  bytesPerInstance h' = bytesPerInstance h /\
  floatsPerInstance h' = floatsPerInstance h /\
  length (viewF32 h') = length (viewF32 h).

(** Making [this] the current batch node does not fail: there is no
    current node, or it is [this], or it is a handler whose flush
    returns (nothing pending, or a drawing context stored). *)
Definition previous_batch_flushes (w : World) (this : NodeRef) : Prop :=
  match currentBatchNode (manager w) with
  | None => True
  | Some current =>
      current = this \/
      exists h, handlers w !! current = Some h /\
                (instanceCount h = 0%Z \/
                 exists dc, currentBatchDrawingContext (manager w) = Ctx dc)
  end.

(** The nodes of a debug graph with their depth, parents before
    children, children in order; and the line printed for one of them:
    two spaces per level of depth, the name, a line feed. *)
Fixpoint preorder (node : DebugGraphNode) (depth : nat) : list (nat * string) :=
  match node with
  | DebugNode name children =>
      (depth, name) :: flat_map (fun child => preorder child (depth + 1)) children
  end.

Definition line_feed : string := String (Ascii.ascii_of_nat 10) EmptyString.

Definition spaces (n : nat) : string :=
  String.string_of_list_ascii (repeat (Ascii.ascii_of_nat 32) n).

Definition debug_line (entry : nat * string) : string :=
  spaces (2 * fst entry) +:+ snd entry +:+ line_feed.

Definition concat_lines (lines : list string) : string :=
  fold_right String.append EmptyString lines.


(** Debugging has never been switched on. *)
Definition never_debugged (m : RenderNodeManager) : Prop :=
  debug m = false /\ debugGraph m = None.

(** ** Sample states *)

Definition sample_context (ref : nat) : DrawingContext :=
  {| dc_ref := ref; camera_alpha := one; camera_zoom := one;
     dc_width := Finite 800; dc_height := Finite 600 |}.

(** A handler for batches of three lights, with [count] pending. *)
Definition sample_handler (count : Z) : BatchHandlerPointLight :=
  {| instanceCount := count; instancesPerBatch := 3;
     indicesPerInstance := 6; bytesPerInstance := 160;
     floatsPerInstance := 40; viewF32 := replicate 120 (Finite 0) |}.

Definition sample_manager : RenderNodeManager :=
  initialize (Finite 16) false true false.

(** Two idle handlers, no current batch. *)
Definition sample_world : World :=
  {| manager := sample_manager;
     handlers := <[1 := sample_handler 0]> (<[2 := sample_handler 0]> ∅);
     next_ref := 3; log := [] |}.

(** Handler 1 is the current batch node, two lights pending, under
    drawing context 1. *)
Definition sample_world_batching : World :=
  {| manager := set_currentBatch sample_manager (Some 1) (Ctx (sample_context 1));
     handlers := <[1 := sample_handler 2]> (<[2 := sample_handler 0]> ∅);
     next_ref := 3; log := [] |}.

Definition sample_light : PointLight :=
  {| color_r := one; color_g := one; color_b := one; intensity := Finite 2;
     radius := Finite 64; attenuation := one; light_alpha := one |}.

Definition sample_quad : LightQuad :=
  {| lq_drawingContext := sample_context 1; lq_light := sample_light;
     lq_xTL := Finite 0; lq_yTL := Finite 0;
     lq_xBL := Finite 0; lq_yBL := Finite 64;
     lq_xTR := Finite 64; lq_yTR := Finite 0;
     lq_xBR := Finite 64; lq_yBR := Finite 64;
     lq_lightX := Finite 32; lq_lightY := Finite 32 |}.

(** Exact arithmetic on finite numbers, for the samples only. *)
Definition sample_mul (a b : JSNumber) : JSNumber :=
  match a, b with
  | Finite x, Finite y => Finite (x * y)
  | _, _ => NaN
  end.

Definition sample_fround (a : JSNumber) : JSNumber := a.

Definition sample_sub (a b : JSNumber) : JSNumber :=
  match a, b with
  | Finite x, Finite y => Finite (x - y)
  | _, _ => NaN
  end.

(** A game object whose default nodes name handler 1 as batch handler,
    a texturer and a transformer without [run]. *)
Definition sample_gameObject : SubmitterTile.GameObject :=
  {| SubmitterTile.go_tintFill := false;
     SubmitterTile.customRenderNodes := [];
     SubmitterTile.defaultRenderNodes := [("BatchHandler", 1)] |}.

Definition sample_texturer : SubmitterTile.TexturerNode :=
  {| SubmitterTile.texturer_run := None;
     SubmitterTile.texturer_fields :=
       {| SubmitterTile.frame_source_glTexture := 0;
          SubmitterTile.uvSource :=
            {| SubmitterTile.u0 := Finite 0; SubmitterTile.v0 := Finite 0;
               SubmitterTile.u1 := one; SubmitterTile.v1 := one |} |} |}.

Definition sample_transformer : SubmitterTile.TransformerNode :=
  {| SubmitterTile.transformer_run := None;
     SubmitterTile.transformer_quad :=
       [Finite 0; Finite 0; Finite 0; Finite 32;
        Finite 32; Finite 32; Finite 32; Finite 0] |}.

Definition sample_submitter : SubmitterTile.SubmitterTile bool :=
  {| SubmitterTile.batchHandler := "BatchHandler";
     SubmitterTile._renderOptions := true |}.

(** ** Further notions *)

(** Only the current batch node holds pending instances. *)
Definition one_batch_pending (w : World) : Prop :=
  forall n h,
    handlers w !! n = Some h -> instanceCount h <> 0%Z ->
    currentBatchNode (manager w) = Some n.

(** The class a fresh manager constructs for a built-in name. *)
Definition builtin_class (selfShadow : bool) (name : string) : string :=
  if selfShadow && bool_decide (name = "BatchHandlerQuadLight")
  then "BatchHandlerQuadLightShadow"
  else if selfShadow && bool_decide (name = "BatchHandlerTileSpriteLight")
  then "BatchHandlerTileSpriteLightShadow"
  else name.

(** ** Recording a call tree *)

(** The calls made on the manager while a node named as the root of [t]
    runs with debugging on: [pushDebug] on entry, the calls of the nodes
    it runs in turn, [popDebug] on exit. *)
Fixpoint brackets (t : DebugGraphNode) : list Call :=
  match t with
  | DebugNode name children =>
      CallPushDebug name :: flat_map brackets children ++ [CallPopDebug]
  end.

(** The manager is recording: debugging is on, the debug graph is [g]
    and the current debug node is the one at [path]. *)
Definition recording (w : World) (g : DebugGraphNode) (path : list nat) : Prop :=
  debug (manager w) = true /\
  debugGraph (manager w) = Some g /\
  currentDebugNode (manager w) = Some path.

(** The world [w] with another debug graph and current debug node. *)
Definition recorded (w : World) (g : DebugGraphNode) (path : list nat) : World :=
  with_manager w (set_debugGraph (manager w) (Some g) (Some path)).

Definition render_tree_root : string := "[Render Tree Root]".

(** ** Camera.run *)

Module Camera.

Record Color : Type := {
  alphaGL : JSNumber;
  red : JSNumber;
  green : JSNumber;
  blue : JSNumber;
  alpha : JSNumber
}.

(** The fields of a scene camera that [run] reads or writes. *)
Record SceneCamera : Type := {
  camera_ref : nat;
  x : JSNumber;
  y : JSNumber;
  width : JSNumber;
  height : JSNumber;
  _customViewport : bool;
  backgroundColor : Color;
  flashEffect_isRunning : bool;
  dirty : bool
}.

(** The calls [run] makes on drawing contexts, on the [FillRect] and
    [ListCompositor] nodes of the manager and on the camera, in call
    order. Drawing contexts, children and the parent matrix are
    references. *)
Inductive CameraEvent : Type :=
  | GetClone (source clone : nat)
  | SetScissorBox (context : nat) (x y width height : JSNumber)
  | Use (context : nat)
  | FillRectRun (context : nat) (camera : nat) (parentTransformMatrix : option nat)
      (x y width height : JSNumber) (tl bl tr br : JSNumber) (lighting : Z)
  | ListCompositorRun (context : nat) (children : list nat) (camera : nat)
      (parentTransformMatrix : option nat)
  | Release (context : nat)
  | EmitPostRender (camera : nat).

(** [a > 0] *)
Definition positive (a : JSNumber) : bool :=
  negb (isNaN a) && negb (num_leb a (Finite 0)).

(** What [run] reads of [this.manager]: the property [nodes]. The
    manager is the object the node was constructed with.
    [RenderNodeManager.getNode] constructs with [new constructor(this)],
    and a [RenderNodeManager] has [_nodes] and [getNode] but no property
    [nodes]: on it [this.manager.nodes] is [undefined]. A manager of
    another make may carry a table with the [FillRect] and
    [ListCompositor] nodes. *)
Inductive ManagerNodes : Type :=
  | NodesUndefined
  | NodesTable.

Definition nodes_of (m : RenderNodeManager) : ManagerNodes := NodesUndefined.

Section Run.

(** [GetColor32] (display/color) is a parameter. *)
Variable GetColor32 : JSNumber -> JSNumber -> JSNumber -> JSNumber -> JSNumber.

(** [clone] is the object [drawingContext.getClone()] returns. The
    result is the calls made, the camera afterwards and the exception
    thrown, if any. *)
Definition run (nodes : ManagerNodes) (drawingContext clone : nat)
    (children : list nat) (camera : SceneCamera)
    (parentTransformMatrix : option nat)
    : list CameraEvent * SceneCamera * option JSError :=
  let cx := x camera in
  let cy := y camera in
  let cw := width camera in
  let ch := height camera in
  let '(viewportCalls, currentContext) :=
    if _customViewport camera
    then ([GetClone drawingContext clone; SetScissorBox clone cx cy cw ch; Use clone],
          clone)
    else ([], drawingContext) in
  let fillCalls :=
    if positive (alphaGL (backgroundColor camera))
    then
      let bg := backgroundColor camera in
      let col := GetColor32 (red bg) (green bg) (blue bg) (alpha bg) in
      [FillRectRun currentContext (camera_ref camera) parentTransformMatrix
         cx cy cw ch col col col col 2]
    else [] in
  let childrenCalls :=
    [ListCompositorRun currentContext children (camera_ref camera)
       parentTransformMatrix] in
  let releaseCalls :=
    if _customViewport camera then [Release currentContext] else [] in
  match nodes with
  | NodesUndefined =>
      (viewportCalls, camera,
       Some (TypeError
               (if positive (alphaGL (backgroundColor camera))
                then "Cannot read properties of undefined (reading 'FillRect')"
                else "Cannot read properties of undefined (reading 'ListCompositor')")))
  | NodesTable =>
      (viewportCalls ++ fillCalls ++ childrenCalls ++ releaseCalls
       ++ [EmitPostRender (camera_ref camera)],
       {| camera_ref := camera_ref camera; x := x camera; y := y camera;
          width := width camera; height := height camera;
          _customViewport := _customViewport camera;
          backgroundColor := backgroundColor camera;
          flashEffect_isRunning := flashEffect_isRunning camera;
          dirty := false |},
       None)
  end.

End Run.

(** The context a drawing call goes to, if the call draws. *)
Definition draw_target (e : CameraEvent) : option nat :=
  match e with
  | FillRectRun context _ _ _ _ _ _ _ _ _ _ _ => Some context
  | ListCompositorRun context _ _ _ => Some context
  | _ => None
  end.

(** The contexts entered and left, in order. *)
Definition context_switches (e : CameraEvent) : option (bool * nat) :=
  match e with
  | Use context => Some (true, context)
  | Release context => Some (false, context)
  | _ => None
  end.

End Camera.

(** The triangle a triangle strip draws from position [j] of its index
    list. *)
Definition strip_triangle (indices : list Z) (j : nat) : option (Z * Z * Z) :=
  match indices !! j, indices !! (j + 1), indices !! (j + 2) with
  | Some a, Some b, Some c => Some (a, b, c)
  | _, _, _ => None
  end.

(** The sample world while a frame is recorded: debugging on, the root
    alone in the graph and current. *)
Definition sample_world_recording : World :=
  recorded (with_manager sample_world (set_debug sample_manager true))
    (DebugNode render_tree_root []) [].

Definition sample_tinter : SubmitterTile.TinterNode :=
  {| SubmitterTile.tinter_run := None;
     SubmitterTile.tinter_fields :=
       {| SubmitterTile.tintFill := true;
          SubmitterTile.tintTopLeft := Finite 1;
          SubmitterTile.tintBottomLeft := Finite 2;
          SubmitterTile.tintTopRight := Finite 3;
          SubmitterTile.tintBottomRight := Finite 4 |} |}.

(* ================================================================== *)
(** * Part II: properties *)
(* ================================================================== *)

(** ** Element indices *)

Lemma u16_set_middle (pre post : list Z) (x v : Z) :
  u16_set (pre ++ x :: post) (length pre) v = pre ++ toUint16 v :: post.
Proof.
  unfold u16_set.
  replace (length pre) with (length pre + 0) by lia.
  by rewrite insert_app_r.
Qed.

Lemma elementIndicesBody_fill (pre : list Z) (n i : nat) :
  elementIndicesBody (pre ++ replicate (6 * S n) 0%Z, length pre) i =
  ((pre ++ map toUint16 (quadIndices i)) ++ replicate (6 * n) 0%Z,
   length (pre ++ map toUint16 (quadIndices i))).
Proof.
  replace (6 * S n) with (S (S (S (S (S (S (6 * n))))))) by lia.
  cbn [replicate]. unfold elementIndicesBody.
  rewrite u16_set_middle.
  repeat match goal with
  | |- context [u16_set (?p ++ ?a :: ?x :: ?r) (S ?k)] =>
      change (p ++ a :: x :: r) with (p ++ [a] ++ x :: r);
      rewrite (app_assoc p [a] (x :: r));
      replace (S k) with (length (p ++ [a])) by (rewrite length_app; simpl; lia);
      rewrite u16_set_middle
  end.
  rewrite !length_app. cbn [length map quadIndices].
  rewrite <- !app_assoc. cbn [app].
  replace (Z.of_nat i * 4)%Z with (4 * Z.of_nat i)%Z by lia.
  f_equal. lia.
Qed.

Lemma elementIndices_loop (n : nat) : forall (pre : list Z) (a : nat),
  fold_left elementIndicesBody (seq a n) (pre ++ replicate (6 * n) 0%Z, length pre) =
  (pre ++ flat_map (fun i => map toUint16 (quadIndices i)) (seq a n),
   length pre + 6 * n).
Proof.
  induction n as [|n IH]; intros pre a.
  - cbn. rewrite app_nil_r. f_equal; lia.
  - cbn [seq fold_left flat_map].
    rewrite elementIndicesBody_fill, IH.
    rewrite <- app_assoc, length_app. cbn [length map quadIndices].
    f_equal. lia.
Qed.

(** The array holds, quad after quad, the documented indices reduced to
    16 bits. *)
Lemma _generateElementIndices_flat (instances : nat) :
  _generateElementIndices instances =
  flat_map (fun i => map toUint16 (quadIndices i)) (seq 0 instances).
Proof.
  unfold _generateElementIndices.
  replace (instances * 6 * 2 / 2) with (6 * instances)
    by (rewrite Nat.div_mul by lia; lia).
  change (replicate (6 * instances) 0%Z, 0)
    with ([] ++ replicate (6 * instances) 0%Z, length (@nil Z)).
  by rewrite elementIndices_loop.
Qed.

Lemma quad_chunk_length (l : list nat) :
  length (flat_map (fun i => map toUint16 (quadIndices i)) l) = 6 * length l.
Proof.
  induction l as [|i l IH]; [done|].
  cbn [flat_map]. rewrite length_app, IH. cbn. lia.
Qed.

(** The six elements stored for quad [i], whatever the instance count. *)
Lemma _generateElementIndices_quad (instances i : nat) :
  i < instances ->
  take 6 (drop (6 * i) (_generateElementIndices instances)) =
  map toUint16 (quadIndices i).
Proof.
  intros Hi. rewrite _generateElementIndices_flat.
  replace instances with (i + S (instances - S i)) by lia.
  rewrite seq_app, flat_map_app. cbn [seq flat_map].
  rewrite drop_app_length'
    by (rewrite quad_chunk_length, length_seq; lia).
  by rewrite take_app_length' by done.
Qed.

Lemma toUint16_quadIndices (i : nat) :
  (Z.of_nat i < 16384)%Z -> map toUint16 (quadIndices i) = quadIndices i.
Proof.
  intros Hi. unfold quadIndices, toUint16. cbn [map].
  rewrite !Z.mod_small by lia. done.
Qed.

(** C6, as amended. For every instance count the array has exactly six
    elements per instance; the six elements of quad [i] are
    [4i, 4i, 4i+1, 4i+2, 4i+3, 4i+3] reduced modulo 2^16 (the element
    type is [Uint16]), hence exactly that pattern for every quad
    [i < 16384], which covers every quad when there are at most 16384
    instances. *)
Theorem generateElementIndices_pattern (instances : nat) :
  length (_generateElementIndices instances) = 6 * instances /\
  (forall i, i < instances ->
     take 6 (drop (6 * i) (_generateElementIndices instances)) =
     map toUint16 (quadIndices i)) /\
  (forall i, i < instances -> (Z.of_nat i < 16384)%Z ->
     take 6 (drop (6 * i) (_generateElementIndices instances)) =
     quadIndices i).
Proof.
  split; [|split].
  - rewrite _generateElementIndices_flat, quad_chunk_length, length_seq. done.
  - intros i Hi. by apply _generateElementIndices_quad.
  - intros i Hi Hsmall.
    rewrite _generateElementIndices_quad by done.
    by apply toUint16_quadIndices.
Qed.

Lemma generateElementIndices_pattern_witness :
  2 < 3 /\ (Z.of_nat 2 < 16384)%Z /\
  take 6 (drop (6 * 2) (_generateElementIndices 3)) = [8; 8; 9; 10; 11; 11]%Z.
Proof.
  split; [lia|]. split; [lia|].
  apply (proj2 (proj2 (generateElementIndices_pattern 3)) 2); lia.
Defined.

(** C6 as first stated fails beyond 16384 instances: quad 16384 of a
    16385-instance buffer is stored as [0, 0, 1, 2, 3, 3], its base index
    65536 having wrapped round to 0. *)
Lemma generateElementIndices_wraps :
  let instances := Z.to_nat 16385 in
  let i := Z.to_nat 16384 in
  i < instances /\
  take 6 (drop (6 * i) (_generateElementIndices instances)) = [0; 0; 1; 2; 3; 3]%Z /\
  quadIndices i = [65536; 65536; 65537; 65538; 65539; 65539]%Z /\
  take 6 (drop (6 * i) (_generateElementIndices instances)) <> quadIndices i.
Proof.
  intros instances i.
  assert (Hi : i < instances) by (subst instances i; lia).
  split; [done|].
  rewrite _generateElementIndices_quad by done.
  split; [|split]; [vm_compute; reflexivity .. | vm_compute; discriminate].
Qed.

(** ** setMaxParallelTextureUnits *)

Lemma num_leb_false_flip (a b : JSNumber) :
  isNaN a = false -> isNaN b = false -> num_leb a b = false -> num_leb b a = true.
Proof.
  destruct a as [| |x|], b as [| |y|]; cbn; try done.
  intros _ _ H. apply Qle_bool_iff.
  destruct (Qlt_le_dec y x) as [Hlt|Hle].
  - by apply Qlt_le_weak.
  - apply Qle_bool_iff in Hle. congruence.
Qed.

Lemma num_leb_trans (a b c : JSNumber) :
  num_leb a b = true -> num_leb b c = true -> num_leb a c = true.
Proof.
  destruct a as [| |x|], b as [| |y|], c as [| |z|]; cbn; try done.
  rewrite !Qle_bool_iff. apply Qle_trans.
Qed.

Lemma num_leb_refl (a : JSNumber) : isNaN a = false -> num_leb a a = true.
Proof.
  destruct a; cbn; try done. intros _. apply Qle_bool_iff, Qle_refl.
Qed.

Lemma num_leb_not_NaN_l (a b : JSNumber) : num_leb a b = true -> isNaN a = false.
Proof. by destruct a, b. Qed.

Lemma num_leb_not_NaN_r (a b : JSNumber) : num_leb a b = true -> isNaN b = false.
Proof. by destruct a, b. Qed.

(** [Math.max(1, Math.min(v, hi))] is [v] clamped into [[1, hi]]. *)
Lemma max_min_clamp (v hi : JSNumber) :
  isNaN v = false -> num_leb one hi = true ->
  let r := Math_max one (Math_min v hi) in
  num_leb one r = true /\ num_leb r hi = true /\
  (num_leb one v = true -> num_leb v hi = true -> r = v) /\
  (num_leb one v = false -> r = one) /\
  (num_leb v hi = false -> r = hi).
Proof.
  intros Hv Hhi r. subst r.
  pose proof (num_leb_not_NaN_r _ _ Hhi) as Hhi'.
  unfold Math_max, Math_min. rewrite Hv, Hhi'. cbn [orb isNaN one].
  destruct (num_leb v hi) eqn:Hvh.
  - rewrite Hv. change (Finite 1) with one.
    destruct (num_leb one v) eqn:H1v.
    + split; [done|]. split; [done|]. split; [done|]. split; done.
    + split; [by apply num_leb_refl|]. split; [done|].
      split; [done|]. split; done.
  - rewrite Hhi'. change (Finite 1) with one. rewrite Hhi.
    split; [done|]. split; [by apply num_leb_refl|].
    split; [done|]. split; [|done].
    intros H1v. exfalso.
    pose proof (num_leb_false_flip _ _ (eq_refl : isNaN one = false) Hv H1v) as Hv1.
    pose proof (num_leb_trans _ _ _ Hv1 Hhi). congruence.
Qed.

(** C7. For a number [v] (not [NaN]) and a renderer with
    [1 <= maxTextures], [setMaxParallelTextureUnits(v)] stores [v] clamped
    into [[1, maxTextures]] and emits the stored value to the listeners of
    [SET_PARALLEL_TEXTURE_UNITS]; 0 gives 1 and [maxTextures + 5] gives
    [maxTextures]. Nothing else changes. *)
Theorem setMaxParallelTextureUnits_clamps (w : World) (v : JSNumber) :
  isNaN v = false ->
  num_leb one (renderer_maxTextures (manager w)) = true ->
  let maxTextures := renderer_maxTextures (manager w) in
  exists r,
    setMaxParallelTextureUnits (Number v) w =
      Ok tt {| manager := set_maxParallelTextureUnits (manager w) r;
               handlers := handlers w; next_ref := next_ref w;
               log := Emit_SET_PARALLEL_TEXTURE_UNITS r :: log w |} /\
    num_leb one r = true /\ num_leb r maxTextures = true /\
    (num_leb one v = true -> num_leb v maxTextures = true -> r = v) /\
    (num_leb one v = false -> r = one) /\
    (num_leb v maxTextures = false -> r = maxTextures) /\
    (v = Finite 0 -> r = one) /\
    (forall q, maxTextures = Finite q -> v = Finite (q + 5) -> r = maxTextures).
Proof.
  intros Hv Hmax maxTextures.
  destruct (max_min_clamp v maxTextures Hv Hmax) as (H1 & H2 & H3 & H4 & H5).
  exists (Math_max one (Math_min v maxTextures)).
  split; [reflexivity|].
  repeat split; try assumption.
  - intros ->. by apply H4.
  - intros q Hq ->. apply H5. rewrite Hq. cbn.
    destruct (Qle_bool (q + 5) q) eqn:Hle; [|done].
    apply Qle_bool_iff in Hle. exfalso.
    apply (Qlt_irrefl q). eapply Qlt_le_trans; [|exact Hle].
    rewrite <- (Qplus_0_r q) at 1. by apply Qplus_lt_r.
Qed.

(** C9. Called without an argument, [setMaxParallelTextureUnits] stores
    [NaN] (and emits it): [Math.min(undefined, maxTextures)] is [NaN] and
    so is [Math.max(1, NaN)]. [NaN] is not in [[1, maxTextures]], whatever
    [maxTextures] is. *)
Theorem setMaxParallelTextureUnits_undefined (w : World) :
  setMaxParallelTextureUnits Undefined w =
    Ok tt {| manager := set_maxParallelTextureUnits (manager w) NaN;
             handlers := handlers w; next_ref := next_ref w;
             log := Emit_SET_PARALLEL_TEXTURE_UNITS NaN :: log w |} /\
  Math_min (ToNumber Undefined) (renderer_maxTextures (manager w)) = NaN /\
  Math_max one NaN = NaN /\
  num_leb one NaN = false /\
  num_leb NaN (renderer_maxTextures (manager w)) = false.
Proof. repeat split. Qed.

(** ** BatchHandlerPointLight.run *)

Lemma run_empty (w : World) (this : NodeRef) (h : BatchHandlerPointLight)
    (drawingContext : CtxVal) :
  handlers w !! this = Some h -> instanceCount h = 0%Z ->
  run this drawingContext w = Ok tt w.
Proof.
  intros Hh Hz. unfold run, bind, get_handler. rewrite Hh, Hz. reflexivity.
Qed.

Lemma run_flush (w : World) (this : NodeRef) (h : BatchHandlerPointLight)
    (dc : DrawingContext) :
  handlers w !! this = Some h -> instanceCount h <> 0%Z ->
  run this (Ctx dc) w = Ok tt (flushed w this dc h).
Proof.
  intros Hh Hnz. unfold run, bind, get_handler. rewrite Hh.
  destruct (Z.eqb_spec (instanceCount h) 0); [done|]. reflexivity.
Qed.

Lemma run_not_a_context (w : World) (this : NodeRef) (h : BatchHandlerPointLight)
    (drawingContext : CtxVal) :
  handlers w !! this = Some h -> instanceCount h <> 0%Z ->
  (forall dc, drawingContext <> Ctx dc) ->
  exists message, run this drawingContext w = Throw (TypeError message) w.
Proof.
  intros Hh Hnz Hctx. unfold run, bind, get_handler. rewrite Hh.
  destruct (Z.eqb_spec (instanceCount h) 0); [done|].
  destruct drawingContext as [| |dc]; cbn; eauto.
  by destruct (Hctx dc).
Qed.

Lemma flushed_handler (w : World) (this : NodeRef) (dc : DrawingContext)
    (h : BatchHandlerPointLight) :
  handlers (flushed w this dc h) !! this = Some (set_instanceCount h 0).
Proof. cbn. apply lookup_insert_eq. Qed.

Lemma drawCounts_flush_events (this node : NodeRef) (dc : DrawingContext)
    (h : BatchHandlerPointLight) :
  drawCounts node (flush_events this dc h) =
  if decide (this = node) then [(instanceCount h * indicesPerInstance h)%Z] else [].
Proof. cbn. by destruct (decide (this = node)). Qed.

(** C4. [run] on a handler with no pending instance returns at once: no
    draw call, no change at all. With pending instances it sets the
    uniforms, updates the buffer, issues exactly one draw call, over
    [instanceCount * indicesPerInstance] indices, and resets
    [instanceCount] to 0; a second [run] straight after it is again a
    no-op. *)
Theorem run_flushes_once (w : World) (this : NodeRef)
    (h : BatchHandlerPointLight) (dc : DrawingContext) :
  handlers w !! this = Some h ->
  (instanceCount h = 0%Z ->
     forall drawingContext, run this drawingContext w = Ok tt w) /\
  (instanceCount h <> 0%Z ->
     exists w',
       run this (Ctx dc) w = Ok tt w' /\
       log w' = flush_events this dc h ++ log w /\
       drawCounts this (log w') =
         (instanceCount h * indicesPerInstance h)%Z :: drawCounts this (log w) /\
       (exists h', handlers w' !! this = Some h' /\ instanceCount h' = 0%Z) /\
       manager w' = manager w /\
       forall drawingContext, run this drawingContext w' = Ok tt w').
Proof.
  intros Hh. split.
  - intros Hz drawingContext. by apply (run_empty w this h).
  - intros Hnz. exists (flushed w this dc h).
    split; [by apply run_flush|].
    split; [done|].
    split.
    { unfold flushed, drawCounts. cbn. by rewrite decide_True. }
    split; [eexists; split; [apply flushed_handler | done]|].
    split; [done|].
    intros drawingContext.
    apply (run_empty _ this (set_instanceCount h 0)); [apply flushed_handler | done].
Qed.

(** ** setCurrentBatchNode *)

(** [run] leaves the manager alone and logs no call of [run]. *)
Lemma run_footprint (w : World) (this : NodeRef) (drawingContext : CtxVal) :
  exists evs,
    runCalls evs = [] /\
    manager (world_of (run this drawingContext w)) = manager w /\
    log (world_of (run this drawingContext w)) = evs ++ log w.
Proof.
  unfold run, bind, get_handler.
  destruct (handlers w !! this) as [h|]; [|by exists []].
  destruct (Z.eqb_spec (instanceCount h) 0); [by exists []|].
  destruct drawingContext as [| |dc]; [by exists [] | by exists [] |].
  by exists (flush_events this dc h).
Qed.

Lemma setCurrentBatchNode_same (w : World) (node : option NodeRef)
    (drawingContext : CtxVal) :
  currentBatchNode (manager w) = node ->
  setCurrentBatchNode node drawingContext w = Ok tt w.
Proof.
  intros Hcur. unfold setCurrentBatchNode, bind, get_manager.
  by rewrite bool_decide_eq_false_2 by (intros Hne; by apply Hne).
Qed.

Lemma setCurrentBatchNode_first (w : World) (node : NodeRef)
    (drawingContext : CtxVal) :
  currentBatchNode (manager w) = None ->
  setCurrentBatchNode (Some node) drawingContext w =
  Ok tt (with_manager w (set_currentBatch (manager w) (Some node) drawingContext)).
Proof.
  intros Hcur. unfold setCurrentBatchNode, bind, get_manager.
  rewrite Hcur. by rewrite bool_decide_eq_true_2 by done.
Qed.

(** Switching away from the current node [current]: the manager calls
    [current.run] with the stored context while [current] is still the
    current node, and only then installs the new pair. *)
Lemma setCurrentBatchNode_switch (w : World) (current : NodeRef)
    (node : option NodeRef) (drawingContext : CtxVal) :
  currentBatchNode (manager w) = Some current ->
  node <> Some current ->
  let stored := currentBatchDrawingContext (manager w) in
  setCurrentBatchNode node drawingContext w =
  match run current stored (with_event w (CallRun current stored)) with
  | Ok _ w' =>
      Ok tt (with_manager w'
               (set_currentBatch (manager w') node
                  (match node with Some _ => drawingContext | None => CtxNull end)))
  | Throw e w' => Throw e w'
  end.
Proof.
  intros Hcur Hne stored. unfold setCurrentBatchNode, bind, get_manager.
  rewrite Hcur. rewrite bool_decide_eq_true_2 by congruence.
  cbn [emit]. fold stored.
  by destruct (run current stored (with_event w (CallRun current stored))).
Qed.

(** The shape of the log and of the manager after switching away from
    [current]. *)
Lemma setCurrentBatchNode_switch_log (w : World) (current : NodeRef)
    (node : option NodeRef) (drawingContext : CtxVal) :
  currentBatchNode (manager w) = Some current ->
  node <> Some current ->
  let stored := currentBatchDrawingContext (manager w) in
  exists evs,
    runCalls evs = [] /\
    match setCurrentBatchNode node drawingContext w with
    | Ok _ w' =>
        log w' = evs ++ CallRun current stored :: log w /\
        currentBatchNode (manager w') = node /\
        currentBatchDrawingContext (manager w') =
          match node with Some _ => drawingContext | None => CtxNull end
    | Throw _ w' =>
        log w' = evs ++ CallRun current stored :: log w /\
        manager w' = manager w
    end.
Proof.
  intros Hcur Hne stored.
  rewrite (setCurrentBatchNode_switch w current node drawingContext Hcur Hne).
  fold stored.
  destruct (run_footprint (with_event w (CallRun current stored)) current stored)
    as (evs & Hcalls & Hm & Hlog).
  exists evs. split; [done|].
  destruct (run current stored (with_event w (CallRun current stored)));
    cbn in *; by rewrite ?Hm.
Qed.

Lemma setCurrentBatchNode_state_ok (w : World) (node : option NodeRef)
    (drawingContext : CtxVal) :
  batch_state_ok (manager w) ->
  batch_state_ok (manager (world_of (setCurrentBatchNode node drawingContext w))).
Proof.
  intros Hok.
  destruct (decide (currentBatchNode (manager w) = node)) as [Heq|Hne].
  - by rewrite setCurrentBatchNode_same.
  - destruct (currentBatchNode (manager w)) as [current|] eqn:Hcur.
    + rewrite (setCurrentBatchNode_switch w current node drawingContext Hcur)
        by congruence.
      destruct (run_footprint
                  (with_event w (CallRun current (currentBatchDrawingContext (manager w))))
                  current (currentBatchDrawingContext (manager w)))
        as (evs & _ & Hm & _).
      destruct (run current _ _); cbn in *.
      * unfold batch_state_ok. cbn. by intros ->.
      * by rewrite Hm.
    + destruct node as [n|]; [|done].
      rewrite setCurrentBatchNode_first by done. cbn. by intros ?.
Qed.

Lemma initialize_state_ok (maxTextures : JSNumber)
    (autoMobilePipeline desktop selfShadow : bool) :
  batch_state_ok (initialize maxTextures autoMobilePipeline desktop selfShadow).
Proof. by intros _. Qed.

(** C1. Once [setCurrentBatchNode(A, ctxA)] has returned, [A] is the
    current node and its stored context is [ctxA] (unless [A] was current
    already, in which case the call changed nothing). From there:
    [setCurrentBatchNode(B, ctxB)] with [B] another node calls [A.run]
    exactly once, with the stored context, while [A] is still current, and
    then installs [B] and [ctxB]; [setCurrentBatchNode(A, anything)] calls
    nothing and changes nothing; [setCurrentBatchNode(null)] calls [A.run]
    once with the stored context and then sets both the current node and
    the stored context to [null]; with no current node it does nothing and
    both are [null] already. *)
Theorem setCurrentBatchNode_protocol (w w1 : World) (A B : NodeRef)
    (ctxA ctxB : CtxVal) :
  A <> B ->
  setCurrentBatchNode (Some A) ctxA w = Ok tt w1 ->
  let stored := currentBatchDrawingContext (manager w1) in
  (currentBatchNode (manager w1) = Some A /\
   (currentBatchNode (manager w) <> Some A -> stored = ctxA)) /\
  (setCurrentBatchNode (Some B) ctxB w1 =
     match run A stored (with_event w1 (CallRun A stored)) with
     | Ok _ w' =>
         Ok tt (with_manager w' (set_currentBatch (manager w') (Some B) ctxB))
     | Throw e w' => Throw e w'
     end /\
   exists evs,
     runCalls evs = [] /\
     match setCurrentBatchNode (Some B) ctxB w1 with
     | Ok _ w2 =>
         log w2 = evs ++ CallRun A stored :: log w1 /\
         currentBatchNode (manager w2) = Some B /\
         currentBatchDrawingContext (manager w2) = ctxB
     | Throw _ w2 =>
         log w2 = evs ++ CallRun A stored :: log w1 /\
         manager w2 = manager w1
     end) /\
  (forall h, handlers w1 !! A = Some h ->
     instanceCount h = 0%Z \/ (exists dc, stored = Ctx dc) ->
     exists w2, setCurrentBatchNode (Some B) ctxB w1 = Ok tt w2) /\
  (forall anything, setCurrentBatchNode (Some A) anything w1 = Ok tt w1) /\
  (exists evs,
     runCalls evs = [] /\
     match setCurrentBatchNode None ctxB w1 with
     | Ok _ w2 =>
         log w2 = evs ++ CallRun A stored :: log w1 /\
         currentBatchNode (manager w2) = None /\
         currentBatchDrawingContext (manager w2) = CtxNull
     | Throw _ w2 =>
         log w2 = evs ++ CallRun A stored :: log w1 /\
         manager w2 = manager w1
     end) /\
  (forall w0 anything,
     batch_state_ok (manager w0) -> currentBatchNode (manager w0) = None ->
     setCurrentBatchNode None anything w0 = Ok tt w0 /\
     currentBatchDrawingContext (manager w0) = CtxNull).
Proof.
  intros HAB Hfirst stored.
  assert (Hcur1 : currentBatchNode (manager w1) = Some A /\
                  (currentBatchNode (manager w) <> Some A -> stored = ctxA)).
  { subst stored.
    destruct (currentBatchNode (manager w)) as [current|] eqn:Hcur.
    - destruct (decide (current = A)) as [->|Hne].
      + rewrite setCurrentBatchNode_same in Hfirst by done.
        injection Hfirst as <-. by split.
      + rewrite (setCurrentBatchNode_switch w current (Some A) ctxA Hcur)
          in Hfirst by congruence.
        destruct (run current _ _) as [[] w'|]; [|done].
        injection Hfirst as <-. by split.
    - rewrite setCurrentBatchNode_first in Hfirst by done.
      injection Hfirst as <-. by split. }
  destruct Hcur1 as [Hcur1 Hstored].
  split; [done|].
  split.
  { split.
    - apply (setCurrentBatchNode_switch w1 A (Some B) ctxB Hcur1). congruence.
    - apply (setCurrentBatchNode_switch_log w1 A (Some B) ctxB Hcur1). congruence. }
  split.
  { intros h Hh Hrun.
    rewrite (setCurrentBatchNode_switch w1 A (Some B) ctxB Hcur1) by congruence.
    fold stored.
    destruct (Z.eq_dec (instanceCount h) 0%Z) as [Hz|Hnz].
    - rewrite (run_empty _ A h) by done. eauto.
    - destruct Hrun as [Hz|[dc Hdc]]; [done|].
      rewrite Hdc. rewrite (run_flush _ A h) by done. eauto. }
  split.
  { intros anything. by apply setCurrentBatchNode_same. }
  split.
  { by apply (setCurrentBatchNode_switch_log w1 A None ctxB Hcur1). }
  intros w0 anything Hok Hnone.
  split; [by apply setCurrentBatchNode_same | by apply Hok].
Qed.

Lemma setCurrentBatchNode_protocol_witness :
  exists w1,
    setCurrentBatchNode (Some 1) (Ctx (sample_context 1)) sample_world = Ok tt w1 /\
    currentBatchNode (manager w1) = Some 1 /\
    currentBatchDrawingContext (manager w1) = Ctx (sample_context 1) /\
    exists w2, setCurrentBatchNode (Some 2) (Ctx (sample_context 2)) w1 = Ok tt w2.
Proof.
  eexists. split; [reflexivity|].
  pose proof (setCurrentBatchNode_protocol sample_world _ 1 2
                (Ctx (sample_context 1)) (Ctx (sample_context 2))
                ltac:(lia) eq_refl) as (Hcur & _ & Hok & _).
  split; [exact (proj1 Hcur)|].
  split; [apply (proj2 Hcur); discriminate|].
  apply (Hok (sample_handler 0)); [reflexivity | by left].
Defined.

(** C3 as first stated fails: with handler 1 current, two lights pending
    under drawing context 1, [setCurrentBatchNode] with the same node and
    drawing context 2 calls nothing and keeps context 1. *)
Lemma setCurrentBatchNode_same_node_no_flush :
  let N := 1 in
  let C1 := Ctx (sample_context 1) in
  let C2 := Ctx (sample_context 2) in
  currentBatchNode (manager sample_world_batching) = Some N /\
  currentBatchDrawingContext (manager sample_world_batching) = C1 /\
  (exists h, handlers sample_world_batching !! N = Some h /\ instanceCount h = 2%Z) /\
  C2 <> C1 /\
  setCurrentBatchNode (Some N) C2 sample_world_batching = Ok tt sample_world_batching /\
  ~ (exists w', setCurrentBatchNode (Some N) C2 sample_world_batching = Ok tt w' /\
                In (CallRun N C1) (log w')) /\
  ~ (exists w', setCurrentBatchNode (Some N) C2 sample_world_batching = Ok tt w' /\
                currentBatchDrawingContext (manager w') = C2).
Proof.
  intros N C1 C2.
  assert (Hsame : setCurrentBatchNode (Some N) C2 sample_world_batching =
                  Ok tt sample_world_batching)
    by (by apply setCurrentBatchNode_same).
  split; [done|]. split; [done|].
  split; [by exists (sample_handler 2)|].
  split; [discriminate|].
  split; [done|].
  split; intros (w' & Hw' & Hbad); rewrite Hsame in Hw'; injection Hw' as <-.
  - destruct Hbad.
  - discriminate.
Qed.

(** C3, as amended. While [N] is the current batch node with stored
    context [C1], [setCurrentBatchNode(N, C2)] is a no-op whatever [C2]
    is: [N.run] is not called and the stored context stays [C1]. The
    batch of [N] is flushed ([N.run] called once, with [C1]) when the
    manager is given another node, or [null]. *)
Theorem setCurrentBatchNode_flush_on_node_change (w : World) (N : NodeRef)
    (C1 C2 : CtxVal) :
  currentBatchNode (manager w) = Some N ->
  currentBatchDrawingContext (manager w) = C1 ->
  setCurrentBatchNode (Some N) C2 w = Ok tt w /\
  forall node drawingContext,
    node <> Some N ->
    exists evs,
      runCalls evs = [] /\
      log (world_of (setCurrentBatchNode node drawingContext w)) =
        evs ++ CallRun N C1 :: log w.
Proof.
  intros Hcur Hctx. split; [by apply setCurrentBatchNode_same|].
  intros node drawingContext Hne.
  destruct (setCurrentBatchNode_switch_log w N node drawingContext Hcur Hne)
    as (evs & Hcalls & Hres).
  exists evs. split; [done|]. rewrite Hctx in Hres.
  destruct (setCurrentBatchNode node drawingContext w); cbn; by destruct Hres.
Qed.

Lemma setCurrentBatchNode_flush_on_node_change_witness :
  setCurrentBatchNode (Some 1) (Ctx (sample_context 2)) sample_world_batching =
    Ok tt sample_world_batching /\
  exists evs,
    runCalls evs = [] /\
    log (world_of (setCurrentBatchNode (Some 2) (Ctx (sample_context 2))
                     sample_world_batching)) =
      evs ++ [CallRun 1 (Ctx (sample_context 1))].
Proof.
  destruct (setCurrentBatchNode_flush_on_node_change sample_world_batching 1
              (Ctx (sample_context 1)) (Ctx (sample_context 2))
              eq_refl eq_refl) as [Hsame Hflush].
  split; [exact Hsame|].
  apply (Hflush (Some 2) (Ctx (sample_context 2))). discriminate.
Defined.

(** ** BatchHandlerPointLight.batch *)

Lemma drawCounts_app (node : NodeRef) (l1 l2 : list Event) :
  drawCounts node (l1 ++ l2) = drawCounts node l1 ++ drawCounts node l2.
Proof. apply omap_app. Qed.

(** Registering [this] as the current batch node, when the previous
    batch flushes: [this] becomes current, its own state and its draw
    calls are untouched. *)
Lemma setCurrentBatchNode_register (w : World) (this : NodeRef)
    (h : BatchHandlerPointLight) (drawingContext : CtxVal) :
  handlers w !! this = Some h ->
  previous_batch_flushes w this ->
  exists w0,
    setCurrentBatchNode (Some this) drawingContext w = Ok tt w0 /\
    handlers w0 !! this = Some h /\
    currentBatchNode (manager w0) = Some this /\
    drawCounts this (log w0) = drawCounts this (log w).
Proof.
  intros Hh Hprev. unfold previous_batch_flushes in Hprev.
  destruct (currentBatchNode (manager w)) as [current|] eqn:Hcur.
  - destruct (decide (current = this)) as [->|Hne].
    { exists w. by rewrite setCurrentBatchNode_same. }
    destruct Hprev as [?|(hc & Hhc & Hrun)]; [done|].
    rewrite (setCurrentBatchNode_switch w current (Some this) drawingContext Hcur)
      by congruence.
    destruct (Z.eq_dec (instanceCount hc) 0%Z) as [Hz|Hnz].
    + rewrite (run_empty _ current hc) by done.
      eexists. split; [reflexivity|]. by cbn.
    + destruct Hrun as [?|[dc Hdc]]; [done|].
      rewrite Hdc, (run_flush _ current hc) by done.
      eexists. split; [reflexivity|]. cbn.
      rewrite lookup_insert_ne by done.
      split; [done|]. split; [done|].
      rewrite decide_False by done. done.
  - rewrite setCurrentBatchNode_first by done.
    eexists. split; [reflexivity|]. by cbn.
Qed.

Section BatchProperties.

Variable mul : JSNumber -> JSNumber -> JSNumber.
Variable fround : JSNumber -> JSNumber.

Lemma f32_write_length (values view : list JSNumber) (offset : Z) :
  length (fst (f32_write fround view offset values)) = length view.
Proof.
  revert view offset. induction values as [|v values IH]; intros view offset.
  - done.
  - cbn [f32_write]. rewrite IH. unfold f32_set.
    destruct (0 <=? offset)%Z; [apply length_insert | done].
Qed.

Lemma store_light_length (view : list JSNumber) (offset : Z)
    (xTL yTL xBL yBL xTR yTR xBR yBR lightX lightY
     radius attenuation r g b a : JSNumber) :
  length (store_light fround view offset xTL yTL xBL yBL xTR yTR xBR yBR
            lightX lightY radius attenuation r g b a) = length view.
Proof.
  unfold store_light.
  repeat match goal with
  | |- context [f32_write fround ?v ?o ?vals] =>
      let H := fresh "H" in
      pose proof (f32_write_length vals v o) as H;
      destruct (f32_write fround v o vals); cbn [fst] in H
  end.
  congruence.
Qed.

Lemma previous_batch_flushes_frame (w w' : World) (this : NodeRef) :
  manager w' = manager w ->
  (forall n, n <> this -> handlers w' !! n = handlers w !! n) ->
  previous_batch_flushes w this -> previous_batch_flushes w' this.
Proof.
  intros Hm Hframe. unfold previous_batch_flushes. rewrite Hm.
  destruct (currentBatchNode (manager w)) as [current|]; [|done].
  intros [->|Hflush]; [by left|].
  destruct (decide (current = this)) as [->|Hne]; [by left|].
  right. by rewrite Hframe.
Qed.

(** One call of [batch] on a handler with room left. *)
Lemma batch_step (w : World) (this : NodeRef) (h : BatchHandlerPointLight)
    (c : LightQuad) :
  handlers w !! this = Some h ->
  (0 <= instanceCount h < instancesPerBatch h)%Z ->
  previous_batch_flushes w this ->
  let full := (instanceCount h + 1 =? instancesPerBatch h)%Z in
  exists w' h',
    batch_call mul fround this c w = Ok tt w' /\
    handlers w' !! this = Some h' /\
    same_layout h h' /\
    instanceCount h' = (if full then 0 else instanceCount h + 1)%Z /\
    drawCounts this (log w') =
      (if full then [(instancesPerBatch h * indicesPerInstance h)%Z] else [])
      ++ drawCounts this (log w) /\
    previous_batch_flushes w' this.
Proof.
  intros Hh Hrange Hprev full.
  assert (Hreg : exists w0,
    (if (instanceCount h =? 0)%Z
     then setCurrentBatchNode (Some this) (Ctx (lq_drawingContext c))
     else ret tt) w = Ok tt w0 /\
    handlers w0 !! this = Some h /\
    drawCounts this (log w0) = drawCounts this (log w) /\
    previous_batch_flushes w0 this).
  { destruct (instanceCount h =? 0)%Z.
    - destruct (setCurrentBatchNode_register w this h
                  (Ctx (lq_drawingContext c)) Hh Hprev)
        as (w0 & Hset & Hh0 & Hcur & Hdraw).
      exists w0. repeat split; try done.
      unfold previous_batch_flushes. rewrite Hcur. by left.
    - by exists w. }
  destruct Hreg as (w0 & Hreg & Hh0 & Hdraw0 & Hprev0).
  unfold batch_call, batch, bind at 1.
  unfold get_handler at 1. rewrite Hh.
  unfold bind at 1. rewrite Hreg.
  unfold bind at 1. unfold get_handler at 1. rewrite Hh0.
  set (h1 := set_instanceCount (set_viewF32 h _) _).
  change (instanceCount h1) with (instanceCount h + 1)%Z.
  change (instancesPerBatch h1) with (instancesPerBatch h).
  fold full.
  unfold bind at 1, put_handler.
  assert (Hlayout : same_layout h h1).
  { repeat split. cbn. apply store_light_length. }
  destruct full eqn:Hfull.
  - apply Z.eqb_eq in Hfull.
    rewrite (run_flush (with_handler w0 this h1) this h1)
      by first [apply lookup_insert_eq | (subst h1; cbn; lia)].
    eexists _, (set_instanceCount h1 0).
    split; [reflexivity|].
    split; [apply flushed_handler|].
    split; [by destruct Hlayout as (? & ? & ? & ? & ?)|].
    split; [done|].
    split.
    { cbn [flushed log with_handler]. rewrite drawCounts_app.
      rewrite drawCounts_flush_events, decide_True by done.
      subst h1. cbn [instanceCount indicesPerInstance set_instanceCount set_viewF32].
      by rewrite Hfull, Hdraw0. }
    apply (previous_batch_flushes_frame w0); [done| |done].
    intros n Hn. cbn. by rewrite !lookup_insert_ne by done.
  - exists (with_handler w0 this h1), h1.
    split; [reflexivity|].
    split; [apply lookup_insert_eq|].
    split; [done|]. split; [done|]. split; [done|].
    apply (previous_batch_flushes_frame w0); [done| |done].
    intros n Hn. cbn. by rewrite lookup_insert_ne by done.
Qed.

Lemma same_layout_trans (h1 h2 h3 : BatchHandlerPointLight) :
  same_layout h1 h2 -> same_layout h2 h3 -> same_layout h1 h3.
Proof.
  intros (? & ? & ? & ? & ?) (? & ? & ? & ? & ?).
  repeat split; congruence.
Qed.

(** Any number of calls of [batch] in a row, from a handler with room
    left: the count advances modulo the capacity, with one draw call
    of a full batch each time it wraps. *)
Lemma batch_all_spec (this : NodeRef) (calls : list LightQuad) :
  forall (w : World) (h : BatchHandlerPointLight),
  handlers w !! this = Some h ->
  (0 <= instanceCount h < instancesPerBatch h)%Z ->
  previous_batch_flushes w this ->
  let total := (instanceCount h + Z.of_nat (length calls))%Z in
  exists w' h',
    batch_all mul fround this calls w = Ok tt w' /\
    handlers w' !! this = Some h' /\
    same_layout h h' /\
    instanceCount h' = (total `mod` instancesPerBatch h)%Z /\
    drawCounts this (log w') =
      replicate (Z.to_nat (total / instancesPerBatch h))
        (instancesPerBatch h * indicesPerInstance h)%Z
      ++ drawCounts this (log w) /\
    previous_batch_flushes w' this.
Proof.
  induction calls as [|c calls IH]; intros w h Hh Hrange Hprev total.
  - exists w, h. subst total. cbn [length]. rewrite Z.add_0_r.
    rewrite Z.mod_small, Z.div_small by lia.
    repeat split; done.
  - destruct (batch_step w this h c Hh Hrange Hprev)
      as (w1 & h1 & Hstep & Hh1 & Hlay1 & Hic1 & Hdraw1 & Hprev1).
    pose proof Hlay1 as (Hcap1 & Hipi1 & _).
    assert (Hrange1 : (0 <= instanceCount h1 < instancesPerBatch h1)%Z).
    { rewrite Hic1, Hcap1.
      destruct (Z.eqb_spec (instanceCount h + 1) (instancesPerBatch h)); lia. }
    destruct (IH w1 h1 Hh1 Hrange1 Hprev1)
      as (w' & h' & Hall & Hh' & Hlay' & Hic' & Hdraw' & Hprev').
    exists w', h'.
    split.
    { unfold batch_all. cbn [for_each]. unfold bind. by rewrite Hstep. }
    split; [done|].
    split; [by apply (same_layout_trans h h1 h')|].
    rewrite Hcap1, Hipi1 in *. subst total. cbn [length].
    rewrite Nat2Z.inj_succ.
    set (n := Z.of_nat (length calls)) in *.
    set (cap := instancesPerBatch h) in *.
    assert (0 <= n)%Z by (subst n; lia).
    destruct (Z.eqb_spec (instanceCount h + 1) cap) as [Hfull|Hroom].
    + rewrite Hic1 in *.
      replace (instanceCount h + Z.succ n)%Z with (n + 1 * cap)%Z by lia.
      rewrite Z_mod_plus_full, Z.div_add by lia.
      split; [by rewrite Hic'|].
      split; [|done].
      rewrite Hdraw', Hdraw1. rewrite Z.add_0_l.
      rewrite Z2Nat.inj_add by (try apply Z.div_pos; lia).
      change (Z.to_nat 1) with 1. rewrite Nat.add_1_r.
      rewrite replicate_S_end, <- app_assoc. done.
    + rewrite Hic1 in *.
      replace (instanceCount h + Z.succ n)%Z with (instanceCount h + 1 + n)%Z by lia.
      split; [done|]. split; [|done].
      by rewrite Hdraw', Hdraw1.
Qed.

(** *** The stores stay inside the buffer *)

Lemma f32_write_app (a b view : list JSNumber) (offset : Z) :
  f32_write fround view offset (a ++ b) =
  f32_write fround (fst (f32_write fround view offset a))
    (snd (f32_write fround view offset a)) b.
Proof.
  revert view offset. induction a as [|v a IH]; intros view offset; [done|].
  cbn [app f32_write]. apply IH.
Qed.

(** Stores that fall inside the view replace exactly the elements
    from [offset] on, one per value: none is dropped. *)
Lemma f32_write_middle (values : list JSNumber) :
  forall (pre old post : list JSNumber),
  length old = length values ->
  f32_write fround (pre ++ old ++ post) (Z.of_nat (length pre)) values =
  (pre ++ map fround values ++ post,
   (Z.of_nat (length pre) + Z.of_nat (length values))%Z).
Proof.
  induction values as [|v values IH]; intros pre old post Hlen.
  - destruct old; [|done]. cbn. f_equal. lia.
  - destruct old as [|o old]; [done|]. cbn [f32_write].
    unfold f32_set. rewrite (proj2 (Z.leb_le _ _)) by lia.
    rewrite Nat2Z.id. cbn [app].
    replace (length pre) with (length pre + 0) at 1 by lia.
    rewrite insert_app_r. cbn [insert list_insert].
    replace (Z.of_nat (length pre) + 1)%Z
      with (Z.of_nat (length (pre ++ [fround v])))
      by (rewrite length_app; cbn; lia).
    change (pre ++ fround v :: old ++ post)
      with (pre ++ [fround v] ++ old ++ post).
    rewrite (app_assoc pre [fround v]).
    rewrite IH by (cbn in Hlen; lia).
    rewrite <- app_assoc. cbn [app map length].
    f_equal. rewrite length_app. cbn. lia.
Qed.

(** With forty elements of room from [offset] on, [store_light] fills
    exactly those forty elements and leaves the rest of the view. *)
Lemma store_light_in_bounds (view : list JSNumber) (offset : Z)
    (xTL yTL xBL yBL xTR yTR xBR yBR lightX lightY
     radius attenuation r g b a : JSNumber) :
  (0 <= offset)%Z ->
  Z.to_nat offset + 40 <= length view ->
  store_light fround view offset xTL yTL xBL yBL xTR yTR xBR yBR
    lightX lightY radius attenuation r g b a =
  take (Z.to_nat offset) view
  ++ map fround
       [ xBL; yBL; lightX; lightY; radius; attenuation; r; g; b; a;
         xTL; yTL; lightX; lightY; radius; attenuation; r; g; b; a;
         xBR; yBR; lightX; lightY; radius; attenuation; r; g; b; a;
         xTR; yTR; lightX; lightY; radius; attenuation; r; g; b; a ]
  ++ drop (Z.to_nat offset + 40) view.
Proof.
  intros Hoff Hroom.
  set (BL := [xBL; yBL; lightX; lightY; radius; attenuation; r; g; b; a]).
  set (TL := [xTL; yTL; lightX; lightY; radius; attenuation; r; g; b; a]).
  set (BR := [xBR; yBR; lightX; lightY; radius; attenuation; r; g; b; a]).
  set (TR := [xTR; yTR; lightX; lightY; radius; attenuation; r; g; b; a]).
  assert (Hchain : store_light fround view offset xTL yTL xBL yBL xTR yTR
                     xBR yBR lightX lightY radius attenuation r g b a =
                   fst (f32_write fround view offset (BL ++ TL ++ BR ++ TR))).
  { unfold store_light. fold BL TL BR TR. rewrite !f32_write_app.
    destruct (f32_write fround view offset BL) as [v1 o1]. cbn [fst snd].
    destruct (f32_write fround v1 o1 TL) as [v2 o2]. cbn [fst snd].
    destruct (f32_write fround v2 o2 BR) as [v3 o3]. cbn [fst snd].
    by destruct (f32_write fround v3 o3 TR). }
  rewrite Hchain.
  set (n := Z.to_nat offset) in *.
  assert (Hview : view = take n view ++ take 40 (drop n view) ++ drop (n + 40) view).
  { rewrite app_assoc, take_take_drop. by rewrite take_drop. }
  rewrite Hview at 1.
  replace offset with (Z.of_nat (length (take n view)))
    by (rewrite length_take; lia).
  rewrite f32_write_middle; [done|].
  rewrite length_take, length_drop.
  change (length (BL ++ TL ++ BR ++ TR)) with 40. lia.
Qed.

(** The offset [batch] writes at leaves room for a whole light as long
    as the count is below the capacity. *)
Lemma batch_offset_in_bounds (h : BatchHandlerPointLight) :
  (0 <= instanceCount h < instancesPerBatch h)%Z ->
  (40 <= floatsPerInstance h)%Z ->
  Z.of_nat (length (viewF32 h)) = (instancesPerBatch h * floatsPerInstance h)%Z ->
  (0 <= instanceCount h * floatsPerInstance h)%Z /\
  Z.to_nat (instanceCount h * floatsPerInstance h) + 40 <= length (viewF32 h).
Proof. intros Hic Hfpi Hlen. split; nia. Qed.

(** [run] on a handler within its capacity. *)
Lemma run_step (w : World) (this : NodeRef) (h : BatchHandlerPointLight)
    (dc : DrawingContext) :
  handlers w !! this = Some h ->
  previous_batch_flushes w this ->
  exists w' h',
    run this (Ctx dc) w = Ok tt w' /\
    handlers w' !! this = Some h' /\
    same_layout h h' /\
    instanceCount h' = (if (instanceCount h =? 0)%Z then instanceCount h else 0)%Z /\
    previous_batch_flushes w' this.
Proof.
  intros Hh Hprev. destruct (Z.eqb_spec (instanceCount h) 0) as [Hz|Hnz].
  - exists w, h. rewrite (run_empty w this h) by done. by repeat split.
  - exists (flushed w this dc h), (set_instanceCount h 0).
    rewrite (run_flush w this h) by done.
    split; [done|]. split; [apply flushed_handler|].
    split; [by repeat split|]. split; [done|].
    apply (previous_batch_flushes_frame w); [done| |done].
    intros n Hn. cbn. by rewrite lookup_insert_ne by done.
Qed.

(** Calls of [batch] and [run] in any order keep the count within the
    capacity, and all return. *)
Lemma handler_calls_within_capacity (this : NodeRef) (calls : list HandlerCall) :
  forall (w : World) (h : BatchHandlerPointLight),
  handlers w !! this = Some h ->
  (0 <= instanceCount h < instancesPerBatch h)%Z ->
  previous_batch_flushes w this ->
  exists w' h',
    handler_calls mul fround this calls w = Ok tt w' /\
    handlers w' !! this = Some h' /\
    same_layout h h' /\
    (0 <= instanceCount h' < instancesPerBatch h)%Z /\
    previous_batch_flushes w' this.
Proof.
  induction calls as [|c calls IH]; intros w h Hh Hrange Hprev.
  - exists w, h. repeat split; (done || lia).
  - assert (Hstep : exists w1 h1,
              handler_call mul fround this c w = Ok tt w1 /\
              handlers w1 !! this = Some h1 /\
              same_layout h h1 /\
              (0 <= instanceCount h1 < instancesPerBatch h)%Z /\
              previous_batch_flushes w1 this).
    { destruct c as [q|dc]; cbn [handler_call].
      - destruct (batch_step w this h q Hh Hrange Hprev)
          as (w1 & h1 & Hstep & Hh1 & Hlay1 & Hic1 & _ & Hprev1).
        exists w1, h1.
        split; [done|]. split; [done|]. split; [done|]. split; [|done].
        rewrite Hic1.
        destruct (Z.eqb_spec (instanceCount h + 1) (instancesPerBatch h)); lia.
      - destruct (run_step w this h dc Hh Hprev)
          as (w1 & h1 & Hstep & Hh1 & Hlay1 & Hic1 & Hprev1).
        exists w1, h1.
        split; [done|]. split; [done|]. split; [done|]. split; [|done].
        rewrite Hic1. destruct (instanceCount h =? 0)%Z; lia. }
    destruct Hstep as (w1 & h1 & Hstep & Hh1 & Hlay1 & Hrange1 & Hprev1).
    pose proof Hlay1 as (Hcap1 & _).
    destruct (IH w1 h1 Hh1 ltac:(by rewrite Hcap1) Hprev1)
      as (w' & h' & Hall & Hh' & Hlay' & Hrange' & Hprev').
    exists w', h'.
    split; [unfold handler_calls; cbn [for_each]; unfold bind; by rewrite Hstep|].
    split; [done|].
    split; [by apply (same_layout_trans h h1 h')|].
    split; [by rewrite <- Hcap1 | done].
Qed.

(** C2. Take a handler with an empty buffer and a capacity
    [instancesPerBatch] of at least one. Calls of [batch] and [run] on
    it, in any order and number, all return with
    [0 <= instanceCount <= instancesPerBatch] (in fact
    [instanceCount < instancesPerBatch], so that the next light still
    fits in the buffer). After [N] calls of [batch] in a row
    [instanceCount] is [N] modulo the capacity and the handler has issued
    one draw call of a full batch for each time the count reached the
    capacity: for [N] below the capacity [instanceCount] is [N] and the
    handler has not drawn; the call that makes the count reach the
    capacity has flushed, and left the count at 0, when it returns. *)
Theorem batch_fills_then_flushes (w : World) (this : NodeRef)
    (h : BatchHandlerPointLight) (calls : list LightQuad) :
  handlers w !! this = Some h ->
  instanceCount h = 0%Z ->
  (0 < instancesPerBatch h)%Z ->
  previous_batch_flushes w this ->
  let N := Z.of_nat (length calls) in
  let capacity := instancesPerBatch h in
  (exists w' h',
     batch_all mul fround this calls w = Ok tt w' /\
     handlers w' !! this = Some h' /\
     instancesPerBatch h' = capacity /\
     (0 <= instanceCount h' <= capacity)%Z /\
     instanceCount h' = (N `mod` capacity)%Z /\
     drawCounts this (log w') =
       replicate (Z.to_nat (N / capacity)) (capacity * indicesPerInstance h)%Z
       ++ drawCounts this (log w) /\
     ((N < capacity)%Z ->
        instanceCount h' = N /\
        drawCounts this (log w') = drawCounts this (log w)) /\
     (N = capacity ->
        instanceCount h' = 0%Z /\
        drawCounts this (log w') =
          (capacity * indicesPerInstance h)%Z :: drawCounts this (log w))) /\
  (forall mixed : list HandlerCall,
     exists w' h',
       handler_calls mul fround this mixed w = Ok tt w' /\
       handlers w' !! this = Some h' /\
       instancesPerBatch h' = capacity /\
       (0 <= instanceCount h' <= capacity)%Z /\
       ((40 <= floatsPerInstance h)%Z ->
        Z.of_nat (length (viewF32 h)) = (capacity * floatsPerInstance h)%Z ->
        (0 <= instanceCount h' * floatsPerInstance h')%Z /\
        Z.to_nat (instanceCount h' * floatsPerInstance h') + 40
          <= length (viewF32 h'))).
Proof.
  intros Hh Hzero Hcap Hprev N capacity. split.
  - destruct (batch_all_spec this calls w h Hh ltac:(lia) Hprev)
      as (w' & h' & Hall & Hh' & Hlay & Hic & Hdraw & _).
    rewrite Hzero, Z.add_0_l in Hic, Hdraw. fold N capacity in Hic, Hdraw.
    destruct Hlay as (Hcap' & _).
    assert (0 <= N)%Z by (subst N; lia).
    pose proof (Z.mod_pos_bound N capacity Hcap) as Hbound.
    exists w', h'.
    split; [done|]. split; [done|]. split; [done|].
    split; [lia|]. split; [done|]. split; [done|].
    split.
    + intros Hlt. rewrite Hic, Hdraw, Z.mod_small, Z.div_small by lia.
      by split.
    + intros HN. rewrite Hic, Hdraw, HN, Z_mod_same_full, Z_div_same_full by lia.
      by split.
  - intros mixed.
    destruct (handler_calls_within_capacity this mixed w h Hh ltac:(lia) Hprev)
      as (w' & h' & Hall & Hh' & Hlay & Hrange & _).
    destruct Hlay as (Hcap' & _ & _ & Hfpi' & Hlen').
    exists w', h'. fold capacity in Hrange.
    split; [done|]. split; [done|]. split; [done|]. split; [lia|].
    intros Hfpi Hlen. apply batch_offset_in_bounds.
    + by rewrite Hcap'.
    + by rewrite Hfpi'.
    + by rewrite Hlen', Hcap', Hfpi'.
Qed.

End BatchProperties.

(** ** Objects used as dictionaries *)

Lemma own_put_eq {V : Type} (o : JSObject.t V) (name : string) (v : V) :
  JSObject.own (JSObject.put o name v) name = Some v.
Proof.
  induction o as [|[key x] o IH]; cbn.
  - by rewrite decide_True.
  - destruct (decide (key = name)) as [->|Hne]; cbn.
    + by rewrite decide_True.
    + by rewrite decide_False.
Qed.

Lemma own_put_ne {V : Type} (o : JSObject.t V) (name name' : string) (v : V) :
  name' <> name ->
  JSObject.own (JSObject.put o name v) name' = JSObject.own o name'.
Proof.
  intros Hne. induction o as [|[key x] o IH]; cbn.
  - by rewrite decide_False.
  - destruct (decide (key = name)) as [->|Hkey]; cbn.
    + by rewrite !decide_False.
    + destruct (decide (key = name')); [done | apply IH].
Qed.

Lemma get_put_eq {V : Type} (o : JSObject.t V) (name : string) (v : V) :
  JSObject.get (JSObject.put o name v) name = Some (JSObject.Own v).
Proof. unfold JSObject.get. by rewrite own_put_eq. Qed.

Lemma get_put_ne {V : Type} (o : JSObject.t V) (name name' : string) (v : V) :
  name' <> name ->
  JSObject.get (JSObject.put o name v) name' = JSObject.get o name'.
Proof. intros Hne. unfold JSObject.get. by rewrite own_put_ne. Qed.

(** [o[name]] is [undefined] exactly for a name that is neither an own
    property nor inherited. *)
Lemma get_None {V : Type} (o : JSObject.t V) (name : string) :
  JSObject.get o name = None <->
  JSObject.own o name = None /\ JSObject.inherited name = false.
Proof.
  unfold JSObject.get.
  destruct (JSObject.own o name), (JSObject.inherited name);
    split; try done; by intros [? ?].
Qed.

Lemma get_inherited {V : Type} (o : JSObject.t V) (name : string) :
  JSObject.inherited name = true ->
  exists found, JSObject.get o name = Some found.
Proof.
  intros Hin. unfold JSObject.get. rewrite Hin.
  destruct (JSObject.own o name); eauto.
Qed.

(** Two plain objects share their prototype: a name one of them does not
    have is not inherited by the other. *)
Lemma get_None_not_inherited {V V' : Type} (o : JSObject.t V) (o' : JSObject.t V')
    (name inheritedName : string) :
  JSObject.get o name = None ->
  JSObject.get o' name <> Some (JSObject.Inherited inheritedName).
Proof.
  intros [_ Hin]%get_None. unfold JSObject.get. rewrite Hin.
  by destruct (JSObject.own o' name).
Qed.

Lemma own_elem_of {V : Type} (o : JSObject.t V) (name : string) :
  name ∈ map fst o -> is_Some (JSObject.own o name).
Proof.
  induction o as [|[key x] o IH]; cbn.
  - by intros ?%elem_of_nil.
  - intros [->|Hin]%elem_of_cons.
    + rewrite decide_True by done. eauto.
    + destruct (decide (key = name)); [eauto | by apply IH].
Qed.

Lemma own_entry {V : Type} (o : JSObject.t V) (name : string) (v : V) :
  NoDup (map fst o) -> (name, v) ∈ o -> JSObject.own o name = Some v.
Proof.
  induction o as [|[key x] o IH]; cbn.
  - by intros _ ?%elem_of_nil.
  - intros [Hnotin Hnodup]%NoDup_cons [Heq|Hin]%elem_of_cons.
    + injection Heq as -> ->. by rewrite decide_True.
    + destruct (decide (key = name)) as [->|Hne]; [|by apply IH].
      exfalso. apply Hnotin. apply list_elem_of_fmap. by exists (name, v).
Qed.

Lemma own_None_not_elem_of {V : Type} (o : JSObject.t V) (name : string) :
  JSObject.own o name = None -> name ∉ map fst o.
Proof.
  intros Hown Hin. destruct (own_elem_of o name Hin) as [v Hv]. congruence.
Qed.

(** A new property goes last. *)
Lemma put_new {V : Type} (o : JSObject.t V) (name : string) (v : V) :
  JSObject.own o name = None -> JSObject.put o name v = o ++ [(name, v)].
Proof.
  induction o as [|[key x] o IH]; cbn; [done|].
  destruct (decide (key = name)); [done|]. intros H. by rewrite IH.
Qed.

(** ** The node registry *)

Lemma addNode_present (w : World) (name : string) (node : NodeRef)
    (existing : JSObject.Property NodeRef) :
  JSObject.get (_nodes (manager w)) name = Some existing ->
  addNode name node w = Throw (Error ("node " +:+ name +:+ " already exists.")) w.
Proof. intros H. unfold addNode, bind, get_manager. by rewrite H. Qed.

Lemma addNode_absent (w : World) (name : string) (node : NodeRef) :
  JSObject.get (_nodes (manager w)) name = None ->
  exists w',
    addNode name node w = Ok tt w' /\
    _nodes (manager w') = JSObject.put (_nodes (manager w)) name node /\
    _nodeConstructors (manager w') = _nodeConstructors (manager w) /\
    debug (manager w') = debug (manager w) /\
    next_ref w' = next_ref w /\
    (exists evs, log w' = evs ++ log w).
Proof.
  intros H. unfold addNode, bind, get_manager. rewrite H. cbn.
  destruct (debug (manager w)) eqn:Hd; cbn.
  - eexists. split; [reflexivity|]. cbn. repeat split; try done.
    by exists [NodeSetDebug node true].
  - eexists. split; [reflexivity|]. cbn. repeat split; try done.
    by exists [].
Qed.

Lemma addNodeConstructor_present (w : World) (name : string)
    (constructor : Ctor) (existing : JSObject.Property Ctor) :
  JSObject.get (_nodeConstructors (manager w)) name = Some existing ->
  addNodeConstructor name constructor w =
  Throw (Error ("node constructor " +:+ name +:+ " already exists.")) w.
Proof. intros H. unfold addNodeConstructor, bind, get_manager. by rewrite H. Qed.


Lemma getNode_constructed (w : World) (name : string)
    (found : JSObject.Property NodeRef) :
  JSObject.get (_nodes (manager w)) name = Some found ->
  getNode name w = Ok (Some found) w.
Proof. intros H. unfold getNode, bind, get_manager. by rewrite H. Qed.

(** A name with a constructor and no node yet: [getNode] constructs the
    node, registers it and returns it. *)
Lemma getNode_constructs (w : World) (name : string) (constructor : Ctor) :
  JSObject.get (_nodes (manager w)) name = None ->
  JSObject.get (_nodeConstructors (manager w)) name = Some (JSObject.Own constructor) ->
  exists w',
    getNode name w = Ok (Some (JSObject.Own (next_ref w))) w' /\
    _nodes (manager w') = JSObject.put (_nodes (manager w)) name (next_ref w) /\
    _nodeConstructors (manager w') = _nodeConstructors (manager w) /\
    next_ref w' = S (next_ref w) /\
    log w' = (if debug (manager w) then [NodeSetDebug (next_ref w) true] else [])
             ++ Construct constructor (next_ref w) :: log w.
Proof.
  intros Hn Hc. unfold getNode, bind at 1, get_manager. rewrite Hn, Hc.
  unfold construct, bind, fresh_ref, emit, addNode, get_manager. cbn.
  rewrite Hn. cbn.
  destruct (debug (manager w)); cbn; eexists; (split; [reflexivity|]); by cbn.
Qed.



(** ** The debug graph *)

Lemma append_assoc (a b c : string) : (a +:+ b) +:+ c = a +:+ (b +:+ c).
Proof.
  induction a as [|x a IH]; [reflexivity|].
  change (String x ((a +:+ b) +:+ c) = String x (a +:+ (b +:+ c))).
  by rewrite IH.
Qed.

Lemma append_nil_r (a : string) : a +:+ EmptyString = a.
Proof.
  induction a as [|x a IH]; [reflexivity|].
  change (String x (a +:+ EmptyString) = String x a).
  by rewrite IH.
Qed.

Lemma concat_lines_app (l1 l2 : list string) :
  concat_lines (l1 ++ l2) = concat_lines l1 +:+ concat_lines l2.
Proof.
  induction l1 as [|s l1 IH]; [done|].
  change (concat_lines ((s :: l1) ++ l2)) with (s +:+ concat_lines (l1 ++ l2)).
  change (concat_lines (s :: l1)) with (s +:+ concat_lines l1).
  by rewrite IH, append_assoc.
Qed.

Lemma DebugGraphNode_forall_ind (P : DebugGraphNode -> Prop) :
  (forall name children, Forall P children -> P (DebugNode name children)) ->
  forall node, P node.
Proof.
  intros Hnode. fix IH 1. intros [name children]. apply Hnode.
  induction children as [|child children IHchildren]; constructor.
  - apply IH.
  - apply IHchildren.
Qed.

(** The [for] loop of [formatNode] appends the text of each child. *)
Lemma formatNode_children (children : list DebugGraphNode) (indent : nat)
    (str : string) :
  fold_left (fun str child => str +:+ formatNode child (indent + 1)) children str =
  str +:+ concat_lines (map (fun child => formatNode child (indent + 1)) children).
Proof.
  revert str. induction children as [|child children IH]; intros str; cbn.
  - by rewrite append_nil_r.
  - rewrite IH, append_assoc. done.
Qed.

(** ['  '.repeat(indent)] is [2 * indent] spaces. *)
Lemma indentString_spaces (indent : nat) : indentString indent = spaces (2 * indent).
Proof.
  induction indent as [|n IH]; [reflexivity|].
  replace (2 * S n) with (S (S (2 * n))) by lia.
  cbn [indentString]. rewrite IH. reflexivity.
Qed.

(** [formatNode] prints one line per node: two spaces per level of
    depth, the name, a line feed; a node before its children, children
    in order. *)
Lemma formatNode_lines (node : DebugGraphNode) :
  forall indent,
  formatNode node indent = concat_lines (map debug_line (preorder node indent)).
Proof.
  induction node as [name children IH] using DebugGraphNode_forall_ind.
  intros indent. cbn [formatNode preorder map concat_lines fold_right].
  rewrite formatNode_children.
  unfold debug_line at 1. cbn [fst snd]. rewrite <- indentString_spaces.
  change line_feed with newline. rewrite !append_assoc.
  do 3 f_equal.
  induction IH as [|child children Hchild _ IHchildren]; [done|].
  cbn [map flat_map concat_lines fold_right].
  rewrite map_app.
  change (fold_right String.append EmptyString
            (map debug_line (preorder child (indent + 1)) ++
             map debug_line
               (flat_map (fun child => preorder child (indent + 1)) children)))
    with (concat_lines
            (map debug_line (preorder child (indent + 1)) ++
             map debug_line
               (flat_map (fun child => preorder child (indent + 1)) children))).
  rewrite concat_lines_app, <- Hchild. f_equal. apply IHchildren.
Qed.

Lemma debugToString_null (w : World) :
  debugGraph (manager w) = None ->
  debugToString w =
  Throw (TypeError "Cannot read properties of null (reading 'name')") w.
Proof. intros H. unfold debugToString, bind, get_manager. by rewrite H. Qed.

Lemma debugToString_graph (w : World) (graph : DebugGraphNode) :
  debugGraph (manager w) = Some graph ->
  debugToString w = Ok (formatNode graph 0) w.
Proof. intros H. unfold debugToString, bind, get_manager. by rewrite H. Qed.

(** The [for]-[in] loop of [setDebug] visits own properties only, so
    that [this._nodes[key]] is a node each time: the loop calls
    [setDebug] on each node in turn and does nothing else. *)
Lemma setDebug_loop (m : RenderNodeManager) (value : bool) (ks : list string) :
  Forall (fun k => is_Some (JSObject.own (_nodes m) k)) ks ->
  forall w,
    for_each (setDebug_node m value) ks w =
    Ok tt {| manager := manager w; handlers := handlers w; next_ref := next_ref w;
             log := rev (map (fun node => NodeSetDebug node value)
                           (omap (JSObject.own (_nodes m)) ks)) ++ log w |}.
Proof.
  induction 1 as [|k ks [v Hv] _ IH]; intros w.
  - by destruct w.
  - cbn [for_each]. unfold bind. unfold setDebug_node at 1, JSObject.get.
    rewrite Hv. cbn [emit]. rewrite IH. cbn. rewrite Hv. cbn.
    by rewrite <- app_assoc.
Qed.

Lemma insert_entry_perm {V : Type} (e : string * V) (l : list (string * V)) :
  JSObject.insert_entry e l ≡ₚ e :: l.
Proof.
  induction l as [|x l IH]; cbn; [done|].
  destruct (JSObject.index_of e <=? JSObject.index_of x)%N; [done|].
  rewrite IH. apply Permutation_swap.
Qed.

Lemma sort_entries_perm {V : Type} (l : list (string * V)) :
  foldr JSObject.insert_entry [] l ≡ₚ l.
Proof.
  induction l as [|x l IH]; cbn; [done|].
  by rewrite insert_entry_perm, IH.
Qed.

(** The loop visits every own property once. *)
Lemma enumerate_perm {V : Type} (o : JSObject.t V) : JSObject.enumerate o ≡ₚ o.
Proof.
  unfold JSObject.enumerate. rewrite sort_entries_perm.
  apply filter_app_complement.
Qed.

Lemma keys_own {V : Type} (o : JSObject.t V) :
  Forall (fun k => is_Some (JSObject.own o k)) (JSObject.keys o).
Proof.
  apply Forall_forall. intros k Hk. apply own_elem_of.
  unfold JSObject.keys in Hk.
  apply list_elem_of_fmap in Hk as (e & -> & He).
  apply list_elem_of_fmap. exists e. split; [done|].
  by rewrite <- (enumerate_perm o).
Qed.

(** What [setDebug] does before it looks at [value]. *)
Lemma setDebug_nodes (w : World) (value : bool) :
  (let! m := get_manager in
   put_manager (set_debug m value) ;;
   for_each (setDebug_node m value) (JSObject.keys (_nodes m))) w =
  Ok tt {| manager := set_debug (manager w) value; handlers := handlers w;
           next_ref := next_ref w;
           log := rev (map (fun node => NodeSetDebug node value)
                         (omap (JSObject.own (_nodes (manager w)))
                            (JSObject.keys (_nodes (manager w))))) ++ log w |}.
Proof.
  unfold bind at 1, get_manager. unfold bind at 1. cbn [put_manager].
  by rewrite setDebug_loop by apply keys_own.
Qed.

Lemma setDebug_unfold (value : bool) (w : World) :
  setDebug value w =
  ((let! m := get_manager in
    put_manager (set_debug m value) ;;
    for_each (setDebug_node m value) (JSObject.keys (_nodes m))) ;;
   if value then
     let! m := get_manager in
     put_manager (set_debugGraph m None None) ;;
     pushDebug "[Render Tree Root]" ;;
     emit RendererOncePostRender
   else ret tt) w.
Proof.
  unfold setDebug, bind, get_manager, put_manager.
  by destruct (for_each _ _ _).
Qed.

Lemma setCurrentBatchNode_debug (w : World) (node : option NodeRef)
    (drawingContext : CtxVal) :
  never_debugged (manager w) ->
  never_debugged (manager (world_of (setCurrentBatchNode node drawingContext w))).
Proof.
  intros Hnd.
  destruct (decide (currentBatchNode (manager w) = node)) as [Heq|Hne].
  - by rewrite setCurrentBatchNode_same.
  - destruct (currentBatchNode (manager w)) as [current|] eqn:Hcur.
    + rewrite (setCurrentBatchNode_switch w current node drawingContext Hcur)
        by congruence.
      destruct (run_footprint
                  (with_event w (CallRun current (currentBatchDrawingContext (manager w))))
                  current (currentBatchDrawingContext (manager w)))
        as (evs & _ & Hm & _).
      destruct (run current _ _); cbn in *; unfold never_debugged; cbn;
        by rewrite Hm.
    + destruct node as [n|]; [|done].
      by rewrite setCurrentBatchNode_first by done.
Qed.

(** No method of the manager other than [setDebug(true)] switches
    debugging on or creates a debug graph. *)
Lemma perform_never_debugged (c : Call) (w : World) :
  c <> CallSetDebug true ->
  never_debugged (manager w) ->
  never_debugged (manager (world_of (perform c w))).
Proof.
  intros Hc [Hdebug Hgraph].
  destruct c as [name node|name ctor|name|node ctx|value| |value|name| |];
    cbn [perform].
  - unfold addNode, bind, get_manager.
    destruct (JSObject.get (_nodes (manager w)) name); [done|]. cbn.
    by rewrite Hdebug.
  - unfold addNodeConstructor, bind, get_manager.
    by destruct (JSObject.get (_nodeConstructors (manager w)) name).
  - unfold getNode, bind, get_manager.
    destruct (JSObject.get (_nodes (manager w)) name) eqn:Hn; [done|].
    destruct (JSObject.get (_nodeConstructors (manager w)) name) as [[ctor|]|];
      [|done..].
    unfold construct, bind, fresh_ref, emit, addNode, get_manager. cbn.
    rewrite Hn. cbn. by rewrite Hdebug.
  - by apply setCurrentBatchNode_debug.
  - done.
  - by apply setCurrentBatchNode_debug.
  - destruct value; [done|].
    rewrite setDebug_unfold. unfold bind at 1. by rewrite setDebug_nodes.
  - unfold pushDebug, bind, get_manager. by rewrite Hdebug.
  - unfold popDebug, bind, get_manager. by rewrite Hdebug.
  - unfold debugToString, bind, get_manager. by rewrite Hgraph.
Qed.

Lemma perform_all_never_debugged (calls : list Call) :
  forall w,
  Forall (fun c => c <> CallSetDebug true) calls ->
  never_debugged (manager w) ->
  never_debugged (manager (perform_all calls w)).
Proof.
  induction calls as [|c calls IH]; intros w Hcalls Hnd; [done|].
  inversion Hcalls as [|? ? Hc Hrest]; subst.
  cbn. apply IH; [done|]. by apply perform_never_debugged.
Qed.

Lemma initialize_never_debugged (maxTextures : JSNumber)
    (autoMobilePipeline desktop selfShadow : bool) :
  never_debugged (initialize maxTextures autoMobilePipeline desktop selfShadow).
Proof. by split. Qed.

(** One recorded frame: the root, a camera, a compositor inside it. *)
Example debugToString_recorded_frame :
  match (setDebug true ;; pushDebug "Camera" ;; pushDebug "ListCompositor" ;;
         popDebug ;; popDebug ;; setDebug false) sample_world with
  | Ok _ w =>
      debugGraph (manager w) =
        Some (DebugNode "[Render Tree Root]"
                [DebugNode "Camera" [DebugNode "ListCompositor" []]]) /\
      match debugToString w with
      | Ok text _ =>
          text = "[Render Tree Root]" +:+ line_feed +:+
                 "  Camera" +:+ line_feed +:+
                 "    ListCompositor" +:+ line_feed
      | Throw _ _ => False
      end
  | Throw _ _ => False
  end.
Proof. vm_compute. by split. Qed.

(** C10. On a manager created by the constructor and used through any
    of its methods except [setDebug(true)], [debugGraph] is still [null]
    and [debugToString] throws a [TypeError] (reading [name] of [null])
    instead of returning a string. Whenever [debugGraph] is [null] it
    throws; with a debug graph it returns the tree as text: one line per
    node, indented by two spaces per level, each ended by a line feed. *)
Theorem debugToString_needs_graph (maxTextures : JSNumber)
    (autoMobilePipeline desktop selfShadow : bool)
    (w : World) (calls : list Call) :
  manager w = initialize maxTextures autoMobilePipeline desktop selfShadow ->
  Forall (fun c => c <> CallSetDebug true) calls ->
  let w' := perform_all calls w in
  debugGraph (manager w') = None /\
  debugToString w' =
    Throw (TypeError "Cannot read properties of null (reading 'name')") w' /\
  (forall v,
     debugGraph (manager v) = None ->
     debugToString v =
       Throw (TypeError "Cannot read properties of null (reading 'name')") v) /\
  (forall v graph,
     debugGraph (manager v) = Some graph ->
     debugToString v = Ok (formatNode graph 0) v /\
     formatNode graph 0 = concat_lines (map debug_line (preorder graph 0))).
Proof.
  intros Hinit Hcalls w'.
  assert (Hnd : never_debugged (manager w')).
  { apply perform_all_never_debugged; [done|].
    rewrite Hinit. apply initialize_never_debugged. }
  destruct Hnd as [_ Hgraph].
  split; [done|].
  split; [by apply debugToString_null|].
  split; [intros v; apply debugToString_null|].
  intros v graph Hv.
  split; [by apply debugToString_graph | apply formatNode_lines].
Qed.

Lemma debugToString_needs_graph_witness :
  let calls := [CallGetNode "Camera"; CallPushDebug "Camera";
                CallStartStandAloneRender; CallSetDebug false] in
  Forall (fun c => c <> CallSetDebug true) calls /\
  debugToString (perform_all calls sample_world) =
    Throw (TypeError "Cannot read properties of null (reading 'name')")
      (perform_all calls sample_world).
Proof.
  intros calls.
  assert (Hcalls : Forall (fun c => c <> CallSetDebug true) calls)
    by (repeat constructor; discriminate).
  split; [exact Hcalls|].
  exact (proj1 (proj2 (debugToString_needs_graph (Finite 16) false true false
                         sample_world calls eq_refl Hcalls))).
Defined.

(** ** SubmitterTile.run *)

Section SubmitterTileProperties.

Import SubmitterTile.

Variable mul : JSNumber -> JSNumber -> JSNumber.
Variable sub : JSNumber -> JSNumber -> JSNumber.
Variable RenderOptions : Type.
Variable NormalMap : Type.
Variable setRenderOptions :
  GameObject -> option NormalMap -> JSValue -> RenderOptions -> RenderOptions.

Lemma batchCalls_app (l1 l2 : list (SubmitterEvent RenderOptions)) :
  batchCalls RenderOptions (l1 ++ l2) =
  batchCalls RenderOptions l1 ++ batchCalls RenderOptions l2.
Proof. apply omap_app. Qed.



End SubmitterTileProperties.


(** ** The theorems on the sample states *)

Lemma run_flushes_once_witness :
  exists w',
    run 1 (Ctx (sample_context 1)) sample_world_batching = Ok tt w' /\
    drawCounts 1 (log w') = [12%Z] /\
    forall drawingContext, run 1 drawingContext w' = Ok tt w'.
Proof.
  destruct (proj2 (run_flushes_once sample_world_batching 1 (sample_handler 2)
                     (sample_context 1) eq_refl))
    as (w' & Hrun & _ & Hdraw & _ & _ & Hagain).
  { discriminate. }
  exists w'. split; [exact Hrun|]. split; [exact Hdraw | exact Hagain].
Defined.

Lemma setMaxParallelTextureUnits_clamps_witness :
  exists r,
    setMaxParallelTextureUnits (Number (Finite 0)) sample_world =
      Ok tt {| manager := set_maxParallelTextureUnits (manager sample_world) r;
               handlers := handlers sample_world;
               next_ref := next_ref sample_world;
               log := Emit_SET_PARALLEL_TEXTURE_UNITS r :: log sample_world |} /\
    r = one.
Proof.
  destruct (setMaxParallelTextureUnits_clamps sample_world (Finite 0)
              eq_refl eq_refl)
    as (r & Hset & _ & _ & _ & _ & _ & Hzero & _).
  exists r. split; [exact Hset | exact (Hzero eq_refl)].
Defined.


Lemma batch_fills_then_flushes_witness :
  exists w' h',
    batch_all sample_mul sample_fround 1 [sample_quad; sample_quad; sample_quad]
      sample_world = Ok tt w' /\
    handlers w' !! 1 = Some h' /\
    instanceCount h' = 0%Z /\
    drawCounts 1 (log w') = [18%Z].
Proof.
  destruct (batch_fills_then_flushes sample_mul sample_fround sample_world 1
              (sample_handler 0) [sample_quad; sample_quad; sample_quad]
              eq_refl eq_refl eq_refl I)
    as ((w' & h' & Hall & Hh' & _ & _ & _ & _ & _ & Hfull) & _).
  exists w', h'. split; [exact Hall|]. split; [exact Hh'|].
  exact (Hfull eq_refl).
Defined.


(** ** Runs of the model *)

(** Two lights on the idle sample handler: it becomes the current batch
    node, holds two instances and has not drawn; its buffer starts with
    the bottom-left vertex of the first light. *)
Example batch_twice :
  match batch_all sample_mul sample_fround 1 [sample_quad; sample_quad]
          sample_world with
  | Ok _ w' =>
      match handlers w' !! 1 with
      | Some h' =>
          instanceCount h' = 2%Z /\
          take 10 (viewF32 h') =
            [Finite 0; Finite 64; Finite 32; Finite 32; Finite 64;
             Finite 1; Finite 2; Finite 2; Finite 2; Finite 1] /\
          currentBatchNode (manager w') = Some 1 /\
          currentBatchDrawingContext (manager w') = Ctx (sample_context 1) /\
          log w' = []
      | None => False
      end
  | Throw _ _ => False
  end.
Proof. vm_compute. by repeat split. Qed.

(** A third light fills the batch: one draw call of 18 indices, logged
    between the uniforms and [onRunEnd], and the count is back to 0. *)
Example batch_three_times :
  match batch_all sample_mul sample_fround 1
          [sample_quad; sample_quad; sample_quad] sample_world with
  | Ok _ w' =>
      match handlers w' !! 1 with
      | Some h' =>
          instanceCount h' = 0%Z /\
          log w' = flush_events 1 (sample_context 1) (sample_handler 3)
      | None => False
      end
  | Throw _ _ => False
  end.
Proof. vm_compute. by split. Qed.

(** [addNode] looks at [_nodes] only: a name that so far has a
    constructor and no node can be given a node. *)
Example addNode_over_constructor :
  hasNode (manager sample_world) "Camera" false = true /\
  hasNode (manager sample_world) "Camera" true = false /\
  exists w',
    addNode "Camera" 1 sample_world = Ok tt w' /\
    getNode "Camera" w' = Ok (Some (JSObject.Own 1)) w'.
Proof.
  split; [vm_compute; reflexivity|]. split; [vm_compute; reflexivity|].
  destruct (addNode_absent sample_world "Camera" 1 eq_refl)
    as (w' & Hadd & Hnodes & _).
  exists w'. split; [done|].
  apply getNode_constructed. rewrite Hnodes. apply get_put_eq.
Qed.

(* ================================================================== *)
(** * Part III: further properties *)
(* ================================================================== *)

(** ** The node registry: lookup *)

(** X1. [getNode] returns something other than [null] exactly when
    [hasNode(name)] is true, and what it returns is then what
    [this._nodes[name]] holds; otherwise it returns [null] and changes
    nothing. For a name inherited from [Object.prototype] both answer
    yes on every manager, and what [getNode] returns where no node has
    the name is the inherited property, not a render node. (Constructors
    are taken to return.) *)
Theorem getNode_iff_hasNode (w : World) (name : string) :
  (hasNode (manager w) name false = true ->
   exists found w',
     getNode name w = Ok (Some found) w' /\
     JSObject.get (_nodes (manager w')) name = Some found /\
     hasNode (manager w') name true = true) /\
  (hasNode (manager w) name false = false -> getNode name w = Ok None w) /\
  (JSObject.inherited name = true ->
   hasNode (manager w) name true = true /\
   (JSObject.own (_nodes (manager w)) name = None ->
    getNode name w = Ok (Some (JSObject.Inherited name)) w)).
Proof.
  unfold hasNode. cbn [negb andb].
  split; [|split].
  - destruct (JSObject.get (_nodes (manager w)) name) as [found|] eqn:Hn.
    + intros _. exists found, w.
      rewrite (getNode_constructed w name found Hn), Hn.
      by rewrite bool_decide_eq_true_2 by eauto.
    + destruct (JSObject.get (_nodeConstructors (manager w)) name)
        as [[constructor|inheritedName]|] eqn:Hc.
      * intros _.
        destruct (getNode_constructs w name constructor Hn Hc)
          as (w' & Hget & Hnodes & _).
        exists (JSObject.Own (next_ref w)), w'. split; [done|].
        rewrite Hnodes, get_put_eq.
        split; [done|]. by rewrite bool_decide_eq_true_2 by eauto.
      * by destruct (get_None_not_inherited _ (_nodeConstructors (manager w))
                       name inheritedName Hn).
      * rewrite !bool_decide_eq_false_2 by (by intros [? ?]). done.
  - destruct (JSObject.get (_nodes (manager w)) name) as [found|] eqn:Hn.
    + by rewrite bool_decide_eq_true_2 by eauto.
    + destruct (JSObject.get (_nodeConstructors (manager w)) name) as [found|] eqn:Hc.
      * rewrite (bool_decide_eq_true_2 (is_Some (Some found))) by eauto.
        by rewrite orb_true_r.
      * intros _. unfold getNode, bind, get_manager. by rewrite Hn, Hc.
  - intros Hin. split.
    + destruct (get_inherited (_nodes (manager w)) name Hin) as [found ->].
      by rewrite bool_decide_eq_true_2 by eauto.
    + intros Hown. apply getNode_constructed.
      unfold JSObject.get. by rewrite Hown, Hin.
Qed.

(** X2. Lazy construction happens once. For a name with a constructor
    and no node, [getNode] constructs one new node, registers it (and
    calls its [setDebug(true)] if debugging is on), and returns it; from
    then on [getNode] returns that same node and changes nothing. A later
    [addNode] under the name throws. *)
Theorem getNode_constructs_once (w : World) (name : string) (constructor : Ctor) :
  JSObject.get (_nodes (manager w)) name = None ->
  JSObject.get (_nodeConstructors (manager w)) name = Some (JSObject.Own constructor) ->
  exists w',
    let node := next_ref w in
    getNode name w = Ok (Some (JSObject.Own node)) w' /\
    log w' =
      (if debug (manager w) then [NodeSetDebug node true] else [])
      ++ Construct constructor node :: log w /\
    hasNode (manager w') name true = true /\
    getNode name w' = Ok (Some (JSObject.Own node)) w' /\
    (forall other,
       addNode name other w' =
         Throw (Error ("node " +:+ name +:+ " already exists.")) w') /\
    (forall name', name' <> name ->
       JSObject.get (_nodes (manager w')) name' =
       JSObject.get (_nodes (manager w)) name').
Proof.
  intros Hn Hc.
  destruct (getNode_constructs w name constructor Hn Hc)
    as (w' & Hget & Hnodes & _ & _ & Hlog).
  assert (Hlook : JSObject.get (_nodes (manager w')) name =
                  Some (JSObject.Own (next_ref w)))
    by (rewrite Hnodes; apply get_put_eq).
  exists w'. cbn zeta.
  split; [done|]. split; [done|].
  split; [unfold hasNode; rewrite Hlook; by rewrite bool_decide_eq_true_2 by eauto|].
  split; [by apply getNode_constructed|].
  split; [intros other;
          by apply (addNode_present w' name other (JSObject.Own (next_ref w)))|].
  intros name' Hne. by rewrite Hnodes, get_put_ne.
Qed.

Lemma getNode_constructs_once_witness :
  exists w',
    getNode "Camera" sample_world = Ok (Some (JSObject.Own 3)) w' /\
    log w' = [Construct (BuiltinCtor "Camera") 3] /\
    getNode "Camera" w' = Ok (Some (JSObject.Own 3)) w'.
Proof.
  destruct (getNode_constructs_once sample_world "Camera" (BuiltinCtor "Camera")
              eq_refl ltac:(vm_compute; reflexivity))
    as (w' & Hget & Hlog & _ & Hagain & _).
  exists w'. split; [exact Hget|]. split; [exact Hlog | exact Hagain].
Defined.

(** ** The constructor *)

Lemma builtin_lookup (selfShadow : bool) (name : string) :
  In name builtinNodeConstructors ->
  JSObject.get (_nodeConstructors (initialize NaN false false selfShadow)) name =
    Some (JSObject.Own (BuiltinCtor (builtin_class selfShadow name))) /\
  JSObject.inherited name = false.
Proof.
  intros Hin. unfold builtinNodeConstructors in Hin. cbn [In] in Hin.
  repeat (destruct Hin as [<-|Hin];
          [destruct selfShadow; vm_compute; by split|]).
  destruct Hin.
Qed.

Lemma own_not_elem_of {V : Type} (o : JSObject.t V) (name : string) :
  name ∉ map fst o -> JSObject.own o name = None.
Proof.
  intros Hnotin. destruct (JSObject.own o name) as [v|] eqn:Hown; [|done].
  exfalso. apply Hnotin. clear Hnotin.
  induction o as [|[key x] o IH]; cbn in *; [done|].
  destruct (decide (key = name)) as [->|Hne].
  - apply elem_of_cons. by left.
  - apply elem_of_cons. right. by apply IH.
Qed.

Lemma builtin_names (selfShadow : bool) :
  map fst (_nodeConstructors (initialize NaN false false selfShadow)) =
  builtinNodeConstructors.
Proof. destruct selfShadow; vm_compute; reflexivity. Qed.

(** X3. On a new manager nothing is registered in [_nodes]. Each of the
    29 built-in names has a constructor, its own class, except that with
    the game configured for self-shadowing the two light handlers
    [BatchHandlerQuadLight] and [BatchHandlerTileSpriteLight] construct
    their [...Shadow] variants; so [addNodeConstructor] under a built-in
    name throws, while [addNode] under it is accepted. A name inherited
    from [Object.prototype] counts as a node from the start:
    [hasNode(name, true)] is true for these names and no other,
    [getNode] returns the inherited property, and [addNode] and
    [addNodeConstructor] throw. Every other name is unknown: [getNode]
    returns [null]. *)
Theorem initialize_builtin_nodes (maxTextures : JSNumber)
    (autoMobilePipeline desktop selfShadow : bool) (w : World) (name : string) :
  manager w = initialize maxTextures autoMobilePipeline desktop selfShadow ->
  _nodes (manager w) = [] /\
  hasNode (manager w) name true = JSObject.inherited name /\
  (In name builtinNodeConstructors ->
   hasNode (manager w) name false = true /\
   (exists w',
      getNode name w = Ok (Some (JSObject.Own (next_ref w))) w' /\
      log w' = Construct (BuiltinCtor (builtin_class selfShadow name)) (next_ref w)
               :: log w) /\
   (forall constructor,
      addNodeConstructor name constructor w =
        Throw (Error ("node constructor " +:+ name +:+ " already exists.")) w) /\
   (forall node, exists w', addNode name node w = Ok tt w')) /\
  (JSObject.inherited name = true ->
   hasNode (manager w) name false = true /\
   getNode name w = Ok (Some (JSObject.Inherited name)) w /\
   (forall node,
      addNode name node w =
        Throw (Error ("node " +:+ name +:+ " already exists.")) w) /\
   (forall constructor,
      addNodeConstructor name constructor w =
        Throw (Error ("node constructor " +:+ name +:+ " already exists.")) w)) /\
  (~ In name builtinNodeConstructors ->
   JSObject.inherited name = false ->
   hasNode (manager w) name false = false /\
   getNode name w = Ok None w).
Proof.
  intros Hinit.
  assert (Hnodes : _nodes (manager w) = []) by (by rewrite Hinit).
  assert (Hget : JSObject.get (_nodes (manager w)) name =
                 if JSObject.inherited name then Some (JSObject.Inherited name)
                 else None)
    by (by rewrite Hnodes).
  assert (Hdebug : debug (manager w) = false) by (by rewrite Hinit).
  assert (Hctors : _nodeConstructors (manager w) =
                   _nodeConstructors (initialize NaN false false selfShadow))
    by (by rewrite Hinit).
  split; [done|].
  split.
  { unfold hasNode. rewrite Hget. cbn [negb andb]. rewrite orb_false_r.
    destruct (JSObject.inherited name).
    - by rewrite bool_decide_eq_true_2 by eauto.
    - by rewrite bool_decide_eq_false_2 by (by intros [? ?]). }
  split; [|split].
  - intros Hin.
    destruct (builtin_lookup selfShadow name Hin) as [Hc Hnot].
    rewrite <- Hctors in Hc. rewrite Hnot in Hget.
    split.
    { unfold hasNode. rewrite Hc.
      rewrite (bool_decide_eq_true_2 (is_Some (Some _))) by eauto.
      by rewrite orb_true_r. }
    split.
    { destruct (getNode_constructs w name _ Hget Hc) as (w' & Hw' & _ & _ & _ & Hlog).
      exists w'. split; [done|]. by rewrite Hlog, Hdebug. }
    split.
    { intros constructor. by eapply addNodeConstructor_present. }
    intros node. destruct (addNode_absent w name node Hget) as (w' & Hadd & _).
    by exists w'.
  - intros Hin. rewrite Hin in Hget.
    split.
    { unfold hasNode. rewrite Hget. by rewrite bool_decide_eq_true_2 by eauto. }
    split; [by apply getNode_constructed|].
    split; [intros node; by eapply addNode_present|].
    intros constructor.
    destruct (get_inherited (_nodeConstructors (manager w)) name Hin) as [found Hc].
    by eapply addNodeConstructor_present.
  - intros Hnotin Hnot. rewrite Hnot in Hget.
    assert (Hc : JSObject.get (_nodeConstructors (manager w)) name = None).
    { apply get_None. split; [|done]. apply own_not_elem_of.
      rewrite Hctors, builtin_names. by rewrite list_elem_of_In. }
    split.
    + unfold hasNode. rewrite Hget, Hc.
      by rewrite !bool_decide_eq_false_2 by (by intros [? ?]).
    + unfold getNode, bind, get_manager. by rewrite Hget, Hc.
Qed.

Lemma initialize_builtin_nodes_witness :
  hasNode (manager sample_world) "Camera" true = false /\
  hasNode (manager sample_world) "Camera" false = true /\
  getNode "SubmitterTile" sample_world = Ok None sample_world /\
  getNode "toString" sample_world =
    Ok (Some (JSObject.Inherited "toString")) sample_world.
Proof.
  destruct (initialize_builtin_nodes (Finite 16) false true false sample_world
              "Camera" eq_refl) as (_ & Hnone & Hin & _).
  destruct (initialize_builtin_nodes (Finite 16) false true false sample_world
              "SubmitterTile" eq_refl) as (_ & _ & _ & _ & Hout).
  destruct (initialize_builtin_nodes (Finite 16) false true false sample_world
              "toString" eq_refl) as (_ & _ & _ & Hinherited & _).
  split; [exact Hnone|]. split; [|split].
  - apply Hin. apply list_elem_of_In.
    apply (bool_decide_unpack _). vm_compute. exact I.
  - apply Hout; [|vm_compute; reflexivity]. rewrite <- list_elem_of_In.
    apply (bool_decide_unpack _). vm_compute. exact I.
  - apply Hinherited. vm_compute. reflexivity.
Defined.

(** ** Element indices: range and prefixes *)

(** X4. Every element index is a 16-bit value, and for at most 16384
    instances every index points at one of the [4 * instances] vertices
    of the batch. *)
Theorem generateElementIndices_in_range (instances : nat) :
  Forall (fun index => (0 <= index < 65536)%Z) (_generateElementIndices instances) /\
  ((Z.of_nat instances <= 16384)%Z ->
   Forall (fun index => (0 <= index < 4 * Z.of_nat instances)%Z)
     (_generateElementIndices instances)).
Proof.
  rewrite _generateElementIndices_flat. split.
  - apply Forall_flat_map, Forall_forall. intros i _.
    unfold quadIndices, toUint16. cbn [map].
    repeat constructor; apply Z.mod_pos_bound; lia.
  - intros Hsmall. apply Forall_flat_map, Forall_forall. intros i Hi.
    apply elem_of_seq in Hi.
    rewrite toUint16_quadIndices by lia.
    unfold quadIndices. repeat constructor; lia.
Qed.

Lemma generateElementIndices_in_range_witness :
  (Z.of_nat 2 <= 16384)%Z /\
  Forall (fun index => (0 <= index < 4 * Z.of_nat 2)%Z) (_generateElementIndices 2).
Proof.
  split; [lia|]. apply (proj2 (generateElementIndices_in_range 2)). lia.
Defined.

(** X5. The indices do not depend on how many instances follow: the
    indices for [m] instances are the first [6 * m] indices generated
    for any larger count. *)
Theorem generateElementIndices_prefix (m k : nat) :
  take (6 * m) (_generateElementIndices (m + k)) = _generateElementIndices m /\
  _generateElementIndices (m + k) =
    _generateElementIndices m ++ drop (6 * m) (_generateElementIndices (m + k)).
Proof.
  assert (Htake : take (6 * m) (_generateElementIndices (m + k)) =
                  _generateElementIndices m).
  { rewrite !_generateElementIndices_flat, seq_app, flat_map_app.
    rewrite take_app_length'; [done|].
    by rewrite quad_chunk_length, length_seq. }
  split; [done|]. by rewrite <- Htake at 1; rewrite take_drop.
Qed.

(** ** setMaxParallelTextureUnits: the lower bound wins *)

(** X6. Given numbers, [setMaxParallelTextureUnits] never stores less
    than 1: when the renderer's [maxTextures] is itself below 1 the
    stored value is 1, above that limit. When [maxTextures] is [NaN]
    the stored value is [NaN] whatever the argument. *)
Theorem setMaxParallelTextureUnits_lower_bound (w : World) (v : JSNumber) :
  let maxTextures := renderer_maxTextures (manager w) in
  let stored :=
    maxParallelTextureUnits
      (manager (world_of (setMaxParallelTextureUnits (Number v) w))) in
  (isNaN v = false -> isNaN maxTextures = false ->
   num_leb one stored = true /\
   (num_leb one maxTextures = false -> stored = one)) /\
  (isNaN maxTextures = true -> stored = NaN).
Proof.
  intros maxTextures stored.
  assert (Hstored : stored = Math_max one (Math_min v maxTextures)) by reflexivity.
  rewrite Hstored. unfold Math_max, Math_min. split.
  - intros Hv Hm. rewrite Hv, Hm. cbn [orb isNaN one].
    destruct (num_leb v maxTextures) eqn:Hvm.
    + rewrite Hv. change (Finite 1) with one.
      destruct (num_leb one v) eqn:H1v.
      * split; [done|]. intros H1m.
        pose proof (num_leb_trans _ _ _ H1v Hvm). congruence.
      * split; [by apply num_leb_refl | done].
    + rewrite Hm. change (Finite 1) with one.
      destruct (num_leb one maxTextures) eqn:H1m.
      * split; [done|]. done.
      * split; [by apply num_leb_refl | done].
  - intros Hm. rewrite Hm. by rewrite orb_true_r.
Qed.

(** ** One batch at a time *)

(** The three ways [run] can end. *)
Lemma run_cases (w : World) (this : NodeRef) (drawingContext : CtxVal) :
  (exists e, run this drawingContext w = Throw e w) \/
  (exists h, handlers w !! this = Some h /\ instanceCount h = 0%Z /\
             run this drawingContext w = Ok tt w) \/
  (exists h dc, handlers w !! this = Some h /\ instanceCount h <> 0%Z /\
                drawingContext = Ctx dc /\
                run this drawingContext w = Ok tt (flushed w this dc h)).
Proof.
  destruct (handlers w !! this) as [h|] eqn:Hh.
  - destruct (Z.eq_dec (instanceCount h) 0%Z) as [Hz|Hnz].
    + right. left. exists h. by rewrite (run_empty w this h).
    + destruct drawingContext as [| |dc].
      * left. unfold run, bind, get_handler. rewrite Hh.
        destruct (Z.eqb_spec (instanceCount h) 0); [done|]. by eexists.
      * left. unfold run, bind, get_handler. rewrite Hh.
        destruct (Z.eqb_spec (instanceCount h) 0); [done|]. by eexists.
      * right. right. exists h, dc. by rewrite (run_flush w this h).
  - left. unfold run, bind, get_handler. rewrite Hh. by eexists.
Qed.

Lemma setCurrentBatchNode_ok_current (w w' : World) (node : option NodeRef)
    (drawingContext : CtxVal) :
  setCurrentBatchNode node drawingContext w = Ok tt w' ->
  currentBatchNode (manager w') = node.
Proof.
  intros Hset.
  destruct (decide (currentBatchNode (manager w) = node)) as [Heq|Hne].
  - rewrite setCurrentBatchNode_same in Hset by done. by injection Hset as <-.
  - destruct (currentBatchNode (manager w)) as [current|] eqn:Hcur.
    + rewrite (setCurrentBatchNode_switch w current node drawingContext Hcur)
        in Hset by congruence.
      destruct (run current _ _) as [[] w1|]; [|done]. by injection Hset as <-.
    + destruct node as [n|]; [|done].
      rewrite setCurrentBatchNode_first in Hset by done. by injection Hset as <-.
Qed.

Lemma run_one_batch_pending (w : World) (this : NodeRef) (drawingContext : CtxVal) :
  one_batch_pending w ->
  one_batch_pending (world_of (run this drawingContext w)).
Proof.
  intros Hone.
  destruct (run_cases w this drawingContext)
    as [[e ->]|[(h & _ & _ & ->)|(h & dc & Hh & _ & _ & ->)]]; [done..|].
  intros n hn Hn Hpending. cbn in Hn |- *.
  destruct (decide (n = this)) as [->|Hne].
  - rewrite lookup_insert_eq in Hn. injection Hn as <-. by cbn in Hpending.
  - rewrite lookup_insert_ne in Hn by done. by apply (Hone n hn).
Qed.

Lemma setCurrentBatchNode_one_batch_pending (w : World) (node : option NodeRef)
    (drawingContext : CtxVal) :
  one_batch_pending w ->
  one_batch_pending (world_of (setCurrentBatchNode node drawingContext w)).
Proof.
  intros Hone.
  destruct (decide (currentBatchNode (manager w) = node)) as [Heq|Hne].
  { by rewrite setCurrentBatchNode_same. }
  destruct (currentBatchNode (manager w)) as [current|] eqn:Hcur.
  - rewrite (setCurrentBatchNode_switch w current node drawingContext Hcur)
      by congruence.
    set (stored := currentBatchDrawingContext (manager w)).
    set (w0 := with_event w (CallRun current stored)).
    assert (Hone0 : one_batch_pending w0) by done.
    destruct (run_cases w0 current stored)
      as [[e ->]|[(h & Hh & Hz & ->)|(h & dc & Hh & _ & _ & ->)]]; [done| |].
    + intros n hn Hn Hpending. cbn in Hn. exfalso.
      pose proof (Hone n hn Hn Hpending) as Hn'. rewrite Hcur in Hn'.
      injection Hn' as <-. cbn in Hh. congruence.
    + intros n hn Hn Hpending. cbn in Hn. exfalso.
      destruct (decide (n = current)) as [->|Hnc].
      * rewrite lookup_insert_eq in Hn. injection Hn as <-. by cbn in Hpending.
      * rewrite lookup_insert_ne in Hn by done.
        pose proof (Hone n hn Hn Hpending) as Hn'. rewrite Hcur in Hn'.
        by injection Hn' as <-.
  - destruct node as [n|]; [|done].
    rewrite setCurrentBatchNode_first by done.
    intros n' hn Hn Hpending. cbn in Hn. exfalso.
    pose proof (Hone n' hn Hn Hpending) as Hn'. by rewrite Hcur in Hn'.
Qed.

Section OneBatch.

Variable mul : JSNumber -> JSNumber -> JSNumber.
Variable fround : JSNumber -> JSNumber.

Lemma batch_call_one_batch_pending (w : World) (this : NodeRef) (c : LightQuad) :
  one_batch_pending w ->
  one_batch_pending (world_of (batch_call mul fround this c w)).
Proof.
  intros Hone. unfold batch_call, batch, bind at 1.
  unfold get_handler at 1.
  destruct (handlers w !! this) as [h|] eqn:Hh; [|done].
  unfold bind at 1.
  assert (Hreg : match (if (instanceCount h =? 0)%Z
                        then setCurrentBatchNode (Some this) (Ctx (lq_drawingContext c))
                        else ret tt) w with
                 | Ok _ w0 => one_batch_pending w0 /\
                              currentBatchNode (manager w0) = Some this
                 | Throw _ w0 => one_batch_pending w0
                 end).
  { destruct (Z.eqb_spec (instanceCount h) 0) as [Hz|Hnz].
    - pose proof (setCurrentBatchNode_one_batch_pending w (Some this)
                    (Ctx (lq_drawingContext c)) Hone) as Hone0.
      destruct (setCurrentBatchNode (Some this) (Ctx (lq_drawingContext c)) w)
        as [[] w0|e w0] eqn:Hset; [|done].
      split; [done|]. by apply (setCurrentBatchNode_ok_current w w0 _ _ Hset).
    - cbn. split; [done|]. by apply (Hone this h). }
  match type of Hreg with
  | match ?r with _ => _ end => destruct r as [[] w0|e w0]; [|done]
  end.
  destruct Hreg as [Hone0 Hcur0].
  unfold bind at 1, get_handler at 1.
  destruct (handlers w0 !! this) as [h0|] eqn:Hh0; [|done].
  set (h1 := set_instanceCount (set_viewF32 h0 _) _).
  unfold bind at 1, put_handler.
  assert (Hone1 : one_batch_pending (with_handler w0 this h1)).
  { intros n hn Hn Hpending. cbn in Hn |- *.
    destruct (decide (n = this)) as [->|Hne]; [done|].
    rewrite lookup_insert_ne in Hn by done. by apply (Hone0 n hn). }
  destruct (instanceCount h1 =? instancesPerBatch h1)%Z; [|done].
  by apply run_one_batch_pending.
Qed.

(** X7. At most one batch accumulates at a time: if only the current
    batch node holds pending instances, this is still so after
    [setCurrentBatchNode], [startStandAloneRender], [run] or [batch],
    whatever their arguments and whether they return or throw. It holds
    in any world whose handlers are all empty. *)
Theorem one_batch_pending_invariant (w : World) :
  one_batch_pending w ->
  (forall node drawingContext,
     one_batch_pending (world_of (setCurrentBatchNode node drawingContext w))) /\
  one_batch_pending (world_of (startStandAloneRender w)) /\
  (forall this drawingContext,
     one_batch_pending (world_of (run this drawingContext w))) /\
  (forall this c,
     one_batch_pending (world_of (batch_call mul fround this c w))) /\
  (forall this calls,
     one_batch_pending (world_of (batch_all mul fround this calls w))).
Proof.
  intros Hone.
  split; [intros; by apply setCurrentBatchNode_one_batch_pending|].
  split; [by apply setCurrentBatchNode_one_batch_pending|].
  split; [intros; by apply run_one_batch_pending|].
  split; [intros; by apply batch_call_one_batch_pending|].
  intros this calls. revert w Hone.
  induction calls as [|c calls IH]; intros w Hone; [done|].
  unfold batch_all. cbn [for_each]. unfold bind.
  pose proof (batch_call_one_batch_pending w this c Hone) as Hone1.
  destruct (batch_call mul fround this c w) as [[] w1|e w1]; [|done].
  by apply IH.
Qed.

End OneBatch.

Lemma all_empty_one_batch_pending (w : World) :
  (forall n h, handlers w !! n = Some h -> instanceCount h = 0%Z) ->
  one_batch_pending w.
Proof. intros Hempty n h Hn Hpending. by destruct (Hpending (Hempty n h Hn)). Qed.

Lemma sample_world_one_batch_pending : one_batch_pending sample_world.
Proof.
  apply all_empty_one_batch_pending. intros n h Hn.
  destruct (decide (n = 1)) as [->|H1].
  - vm_compute in Hn. by injection Hn as <-.
  - destruct (decide (n = 2)) as [->|H2].
    + vm_compute in Hn. by injection Hn as <-.
    + unfold sample_world in Hn. cbn [handlers] in Hn.
      by rewrite !lookup_insert_ne, lookup_empty in Hn by done.
Qed.

Lemma one_batch_pending_invariant_witness :
  one_batch_pending
    (world_of (batch_all sample_mul sample_fround 1 [sample_quad; sample_quad]
                 sample_world)).
Proof.
  apply (one_batch_pending_invariant sample_mul sample_fround sample_world
           sample_world_one_batch_pending).
Defined.

(** X8. A stand-alone render starts with nothing pending: if only the
    current batch node holds pending instances and
    [startStandAloneRender] returns, then every handler is empty and
    there is no current batch node. *)
Theorem startStandAloneRender_flushes_all (w w' : World) :
  one_batch_pending w ->
  startStandAloneRender w = Ok tt w' ->
  currentBatchNode (manager w') = None /\
  forall n h, handlers w' !! n = Some h -> instanceCount h = 0%Z.
Proof.
  intros Hone Hsar.
  pose proof (setCurrentBatchNode_ok_current w w' None CtxUndefined Hsar) as Hcur.
  split; [done|]. intros n h Hn.
  destruct (Z.eq_dec (instanceCount h) 0%Z) as [Hz|Hnz]; [done|]. exfalso.
  pose proof (setCurrentBatchNode_one_batch_pending w None CtxUndefined Hone)
    as Hone'.
  unfold startStandAloneRender in Hsar. rewrite Hsar in Hone'. cbn in Hone'.
  pose proof (Hone' n h Hn Hnz) as Hbad. by rewrite Hcur in Hbad.
Qed.

Lemma sample_world_batching_one_batch_pending :
  one_batch_pending sample_world_batching.
Proof.
  intros n h Hn Hpending.
  destruct (decide (n = 1)) as [->|H1]; [done|].
  destruct (decide (n = 2)) as [->|H2].
  - vm_compute in Hn. injection Hn as <-. by destruct Hpending.
  - unfold sample_world_batching in Hn. cbn [handlers] in Hn.
    by rewrite !lookup_insert_ne, lookup_empty in Hn by done.
Qed.

Lemma startStandAloneRender_flushes_all_witness :
  exists w',
    startStandAloneRender sample_world_batching = Ok tt w' /\
    currentBatchNode (manager w') = None /\
    forall n h, handlers w' !! n = Some h -> instanceCount h = 0%Z.
Proof.
  eexists. split; [reflexivity|].
  apply (startStandAloneRender_flushes_all sample_world_batching _
           sample_world_batching_one_batch_pending eq_refl).
Defined.

(** ** What one call of [batch] does *)

Section BatchExact.

Variable mul : JSNumber -> JSNumber -> JSNumber.
Variable fround : JSNumber -> JSNumber.

(** The handler after the stores and the increment of one call. *)
Lemma batch_call_exact (w w0 : World) (this : NodeRef)
    (h : BatchHandlerPointLight) (c : LightQuad) :
  handlers w !! this = Some h ->
  (if (instanceCount h =? 0)%Z
   then setCurrentBatchNode (Some this) (Ctx (lq_drawingContext c))
   else ret tt) w = Ok tt w0 ->
  handlers w0 !! this = Some h ->
  exists h1,
    viewF32 h1 =
      store_light fround (viewF32 h) (instanceCount h * floatsPerInstance h)
        (lq_xTL c) (lq_yTL c) (lq_xBL c) (lq_yBL c)
        (lq_xTR c) (lq_yTR c) (lq_xBR c) (lq_yBR c)
        (lq_lightX c) (lq_lightY c)
        (radius (lq_light c)) (attenuation (lq_light c))
        (mul (color_r (lq_light c)) (intensity (lq_light c)))
        (mul (color_g (lq_light c)) (intensity (lq_light c)))
        (mul (color_b (lq_light c)) (intensity (lq_light c)))
        (mul (camera_alpha (lq_drawingContext c)) (light_alpha (lq_light c))) /\
    instanceCount h1 = (instanceCount h + 1)%Z /\
    instancesPerBatch h1 = instancesPerBatch h /\
    indicesPerInstance h1 = indicesPerInstance h /\
    bytesPerInstance h1 = bytesPerInstance h /\
    floatsPerInstance h1 = floatsPerInstance h /\
    batch_call mul fround this c w =
      if (instanceCount h + 1 =? instancesPerBatch h)%Z
      then run this (Ctx (lq_drawingContext c)) (with_handler w0 this h1)
      else Ok tt (with_handler w0 this h1).
Proof.
  intros Hh Hreg Hh0.
  eexists (set_instanceCount (set_viewF32 h _) (instanceCount h + 1)).
  split; [reflexivity|]. do 5 (split; [reflexivity|]).
  unfold batch_call, batch, bind at 1.
  unfold get_handler at 1. rewrite Hh.
  unfold bind at 1. rewrite Hreg.
  unfold bind at 1. unfold get_handler at 1. rewrite Hh0.
  unfold bind at 1, put_handler. cbn [instanceCount instancesPerBatch
    set_instanceCount set_viewF32].
  by destruct (instanceCount h + 1 =? instancesPerBatch h)%Z.
Qed.

(** X9. One call of [batch] on a handler with room, whose buffer has
    forty floats per instance or more: the forty floats of the light are
    stored from float [instanceCount * floatsPerInstance] on, as four
    vertices in the order bottom left, top left, bottom right, top
    right, each (x, y, lightX, lightY, radius, attenuation, r, g, b, a)
    with the colour scaled by the intensity and the alpha by the camera
    alpha; every other float of the buffer is left as it was, also when
    the call ends with a flush. *)
Theorem batch_stores_vertices (w : World) (this : NodeRef)
    (h : BatchHandlerPointLight) (c : LightQuad) :
  handlers w !! this = Some h ->
  (0 <= instanceCount h < instancesPerBatch h)%Z ->
  previous_batch_flushes w this ->
  (40 <= floatsPerInstance h)%Z ->
  Z.of_nat (length (viewF32 h)) = (instancesPerBatch h * floatsPerInstance h)%Z ->
  let offset := Z.to_nat (instanceCount h * floatsPerInstance h) in
  let light := lq_light c in
  let r := mul (color_r light) (intensity light) in
  let g := mul (color_g light) (intensity light) in
  let b := mul (color_b light) (intensity light) in
  let a := mul (camera_alpha (lq_drawingContext c)) (light_alpha light) in
  let vertex x y :=
    [x; y; lq_lightX c; lq_lightY c; radius light; attenuation light; r; g; b; a] in
  exists w' h',
    batch_call mul fround this c w = Ok tt w' /\
    handlers w' !! this = Some h' /\
    viewF32 h' =
      take offset (viewF32 h)
      ++ map fround (vertex (lq_xBL c) (lq_yBL c) ++ vertex (lq_xTL c) (lq_yTL c)
                     ++ vertex (lq_xBR c) (lq_yBR c) ++ vertex (lq_xTR c) (lq_yTR c))
      ++ drop (offset + 40) (viewF32 h).
Proof.
  intros Hh Hrange Hprev Hfpi Hlen offset light r g b a vertex.
  assert (Hreg : exists w0,
    (if (instanceCount h =? 0)%Z
     then setCurrentBatchNode (Some this) (Ctx (lq_drawingContext c))
     else ret tt) w = Ok tt w0 /\ handlers w0 !! this = Some h).
  { destruct (instanceCount h =? 0)%Z; [|by exists w].
    destruct (setCurrentBatchNode_register w this h (Ctx (lq_drawingContext c))
                Hh Hprev) as (w0 & Hset & Hh0 & _).
    by exists w0. }
  destruct Hreg as (w0 & Hreg & Hh0).
  destruct (batch_call_exact w w0 this h c Hh Hreg Hh0)
    as (h1 & Hview & Hic1 & _ & _ & _ & _ & Hcall).
  destruct (batch_offset_in_bounds h Hrange Hfpi Hlen) as [Hoff Hroom].
  rewrite (store_light_in_bounds fround) in Hview by done.
  destruct (Z.eqb_spec (instanceCount h + 1) (instancesPerBatch h)) as [Hfull|Hnot].
  - rewrite (run_flush (with_handler w0 this h1) this h1) in Hcall
      by first [apply lookup_insert_eq | lia].
    exists (flushed (with_handler w0 this h1) this (lq_drawingContext c) h1),
      (set_instanceCount h1 0).
    split; [done|]. split; [apply flushed_handler|]. exact Hview.
  - exists (with_handler w0 this h1), h1.
    split; [done|]. split; [apply lookup_insert_eq|]. exact Hview.
Qed.

(** X10. A batch that fills up is drawn under the drawing context of the
    call that filled it: when a call of [batch] on a handler with pending
    instances makes the count reach the capacity, the flush it does is
    one draw call of the full batch under the context passed to that
    call; the pair stored in the manager is neither consulted nor
    changed. *)
Theorem batch_full_flush_context (w : World) (this : NodeRef)
    (h : BatchHandlerPointLight) (c : LightQuad) :
  handlers w !! this = Some h ->
  (0 < instanceCount h)%Z ->
  (instanceCount h + 1)%Z = instancesPerBatch h ->
  exists w' h1,
    batch_call mul fround this c w = Ok tt w' /\
    instanceCount h1 = instancesPerBatch h /\
    indicesPerInstance h1 = indicesPerInstance h /\
    bytesPerInstance h1 = bytesPerInstance h /\
    log w' = flush_events this (lq_drawingContext c) h1 ++ log w /\
    manager w' = manager w /\
    exists h', handlers w' !! this = Some h' /\ instanceCount h' = 0%Z.
Proof.
  intros Hh Hpos Hfull.
  assert (Hreg : (if (instanceCount h =? 0)%Z
                  then setCurrentBatchNode (Some this) (Ctx (lq_drawingContext c))
                  else ret tt) w = Ok tt w).
  { destruct (Z.eqb_spec (instanceCount h) 0); [lia | done]. }
  destruct (batch_call_exact w w this h c Hh Hreg Hh)
    as (h1 & _ & Hic1 & _ & Hipi & Hbpi & _ & Hcall).
  rewrite (proj2 (Z.eqb_eq _ _) Hfull) in Hcall.
  rewrite (run_flush (with_handler w this h1) this h1) in Hcall
    by first [apply lookup_insert_eq | lia].
  exists (flushed (with_handler w this h1) this (lq_drawingContext c) h1), h1.
  split; [done|]. split; [lia|]. split; [done|]. split; [done|].
  split; [done|]. split; [done|].
  exists (set_instanceCount h1 0). split; [apply flushed_handler | done].
Qed.


Lemma sum_replicate (n : nat) (x : Z) :
  foldr Z.add 0%Z (replicate n x) = (Z.of_nat n * x)%Z.
Proof. induction n as [|n IH]; cbn [replicate foldr]; [lia | rewrite IH; lia]. Qed.

(** X12. No light is lost or drawn twice: after [N] calls of [batch] in
    a row on an empty handler, the index counts of the draw calls it
    issued and the instances still pending add up to [N] instances. *)
Theorem batch_conserves_instances (w : World) (this : NodeRef)
    (h : BatchHandlerPointLight) (calls : list LightQuad) :
  handlers w !! this = Some h ->
  instanceCount h = 0%Z ->
  (0 < instancesPerBatch h)%Z ->
  previous_batch_flushes w this ->
  exists w' h' drawn,
    batch_all mul fround this calls w = Ok tt w' /\
    handlers w' !! this = Some h' /\
    drawCounts this (log w') = drawn ++ drawCounts this (log w) /\
    (foldr Z.add 0%Z drawn + instanceCount h' * indicesPerInstance h)%Z =
      (Z.of_nat (length calls) * indicesPerInstance h)%Z.
Proof.
  intros Hh Hzero Hcap Hprev.
  destruct (batch_all_spec mul fround this calls w h Hh ltac:(lia) Hprev)
    as (w' & h' & Hall & Hh' & _ & Hic & Hdraw & _).
  rewrite Hzero, Z.add_0_l in Hic, Hdraw.
  eexists w', h', _. split; [done|]. split; [done|]. split; [exact Hdraw|].
  rewrite sum_replicate, Hic.
  set (N := Z.of_nat (length calls)). set (cap := instancesPerBatch h).
  assert (0 <= N)%Z by (subst N; lia).
  rewrite Z2Nat.id by (apply Z.div_pos; lia).
  pose proof (Z.div_mod N cap ltac:(lia)) as Hdm. nia.
Qed.

End BatchExact.

(** ** The debug graph: recording *)

Lemma for_each_app {A : Type} (f : A -> Exec unit) (l1 l2 : list A) (w : World) :
  for_each f (l1 ++ l2) w = (for_each f l1 ;; for_each f l2) w.
Proof.
  revert w. induction l1 as [|x l1 IH]; intros w.
  - cbn. unfold bind, ret. done.
  - cbn [app for_each]. unfold bind.
    destruct (f x w) as [[] w1|e w1]; [|done].
    rewrite IH. by unfold bind.
Qed.

(** What [setDebug] comes to: the calls on the nodes, then, for [true],
    a new graph made of the root and one listener registered. *)
Lemma setDebug_result (w : World) (value : bool) :
  setDebug value w =
  Ok tt
    {| manager :=
         if value
         then set_debugGraph (set_debug (manager w) true)
                (Some (DebugNode "[Render Tree Root]" [])) (Some [])
         else set_debug (manager w) false;
       handlers := handlers w;
       next_ref := next_ref w;
       log := (if value then [RendererOncePostRender] else [])
              ++ rev (map (fun node => NodeSetDebug node value)
                        (omap (JSObject.own (_nodes (manager w)))
                           (JSObject.keys (_nodes (manager w)))))
              ++ log w |}.
Proof.
  rewrite setDebug_unfold. unfold bind at 1. rewrite setDebug_nodes.
  by destruct value.
Qed.

(** ** The registration order *)

Lemma setCurrentBatchNode_nodes (w : World) (node : option NodeRef)
    (drawingContext : CtxVal) :
  _nodes (manager (world_of (setCurrentBatchNode node drawingContext w))) =
  _nodes (manager w).
Proof.
  destruct (decide (currentBatchNode (manager w) = node)) as [Heq|Hne].
  - by rewrite setCurrentBatchNode_same.
  - destruct (currentBatchNode (manager w)) as [current|] eqn:Hcur.
    + rewrite (setCurrentBatchNode_switch w current node drawingContext Hcur)
        by congruence.
      destruct (run_footprint
                  (with_event w (CallRun current (currentBatchDrawingContext (manager w))))
                  current (currentBatchDrawingContext (manager w)))
        as (evs & _ & Hm & _).
      destruct (run current _ _); cbn in *; by rewrite Hm.
    + destruct node as [n|]; [|done].
      by rewrite setCurrentBatchNode_first by done.
Qed.

(** A method leaves [_nodes] as it is, or ([addNode], [getNode]) adds one
    property under a name that was not there, last in creation order:
    [_nodes] lists the registered nodes in the order of registration. *)
Lemma perform_nodes (c : Call) (w : World) :
  _nodes (manager (world_of (perform c w))) = _nodes (manager w) \/
  exists name node,
    JSObject.own (_nodes (manager w)) name = None /\
    _nodes (manager (world_of (perform c w))) = _nodes (manager w) ++ [(name, node)].
Proof.
  assert (Hadd : forall name node v,
            manager v = manager w ->
            JSObject.get (_nodes (manager w)) name = None ->
            exists name' node',
              JSObject.own (_nodes (manager w)) name' = None /\
              _nodes (manager (world_of (addNode name node v))) =
                _nodes (manager w) ++ [(name', node')]).
  { intros name node v Hv Hn. exists name, node.
    pose proof Hn as [Hown _]%get_None. split; [done|].
    unfold addNode, bind, get_manager. rewrite Hv, Hn. cbn.
    destruct (debug (manager w)); cbn; by apply put_new. }
  destruct c as [name node|name ctor|name|node ctx|value| |value|name| |];
    cbn [perform].
  - destruct (JSObject.get (_nodes (manager w)) name) eqn:Hn.
    + left. by rewrite (addNode_present w name node p Hn).
    + right. by apply Hadd.
  - left. unfold addNodeConstructor, bind, get_manager.
    by destruct (JSObject.get (_nodeConstructors (manager w)) name).
  - unfold getNode, construct, bind, get_manager, fresh_ref, emit.
    destruct (JSObject.get (_nodes (manager w)) name) eqn:Hn; [left; reflexivity|].
    destruct (JSObject.get (_nodeConstructors (manager w)) name) as [[ctor|]|];
      [|left; reflexivity..].
    right. cbn. rewrite Hn. pose proof Hn as [Hown _]%get_None.
    exists name, (next_ref w). split; [done|].
    unfold bind, put_manager.
    destruct (debug (manager w)); cbn; by apply put_new.
  - left. apply setCurrentBatchNode_nodes.
  - by left.
  - left. apply setCurrentBatchNode_nodes.
  - left. rewrite setDebug_result. by destruct value.
  - left. unfold pushDebug, bind, get_manager.
    destruct (debug (manager w)); [|done]. cbn.
    destruct (debugGraph (manager w)); [|done].
    by destruct (currentDebugNode (manager w)).
  - left. unfold popDebug, bind, get_manager.
    destruct (debug (manager w)); [|done]. cbn.
    by destruct (currentDebugNode (manager w)) as [[|? ?]|].
  - left. unfold debugToString, bind, get_manager.
    by destruct (debugGraph (manager w)).
Qed.

(** No name is registered twice, in any state the methods reach. *)
Lemma perform_all_nodes_nodup (calls : list Call) :
  forall w,
  NoDup (map fst (_nodes (manager w))) ->
  NoDup (map fst (_nodes (manager (perform_all calls w)))).
Proof.
  induction calls as [|c calls IH]; intros w Hnodup; [done|].
  cbn. apply IH.
  destruct (perform_nodes c w) as [->|(name & node & Hown & ->)]; [done|].
  rewrite map_app. apply NoDup_app. split; [done|]. split.
  - intros k Hk ->%list_elem_of_singleton.
    by apply (own_None_not_elem_of _ _ Hown).
  - apply NoDup_singleton.
Qed.

Lemma own_entries {V : Type} (o : JSObject.t V) (l : list (string * V)) :
  NoDup (map fst o) ->
  Forall (fun e => e ∈ o) l ->
  omap (JSObject.own o) (map fst l) = map snd l.
Proof.
  intros Hnodup. induction 1 as [|[k v] l He _ IH]; [done|].
  cbn. rewrite (own_entry o k v Hnodup He). cbn. by rewrite IH.
Qed.

Lemma filter_none {A : Type} (P : A -> Prop) `{forall x, Decision (P x)}
    (l : list A) :
  Forall (fun x => ~ P x) l -> filter P l = [].
Proof.
  induction 1 as [|x l Hx _ IH]; [done|]. by rewrite filter_cons_False.
Qed.

Lemma filter_all {A : Type} (P : A -> Prop) `{forall x, Decision (P x)}
    (l : list A) :
  Forall P l -> filter P l = l.
Proof.
  induction 1 as [|x l Hx _ IH]; [done|]. by rewrite filter_cons_True, IH.
Qed.

Lemma insert_entry_sorted {V : Type} (e : string * V) (l : list (string * V)) :
  Sorted (fun a b => (JSObject.index_of a <= JSObject.index_of b)%N) l ->
  Sorted (fun a b => (JSObject.index_of a <= JSObject.index_of b)%N)
    (JSObject.insert_entry e l).
Proof.
  induction 1 as [|x l Hl IH Hhd]; cbn.
  - by repeat constructor.
  - destruct (JSObject.index_of e <=? JSObject.index_of x)%N eqn:Hle.
    + apply N.leb_le in Hle. constructor; [by constructor|by constructor].
    + apply N.leb_gt in Hle. constructor; [done|].
      destruct Hhd as [|y l Hxy]; cbn.
      * constructor. lia.
      * destruct (JSObject.index_of e <=? JSObject.index_of y)%N;
          constructor; [lia | done].
Qed.

Lemma sort_entries_sorted {V : Type} (l : list (string * V)) :
  Sorted (fun a b => (JSObject.index_of a <= JSObject.index_of b)%N)
    (foldr JSObject.insert_entry [] l).
Proof.
  induction l as [|x l IH]; cbn; [constructor | by apply insert_entry_sorted].
Qed.

(** X13. [setDebug(value)] sets [debug] and calls [setDebug(value)] once
    on every registered node and on nothing else, in the order in which
    [for]-[in] visits [_nodes]: the nodes whose name is an array index
    first, by ascending index, then the others in the order in which
    they were registered, which is the order of all of them when no name
    is an array index. With [true] it then throws the earlier debug
    graph away and starts a new one made of the root node alone, which
    becomes the current debug node, and asks the renderer for one call
    back at post-render; with [false] it leaves the recorded graph in
    place. The registry and the batch state are untouched. (The calls of
    [setDebug] on the nodes are taken to return; each name occurs once
    in [_nodes], as it does in every state the methods reach, see
    [perform_all_nodes_nodup].) *)
Theorem setDebug_resets_graph (w : World) (value : bool) :
  NoDup (map fst (_nodes (manager w))) ->
  exists w' order,
    setDebug value w = Ok tt w' /\
    debug (manager w') = value /\
    log w' =
      (if value then [RendererOncePostRender] else [])
      ++ rev (map (fun entry : string * NodeRef => NodeSetDebug (snd entry) value)
                order)
      ++ log w /\
    order ≡ₚ _nodes (manager w) /\
    filter (fun e => ~ is_Some (JSObject.array_index (fst e))) order =
      filter (fun e => ~ is_Some (JSObject.array_index (fst e)))
        (_nodes (manager w)) /\
    (exists indexed named,
       order = indexed ++ named /\
       Forall (fun e => is_Some (JSObject.array_index (fst e))) indexed /\
       Forall (fun e => ~ is_Some (JSObject.array_index (fst e))) named /\
       Sorted (fun a b => (JSObject.index_of a <= JSObject.index_of b)%N) indexed) /\
    (Forall (fun e => JSObject.array_index (fst e) = None) (_nodes (manager w)) ->
     order = _nodes (manager w)) /\
    (if value
     then debugGraph (manager w') = Some (DebugNode "[Render Tree Root]" []) /\
          currentDebugNode (manager w') = Some []
     else debugGraph (manager w') = debugGraph (manager w) /\
          currentDebugNode (manager w') = currentDebugNode (manager w)) /\
    _nodes (manager w') = _nodes (manager w) /\
    _nodeConstructors (manager w') = _nodeConstructors (manager w) /\
    currentBatchNode (manager w') = currentBatchNode (manager w) /\
    currentBatchDrawingContext (manager w') = currentBatchDrawingContext (manager w) /\
    handlers w' = handlers w.
Proof.
  intros Hnodup. set (o := _nodes (manager w)) in *.
  set (isIndex := fun e : string * NodeRef => is_Some (JSObject.array_index (fst e))).
  set (notIndex := fun e : string * NodeRef => ~ is_Some (JSObject.array_index (fst e))).
  set (indexed := foldr JSObject.insert_entry [] (filter isIndex o)).
  assert (Hindexed : Forall isIndex indexed).
  { apply Forall_forall. intros e He. unfold indexed in He.
    rewrite sort_entries_perm in He. by apply list_elem_of_filter in He as [? _]. }
  eexists _, (JSObject.enumerate o).
  split; [apply setDebug_result|]. cbn [manager handlers log].
  split; [by destruct value|].
  split.
  { do 2 f_equal. unfold JSObject.keys. fold o.
    rewrite (own_entries o (JSObject.enumerate o) Hnodup), map_map; [done|].
    apply Forall_forall. intros e He. by rewrite <- (enumerate_perm o). }
  split; [apply enumerate_perm|].
  split.
  { unfold JSObject.enumerate. fold isIndex notIndex indexed.
    rewrite filter_app, (filter_none notIndex indexed).
    - cbn [app]. apply list_filter_filter_l. done.
    - eapply Forall_impl; [exact Hindexed|]. intros e He Hn. by apply Hn. }
  split.
  { exists indexed, (filter notIndex o).
    split; [done|]. split; [done|].
    split; [|apply sort_entries_sorted].
    apply Forall_forall. intros e He. by apply list_elem_of_filter in He as [? _]. }
  split.
  { intros Hnone. unfold JSObject.enumerate. fold isIndex notIndex.
    assert (Hnot : Forall notIndex o).
    { eapply Forall_impl; [exact Hnone|]. intros e He.
      unfold notIndex. rewrite He. by intros [? ?]. }
    rewrite (filter_none isIndex o), (filter_all notIndex o); done. }
  by destruct value.
Qed.

(** Registered through [addNode] in the order [b], [a], [10], [9], the
    nodes are told in the order [9], [10], [b], [a]. *)
Lemma setDebug_resets_graph_witness :
  let w :=
    perform_all [CallAddNode "b" 1; CallAddNode "a" 2;
                 CallAddNode "10" 4; CallAddNode "9" 5] sample_world in
  _nodes (manager w) = [("b", 1); ("a", 2); ("10", 4); ("9", 5)] /\
  exists w',
    setDebug true w = Ok tt w' /\
    log w' = [RendererOncePostRender; NodeSetDebug 2 true; NodeSetDebug 1 true;
              NodeSetDebug 4 true; NodeSetDebug 5 true].
Proof.
  intros w. split; [vm_compute; reflexivity|].
  assert (Hnodup : NoDup (map fst (_nodes (manager w)))).
  { apply (bool_decide_unpack _). vm_compute. exact I. }
  destruct (setDebug_resets_graph w true Hnodup) as (w' & order & Hset & _).
  exists w'. split; [exact Hset|].
  revert Hset. vm_compute. intros [= <-]. reflexivity.
Defined.

Lemma subtree_push_child (path : list nat) :
  forall (g s new : DebugGraphNode),
  subtree path g = Some s ->
  subtree (path ++ [length (node_children s)]) (push_child path new g) = Some new.
Proof.
  induction path as [|i rest IH]; intros g s new Hs.
  - cbn in Hs. injection Hs as <-. cbn.
    by rewrite lookup_app_r, Nat.sub_diag by lia.
  - cbn [subtree] in Hs.
    destruct (node_children g !! i) as [child|] eqn:Hchild; [|done].
    cbn [app subtree push_child node_children].
    rewrite list_lookup_alter_eq, Hchild. cbn. by apply IH.
Qed.

Lemma push_child_extend (path : list nat) :
  forall (g s new c : DebugGraphNode),
  subtree path g = Some s ->
  push_child (path ++ [length (node_children s)]) c (push_child path new g) =
  push_child path (DebugNode (node_name new) (node_children new ++ [c])) g.
Proof.
  induction path as [|i rest IH]; intros g s new c Hs.
  - cbn in Hs. injection Hs as <-. cbn [app push_child node_name node_children].
    f_equal. replace (length (node_children g))
      with (length (node_children g) + 0) by lia.
    by rewrite alter_app_r.
  - cbn [subtree] in Hs.
    destruct (node_children g !! i) as [child|] eqn:Hchild; [|done].
    cbn [app push_child node_name node_children]. f_equal.
    rewrite list_alter_alter_eq. apply list_alter_ext; [|done].
    intros x Hx. rewrite Hchild in Hx. injection Hx as <-. cbn.
    by apply IH.
Qed.

Lemma recorded_id (w : World) (g : DebugGraphNode) (path : list nat) :
  recording w g path -> recorded w g path = w.
Proof.
  destruct w as [m hs n l]. destruct m. unfold recording, recorded. cbn.
  intros (_ & -> & ->). reflexivity.
Qed.

Lemma recorded_recording (w : World) (g : DebugGraphNode) (path : list nat) :
  debug (manager w) = true -> recording (recorded w g path) g path.
Proof. intros Hd. by repeat split. Qed.

Lemma pushDebug_recording (w : World) (name : string) (g s : DebugGraphNode)
    (path : list nat) :
  recording w g path -> subtree path g = Some s ->
  pushDebug name w =
  Ok tt (recorded w (push_child path (DebugNode name []) g)
           (path ++ [length (node_children s)])).
Proof.
  intros (Hd & Hg & Hc) Hs. unfold pushDebug, bind, get_manager.
  by rewrite Hd, Hg, Hc, Hs.
Qed.

Lemma popDebug_recording (w : World) (g : DebugGraphNode) (path : list nat)
    (k : nat) :
  recording w g (path ++ [k]) -> popDebug w = Ok tt (recorded w g path).
Proof.
  intros (Hd & Hg & Hc). unfold popDebug, bind, get_manager.
  rewrite Hd, Hc, Hg. cbn [negb].
  destruct (path ++ [k]) as [|i rest] eqn:Hpath.
  - by destruct path.
  - rewrite <- Hpath, removelast_last. done.
Qed.

(** Recording the calls of one node and of all it runs adds its call
    tree as the last child of the current debug node, which is current
    again afterwards. *)
Lemma record_tree (t : DebugGraphNode) :
  forall (w : World) (g s : DebugGraphNode) (path : list nat),
  recording w g path -> subtree path g = Some s ->
  for_each perform (brackets t) w = Ok tt (recorded w (push_child path t g) path).
Proof.
  induction t as [name children IH] using DebugGraphNode_forall_ind.
  intros w g s path Hrec Hs.
  pose proof Hrec as (Hd & _ & _).
  set (path' := path ++ [length (node_children s)]).
  assert (Hchildren :
    forall (done : list DebugGraphNode) (w1 : World),
      recording w1 (push_child path (DebugNode name done) g) path' ->
      for_each perform (flat_map brackets children) w1 =
      Ok tt (recorded w1 (push_child path (DebugNode name (done ++ children)) g) path')).
  { clear Hrec w Hd. induction IH as [|c cs Hc _ IHcs]; intros done w1 Hrec1.
    - cbn. rewrite app_nil_r. by rewrite recorded_id.
    - pose proof Hrec1 as (Hd1 & _ & _).
      cbn [flat_map]. rewrite for_each_app. unfold bind.
      rewrite (Hc w1 _ (DebugNode name done) path' Hrec1)
        by (by apply subtree_push_child).
      unfold path'.
      rewrite (push_child_extend path g s (DebugNode name done) c Hs).
      cbn [node_name node_children]. fold path'.
      rewrite (IHcs (done ++ [c])) by (by apply recorded_recording).
      rewrite <- app_assoc. reflexivity. }
  cbn [brackets for_each]. unfold bind at 1. cbn [perform].
  rewrite (pushDebug_recording w name g s path Hrec Hs). fold path'.
  rewrite for_each_app. unfold bind at 1.
  rewrite (Hchildren []) by (by apply recorded_recording).
  cbn [app for_each]. unfold bind. cbn [perform].
  rewrite (popDebug_recording _ (push_child path (DebugNode name children) g) path
             (length (node_children s)))
    by (by apply recorded_recording).
  reflexivity.
Qed.

(** The same for the nodes run at top level, under the root. *)
Lemma record_trees (calls : list DebugGraphNode) :
  forall (done : list DebugGraphNode) (w : World),
  recording w (DebugNode render_tree_root done) [] ->
  for_each perform (flat_map brackets calls) w =
  Ok tt (recorded w (DebugNode render_tree_root (done ++ calls)) []).
Proof.
  induction calls as [|c calls IH]; intros done w Hrec.
  - cbn. rewrite app_nil_r. by rewrite recorded_id.
  - pose proof Hrec as (Hd & _ & _).
    cbn [flat_map]. rewrite for_each_app. unfold bind.
    rewrite (record_tree c w _ (DebugNode render_tree_root done) [] Hrec eq_refl).
    cbn [push_child node_name node_children].
    rewrite (IH (done ++ [c])) by (by apply recorded_recording).
    rewrite <- app_assoc. reflexivity.
Qed.

Lemma setDebug_true_recording (w : World) :
  exists w',
    setDebug true w = Ok tt w' /\
    recording w' (DebugNode render_tree_root []) [].
Proof. eexists. split; [apply setDebug_result|]. by repeat split. Qed.

Lemma setDebug_false_graph (w : World) :
  exists w',
    setDebug false w = Ok tt w' /\
    debugGraph (manager w') = debugGraph (manager w).
Proof. eexists. split; [apply setDebug_result|]. reflexivity. Qed.

(** X14. Balanced calls give back the current debug node. While
    recording, with the current debug node in the graph, the calls
    [pushDebug(name)], then those of the nodes run inside, then
    [popDebug()], for a whole call tree [t], return with [t] added as
    the last child of the current debug node, the rest of the graph and
    of the world unchanged, and the same node current again. *)
Theorem pushDebug_popDebug_balanced (t : DebugGraphNode) (w : World)
    (g s : DebugGraphNode) (path : list nat) :
  recording w g path ->
  subtree path g = Some s ->
  exists w',
    for_each perform (brackets t) w = Ok tt w' /\
    recording w' (push_child path t g) path /\
    subtree path (push_child path t g) =
      Some (DebugNode (node_name s) (node_children s ++ [t])) /\
    handlers w' = handlers w /\ log w' = log w /\
    _nodes (manager w') = _nodes (manager w) /\
    currentBatchNode (manager w') = currentBatchNode (manager w).
Proof.
  intros Hrec Hs. pose proof Hrec as (Hd & _ & _).
  exists (recorded w (push_child path t g) path).
  split; [by apply (record_tree t w g s path)|].
  split; [by apply recorded_recording|].
  split; [|done].
  clear Hrec Hd w. revert g s Hs.
  induction path as [|i rest IH]; intros g s Hs.
  - cbn in Hs. by injection Hs as <-.
  - cbn [subtree] in Hs |- *.
    destruct (node_children g !! i) as [child|] eqn:Hchild; [|done].
    cbn [push_child node_children].
    rewrite list_lookup_alter_eq, Hchild. cbn. by apply IH.
Qed.

(** X15. Recording then dumping gives the call trees back. From any
    state, [setDebug(true)], then the bracketed calls of the nodes run
    during the frame, then [setDebug(false)] (the post-render call
    back), then [debugToString()], return the text of the tree whose
    root is the synthetic root and whose children are the call trees,
    in call order: the line of the root, then one line per call, a call
    before the calls made inside it, each line made of two spaces per
    level of nesting, the name and a line feed. *)
Theorem debug_round_trip (calls : list DebugGraphNode) (w : World) :
  exists w',
    (setDebug true ;; for_each perform (flat_map brackets calls) ;;
     setDebug false ;; debugToString) w =
      Ok (concat_lines
            (map (fun entry : nat * string =>
                    spaces (2 * fst entry) +:+ snd entry +:+ line_feed)
               ((0, "[Render Tree Root]")
                :: flat_map (fun t => preorder t 1) calls))) w' /\
    debugGraph (manager w') = Some (DebugNode "[Render Tree Root]" calls) /\
    debug (manager w') = false.
Proof.
  destruct (setDebug_true_recording w) as (w1 & Hon & Hrec).
  pose proof (record_trees calls [] w1 Hrec) as Hcalls. cbn [app] in Hcalls.
  set (w2 := recorded w1 (DebugNode render_tree_root calls) []) in *.
  destruct (setDebug_false_graph w2) as (w3 & Hoff & Hgraph).
  assert (Hd3 : debug (manager w3) = false).
  { revert Hoff. rewrite setDebug_result. intros [= <-]. reflexivity. }
  exists w3. split.
  { unfold bind. rewrite Hon, Hcalls, Hoff.
    rewrite (debugToString_graph w3 (DebugNode render_tree_root calls))
      by (by rewrite Hgraph).
    by rewrite formatNode_lines. }
  split; [by rewrite Hgraph|]. done.
Qed.

(** A frame with a camera that runs a compositor, which runs two
    submitters: four lines under the root, the compositor at depth 2,
    the submitters at depth 3. *)
Lemma debug_round_trip_lines :
  let frame :=
    [DebugNode "Camera"
       [DebugNode "ListCompositor"
          [DebugNode "SubmitterTile" []; DebugNode "SubmitterTile" []]]] in
  flat_map (fun t => preorder t 1) frame =
    [(1, "Camera"); (2, "ListCompositor"); (3, "SubmitterTile"); (3, "SubmitterTile")] /\
  spaces (2 * 3) = "      " /\
  String.length line_feed = 1 /\
  exists w',
    (setDebug true ;; for_each perform (flat_map brackets frame) ;;
     setDebug false ;; debugToString) sample_world =
    Ok ("[Render Tree Root]" +:+ line_feed +:+
        "  Camera" +:+ line_feed +:+
        "    ListCompositor" +:+ line_feed +:+
        "      SubmitterTile" +:+ line_feed +:+
        "      SubmitterTile" +:+ line_feed) w'.
Proof.
  intros frame. split; [reflexivity|]. split; [reflexivity|]. split; [reflexivity|].
  destruct (debug_round_trip frame sample_world) as (w' & Hrun & _).
  exists w'. exact Hrun.
Defined.

(** X16. One [popDebug] too many breaks the recorder, and it is idle
    when debugging is off. After [setDebug(true)] a [popDebug] leaves
    no current debug node; from there [pushDebug] throws a [TypeError]
    (it reads [children] of [null]) and so does [popDebug] (reading
    [parent]), the graph staying as it was. With debugging off both
    return at once and change nothing. *)
Theorem popDebug_unbalanced (w : World) (name : string) :
  (exists w1 w2,
     setDebug true w = Ok tt w1 /\
     popDebug w1 = Ok tt w2 /\
     currentDebugNode (manager w2) = None /\
     debugGraph (manager w2) = Some (DebugNode render_tree_root []) /\
     pushDebug name w2 =
       Throw (TypeError "Cannot read properties of null (reading 'children')") w2 /\
     popDebug w2 =
       Throw (TypeError "Cannot read properties of null (reading 'parent')") w2) /\
  (debug (manager w) = false ->
   pushDebug name w = Ok tt w /\ popDebug w = Ok tt w).
Proof.
  split.
  - destruct (setDebug_true_recording w) as (w1 & Hon & (Hd & Hg & Hc)).
    exists w1. eexists. split; [done|].
    split; [unfold popDebug, bind, get_manager; rewrite Hd, Hc; reflexivity|].
    cbn. split; [done|]. split; [done|].
    unfold pushDebug, popDebug, bind, get_manager. cbn. rewrite Hd, Hg. by split.
  - intros Hd. unfold pushDebug, popDebug, bind, get_manager. by rewrite Hd.
Qed.

(** ** SubmitterTile.run: tinter and batch handler *)

Section SubmitterTileMore.

Import SubmitterTile.

Variable getTint : JSNumber -> JSNumber -> JSNumber.
Variable sub : JSNumber -> JSNumber -> JSNumber.
Variable RenderOptions : Type.
Variable NormalMap : Type.
Variable setRenderOptions :
  GameObject -> option NormalMap -> JSValue -> RenderOptions -> RenderOptions.

(** X17. With a tinter, the tint mode and the four corner tints passed
    to [batch] are the tinter's own: its fields after its [run] when it
    has one, its fields as they are when it is a plain object. Neither
    the camera alpha nor the [tintFill] of the game object plays a part,
    and [getTint] is not used. *)
Theorem run_with_tinter (this : SubmitterTile RenderOptions)
    (drawingContext : DrawingContext) (gameObject : GameObject)
    (texturerNode : TexturerNode) (transformerNode : TransformerNode)
    (tinterNode : TinterNode)
    (normalMap : option NormalMap) (normalMapRotation : JSValue)
    (handler : NodeRef) :
  match JSObject.get (customRenderNodes gameObject) (batchHandler _ this) with
  | Some found => Some found
  | None => JSObject.get (defaultRenderNodes gameObject) (batchHandler _ this)
  end = Some (JSObject.Own handler) ->
  let result :=
    run getTint sub RenderOptions NormalMap setRenderOptions this
      drawingContext gameObject texturerNode transformerNode (Some tinterNode)
      normalMap normalMapRotation in
  let fields :=
    match tinter_run tinterNode with
    | Some f => f (tinter_fields tinterNode)
    | None => tinter_fields tinterNode
    end in
  snd result = None /\
  (In (TinterRun _) (fst result) <-> is_Some (tinter_run tinterNode)) /\
  exists args,
    batchCalls RenderOptions (fst result) = [(handler, args)] /\
    arg_tintFill _ args = tintFill fields /\
    arg_tintTopLeft _ args = tintTopLeft fields /\
    arg_tintBottomLeft _ args = tintBottomLeft fields /\
    arg_tintTopRight _ args = tintTopRight fields /\
    arg_tintBottomRight _ args = tintBottomRight fields.
Proof.
  intros Hhandler result fields. subst result fields. unfold run.
  rewrite Hhandler.
  destruct (tinter_run tinterNode) as [f|];
    destruct (texturer_run texturerNode), (transformer_run transformerNode);
    cbn [fst snd].
  all: split; [done|].
  all: split;
    [|eexists; split; [rewrite !batchCalls_app; cbn; reflexivity | by repeat split]].
  1-4: split; [intros _; by eexists | intros _; cbn; auto 10].
  all: split;
    [cbn; intros H; repeat (destruct H as [H|H]; [discriminate|]); destruct H
    |intros [? [=]]].
Qed.

(** X18. [run] calls [onRunBegin], then [run] on the texturer, the
    transformer and the tinter, each when it is there and has one, then
    [setRenderOptions], and only then looks for the batch handler, under
    the submitter's [batchHandler] key: among the custom render nodes of
    the game object first, among its default ones otherwise. On the node
    found it calls [batch] once and then [onRunEnd], and returns. When
    neither table has the key it throws a [TypeError], and so it does
    when what is found is a property inherited from [Object.prototype],
    which shadows the default node: the stages have run, [batch] and
    [onRunEnd] are not called. *)
Theorem run_handler_lookup (this : SubmitterTile RenderOptions)
    (drawingContext : DrawingContext) (gameObject : GameObject)
    (texturerNode : TexturerNode) (transformerNode : TransformerNode)
    (tinterNode : option TinterNode)
    (normalMap : option NormalMap) (normalMapRotation : JSValue) :
  let result :=
    run getTint sub RenderOptions NormalMap setRenderOptions this
      drawingContext gameObject texturerNode transformerNode tinterNode
      normalMap normalMapRotation in
  let custom := JSObject.get (customRenderNodes gameObject) (batchHandler _ this) in
  let default := JSObject.get (defaultRenderNodes gameObject) (batchHandler _ this) in
  let stages :=
    [SubmitterOnRunBegin _ drawingContext]
    ++ match texturer_run texturerNode with
       | Some _ => [TexturerRun _]
       | None => []
       end
    ++ match transformer_run transformerNode with
       | Some _ => [TransformerRun _]
       | None => []
       end
    ++ match tinterNode with
       | Some tinter =>
           match tinter_run tinter with
           | Some _ => [TinterRun _]
           | None => []
           end
       | None => []
       end
    ++ [SetRenderOptions _] in
  (forall node,
     custom = Some (JSObject.Own node) \/
     custom = None /\ default = Some (JSObject.Own node) ->
     exists args,
       result =
       (stages ++ [BatchCalled _ node args; SubmitterOnRunEnd _ drawingContext],
        None)) /\
  (custom = None -> default = None ->
   result =
   (stages,
    Some (TypeError "Cannot read properties of undefined (reading 'batch')"))) /\
  (forall name,
     custom = Some (JSObject.Inherited name) \/
     custom = None /\ default = Some (JSObject.Inherited name) ->
     exists message, result = (stages, Some (TypeError message))).
Proof.
  intros result custom default stages. subst result custom default stages.
  unfold run.
  destruct (JSObject.get (customRenderNodes gameObject) (batchHandler _ this))
    as [[c|c]|];
    destruct (JSObject.get (defaultRenderNodes gameObject) (batchHandler _ this))
      as [[d|d]|];
    destruct (texturer_run texturerNode), (transformer_run transformerNode),
      tinterNode as [[[?|] ?]|];
    cbn [tinter_run tinter_fields fst snd app].
  all: split;
    [intros node [Hnode|[Hnone Hnode]]; simplify_eq; eexists; reflexivity|].
  all: split; [intros; by simplify_eq|].
  all: intros name [Hname|[Hnone Hname]]; simplify_eq; by eexists.
Qed.

End SubmitterTileMore.

(** ** Camera.run *)

Section CameraProperties.

Import Camera.

Variable GetColor32 : JSNumber -> JSNumber -> JSNumber -> JSNumber -> JSNumber.

(** X19. The camera draws into one context. Without a custom viewport
    every drawing call goes to the context passed in, which is neither
    cloned, entered nor released. With one, the context is cloned, the
    clone's scissor box is set to the camera bounds and the clone is
    entered before anything is drawn, and every drawing call goes to the
    clone. A manager that carries the [nodes] table has the clone
    released once, after the last drawing call. On the
    [RenderNodeManager] of this repository, which has no [nodes], [run]
    throws a [TypeError] at its first drawing call: the clone has been
    entered and is not released. *)
Theorem run_context_discipline (nodes : ManagerNodes) (m : RenderNodeManager)
    (drawingContext clone : nat) (children : list nat) (camera : SceneCamera)
    (parentTransformMatrix : option nat) :
  let result :=
    run GetColor32 nodes drawingContext clone children camera parentTransformMatrix in
  let events := fst (fst result) in
  let current := if _customViewport camera then clone else drawingContext in
  let enter :=
    [GetClone drawingContext clone;
     SetScissorBox clone (x camera) (y camera) (width camera) (height camera);
     Use clone] in
  Forall (fun target => target = current) (omap draw_target events) /\
  (_customViewport camera = false ->
   Forall (fun e => draw_target e = Some drawingContext \/
                    e = EmitPostRender (camera_ref camera)) events) /\
  (_customViewport camera = true -> nodes = NodesTable ->
   snd result = None /\
   omap context_switches events = [(true, clone); (false, clone)] /\
   exists draws,
     events = enter ++ draws ++ [Release clone; EmitPostRender (camera_ref camera)] /\
     draws <> [] /\
     Forall (fun e => draw_target e = Some clone) draws) /\
  (_customViewport camera = true -> nodes = nodes_of m ->
   (exists message, snd result = Some (TypeError message)) /\
   events = enter /\
   omap context_switches events = [(true, clone)]).
Proof.
  intros result events current enter. subst result events current enter.
  unfold run, nodes_of.
  destruct nodes, (_customViewport camera),
    (positive (alphaGL (backgroundColor camera))); cbn.
  all: split; [by repeat constructor|].
  all: split; [intros; try done; rewrite ?Forall_cons, ?Forall_nil; by auto 10|].
  all: split; [intros; try done|intros; try done].
  all: try (split; [by eexists|]; by split).
  - split; [done|]. split; [done|].
    eexists [_; _]. split; [reflexivity|]. split; [done|].
    rewrite !Forall_cons, Forall_nil. by repeat split.
  - split; [done|]. split; [done|].
    eexists [_]. split; [reflexivity|]. split; [done|].
    rewrite !Forall_cons, Forall_nil. by repeat split.
Qed.

(** X20. On a manager that carries the [nodes] table, whatever the
    camera, the children are composited exactly once, with the list
    given; the background is filled, before that, exactly when its
    [alphaGL] is greater than 0 (not for 0, a negative value or [NaN]),
    over the camera bounds and with the same colour at the four corners;
    the post-render event of the camera is the last call; the camera
    ends up with [dirty] false and nothing else changed. On the
    [RenderNodeManager] of this repository, which has no [nodes], [run]
    throws a [TypeError] on reading [FillRect], or [ListCompositor] when
    there is no fill: nothing is drawn, the camera keeps its [dirty]
    flag and the post-render event is not emitted. *)
Theorem run_fill_and_children (m : RenderNodeManager)
    (drawingContext clone : nat) (children : list nat) (camera : SceneCamera)
    (parentTransformMatrix : option nat) :
  let result :=
    run GetColor32 NodesTable drawingContext clone children camera
      parentTransformMatrix in
  let thrown :=
    run GetColor32 (nodes_of m) drawingContext clone children camera
      parentTransformMatrix in
  let events := fst (fst result) in
  let current := if _customViewport camera then clone else drawingContext in
  let bg := backgroundColor camera in
  let col := GetColor32 (red bg) (green bg) (blue bg) (alpha bg) in
  let fill :=
    FillRectRun current (camera_ref camera) parentTransformMatrix
      (x camera) (y camera) (width camera) (height camera) col col col col 2 in
  let composite :=
    ListCompositorRun current children (camera_ref camera) parentTransformMatrix in
  (snd result = None /\
   filter (fun e => is_Some (draw_target e)) events =
     (if positive (alphaGL bg) then [fill; composite] else [composite]) /\
   last events = Some (EmitPostRender (camera_ref camera)) /\
   snd (fst result) =
     {| camera_ref := camera_ref camera; x := x camera; y := y camera;
        width := width camera; height := height camera;
        _customViewport := _customViewport camera;
        backgroundColor := backgroundColor camera;
        flashEffect_isRunning := flashEffect_isRunning camera;
        dirty := false |}) /\
  (snd thrown =
     Some (TypeError
             (if positive (alphaGL bg)
              then "Cannot read properties of undefined (reading 'FillRect')"
              else "Cannot read properties of undefined (reading 'ListCompositor')")) /\
   filter (fun e => is_Some (draw_target e)) (fst (fst thrown)) = [] /\
   ~ In (EmitPostRender (camera_ref camera)) (fst (fst thrown)) /\
   snd (fst thrown) = camera) /\
  positive (Finite 0) = false /\ positive NaN = false /\
  positive NegInfinity = false.
Proof.
  intros result thrown events current bg col fill composite.
  subst result thrown events current bg col fill composite. unfold run, nodes_of.
  destruct (_customViewport camera),
    (positive (alphaGL (backgroundColor camera))); cbn.
  all: split; [by repeat split|].
  all: split; [|done].
  all: split; [done|]. all: split; [done|]. all: split; [|done].
  all: intros H; repeat (destruct H as [H|H]; [discriminate|]); destruct H.
Qed.

End CameraProperties.

(** ** A flush that throws *)

(** X21. A flush without a drawing context throws and drops nothing.
    When the current batch node has pending instances and the manager
    holds no drawing context for it ([null] or [undefined]), asking for
    another node, or for none, makes [run] throw a [TypeError]: the
    manager keeps the node and its context, the pending instances stay
    in the handler, nothing is drawn; asking again throws again. *)
Theorem setCurrentBatchNode_flush_throws (w : World) (current : NodeRef)
    (h : BatchHandlerPointLight) (node : option NodeRef) (drawingContext : CtxVal) :
  currentBatchNode (manager w) = Some current ->
  handlers w !! current = Some h ->
  instanceCount h <> 0%Z ->
  (forall dc, currentBatchDrawingContext (manager w) <> Ctx dc) ->
  node <> Some current ->
  exists message w',
    setCurrentBatchNode node drawingContext w = Throw (TypeError message) w' /\
    manager w' = manager w /\
    handlers w' = handlers w /\
    log w' = CallRun current (currentBatchDrawingContext (manager w)) :: log w /\
    drawCounts current (log w') = drawCounts current (log w) /\
    exists w'',
      setCurrentBatchNode node drawingContext w' = Throw (TypeError message) w''.
Proof.
  intros Hcur Hh Hpending Hctx Hne.
  set (stored := currentBatchDrawingContext (manager w)) in *.
  assert (Hthrow : forall v : World,
            manager v = manager w -> handlers v = handlers w ->
            exists message,
              setCurrentBatchNode node drawingContext v =
              Throw (TypeError message) (with_event v (CallRun current stored)) /\
              message =
                match stored with
                | CtxNull => "Cannot read properties of null (reading 'camera')"
                | _ => "Cannot read properties of undefined (reading 'camera')"
                end).
  { intros v Hm Hhs.
    rewrite (setCurrentBatchNode_switch v current node drawingContext)
      by (by rewrite ?Hm).
    rewrite Hm. fold stored.
    unfold run, bind, get_handler. cbn [handlers with_event]. rewrite Hhs, Hh.
    destruct (Z.eqb_spec (instanceCount h) 0); [done|].
    destruct stored as [| |dc]; cbn; eauto. by destruct (Hctx dc). }
  destruct (Hthrow w eq_refl eq_refl) as (message & Hset & Hmsg).
  destruct (Hthrow (with_event w (CallRun current stored)) eq_refl eq_refl)
    as (message' & Hset' & Hmsg').
  exists message, (with_event w (CallRun current stored)).
  split; [done|]. split; [done|]. split; [done|]. split; [done|]. split; [done|].
  eexists. rewrite Hset'. by rewrite Hmsg, Hmsg'.
Qed.

(** ** Element indices: the strip *)

Lemma generateElementIndices_lookup (instances i k : nat) :
  i < instances -> (Z.of_nat i < 16384)%Z -> k < 6 ->
  _generateElementIndices instances !! (6 * i + k) = quadIndices i !! k.
Proof.
  intros Hi Hsmall Hk.
  rewrite <- (toUint16_quadIndices i Hsmall).
  rewrite <- (_generateElementIndices_quad instances i Hi).
  rewrite lookup_take_lt by done. by rewrite lookup_drop.
Qed.

(** X22. Drawn as a triangle strip, the indices give two triangles per
    quad and nothing else. For at most 16384 instances, the triangle
    starting at position [j] of the index list is, for [j = 6i + 1],
    [(4i, 4i+1, 4i+2)] and, for [j = 6i + 2], [(4i+1, 4i+2, 4i+3)], the
    two halves of quad [i]; at every other position two consecutive
    indices of the triangle are equal, so it has no area: this is so for
    the triangles that join one quad to the next. *)
Theorem generateElementIndices_strip (instances j : nat) :
  (Z.of_nat instances <= 16384)%Z ->
  j + 2 < 6 * instances ->
  exists a b c,
    strip_triangle (_generateElementIndices instances) j = Some (a, b, c) /\
    let base := (4 * Z.of_nat (j / 6))%Z in
    match j mod 6 with
    | 1 => (a, b, c) = (base, base + 1, base + 2)%Z
    | 2 => (a, b, c) = (base + 1, base + 2, base + 3)%Z
    | _ => a = b \/ b = c
    end.
Proof.
  intros Hsmall Hj.
  pose proof (Nat.div_mod j 6 ltac:(lia)) as Hdm.
  pose proof (Nat.mod_upper_bound j 6 ltac:(lia)) as Hk.
  set (i := j / 6) in *. set (k := j mod 6) in *.
  assert (Hi : i < instances) by lia.
  unfold strip_triangle.
  destruct k as [|[|[|[|[|[|k]]]]]]; [..|lia].
  - replace j with (6 * i + 0) by lia.
    replace (6 * i + 0 + 1) with (6 * i + 1) by lia.
    replace (6 * i + 0 + 2) with (6 * i + 2) by lia.
    rewrite !generateElementIndices_lookup by lia. cbn. eauto 10.
  - replace j with (6 * i + 1) by lia.
    replace (6 * i + 1 + 1) with (6 * i + 2) by lia.
    replace (6 * i + 1 + 2) with (6 * i + 3) by lia.
    rewrite !generateElementIndices_lookup by lia. cbn. eauto 10.
  - replace j with (6 * i + 2) by lia.
    replace (6 * i + 2 + 1) with (6 * i + 3) by lia.
    replace (6 * i + 2 + 2) with (6 * i + 4) by lia.
    rewrite !generateElementIndices_lookup by lia. cbn. eauto 10.
  - replace j with (6 * i + 3) by lia.
    replace (6 * i + 3 + 1) with (6 * i + 4) by lia.
    replace (6 * i + 3 + 2) with (6 * i + 5) by lia.
    rewrite !generateElementIndices_lookup by lia. cbn. eauto 10.
  - replace j with (6 * i + 4) by lia.
    replace (6 * i + 4 + 1) with (6 * i + 5) by lia.
    replace (6 * i + 4 + 2) with (6 * S i + 0) by lia.
    rewrite !generateElementIndices_lookup by lia. cbn. eauto 10.
  - replace j with (6 * i + 5) by lia.
    replace (6 * i + 5 + 1) with (6 * S i + 0) by lia.
    replace (6 * i + 5 + 2) with (6 * S i + 1) by lia.
    rewrite !generateElementIndices_lookup by lia. cbn. eauto 10.
Qed.

Lemma generateElementIndices_strip_witness :
  exists a b c,
    strip_triangle (_generateElementIndices 2) 7 = Some (a, b, c) /\
    (a, b, c) = (4, 5, 6)%Z.
Proof.
  destruct (generateElementIndices_strip 2 7 ltac:(lia) ltac:(lia))
    as (a & b & c & Htri & Hshape).
  exists a, b, c. split; [exact Htri | exact Hshape].
Defined.

(** ** The batch pair of the manager *)

Lemma setDebug_batch_fields (w : World) (value : bool) :
  exists w',
    setDebug value w = Ok tt w' /\
    currentBatchNode (manager w') = currentBatchNode (manager w) /\
    currentBatchDrawingContext (manager w') = currentBatchDrawingContext (manager w).
Proof.
  eexists. split; [apply setDebug_result|]. by destruct value.
Qed.

Lemma perform_batch_fields (c : Call) (w : World) :
  (forall node drawingContext, c <> CallSetCurrentBatchNode node drawingContext) ->
  c <> CallStartStandAloneRender ->
  currentBatchNode (manager (world_of (perform c w))) =
    currentBatchNode (manager w) /\
  currentBatchDrawingContext (manager (world_of (perform c w))) =
    currentBatchDrawingContext (manager w).
Proof.
  intros Hset Hsar.
  destruct c as [name node|name ctor|name|node ctx|value| |value|name| |];
    cbn [perform].
  - unfold addNode, bind, get_manager.
    destruct (JSObject.get (_nodes (manager w)) name); [done|]. cbn.
    by destruct (debug (manager w)).
  - unfold addNodeConstructor, bind, get_manager.
    by destruct (JSObject.get (_nodeConstructors (manager w)) name).
  - unfold getNode, bind, get_manager.
    destruct (JSObject.get (_nodes (manager w)) name) eqn:Hn; [done|].
    destruct (JSObject.get (_nodeConstructors (manager w)) name) as [[ctor|]|];
      [|done..].
    unfold construct, bind, fresh_ref, emit, addNode, get_manager. cbn.
    rewrite Hn. cbn.
    by destruct (debug (manager w)).
  - by destruct (Hset node ctx).
  - done.
  - done.
  - by destruct (setDebug_batch_fields w value) as (w' & -> & ? & ?).
  - unfold pushDebug, bind, get_manager.
    destruct (debug (manager w)); [|done]. cbn.
    destruct (debugGraph (manager w)); [|done].
    by destruct (currentDebugNode (manager w)).
  - unfold popDebug, bind, get_manager.
    destruct (debug (manager w)); [|done]. cbn.
    by destruct (currentDebugNode (manager w)) as [[|? ?]|].
  - unfold debugToString, bind, get_manager.
    by destruct (debugGraph (manager w)).
Qed.

Lemma perform_state_ok (c : Call) (w : World) :
  batch_state_ok (manager w) ->
  batch_state_ok (manager (world_of (perform c w))).
Proof.
  intros Hok.
  assert (Hother :
    (forall node drawingContext, c <> CallSetCurrentBatchNode node drawingContext) ->
    c <> CallStartStandAloneRender ->
    batch_state_ok (manager (world_of (perform c w)))).
  { intros Hset Hsar. unfold batch_state_ok.
    by destruct (perform_batch_fields c w Hset Hsar) as [-> ->]. }
  destruct c; try (apply Hother; [intros ? ?|]; discriminate);
    by apply setCurrentBatchNode_state_ok.
Qed.

(** X23. The manager never holds a drawing context without a batch
    node: [currentBatchDrawingContext] is [null] whenever
    [currentBatchNode] is, on a new manager and after any sequence of
    calls of its methods, whether they return or throw. *)
Theorem batch_pair_invariant (maxTextures : JSNumber)
    (autoMobilePipeline desktop selfShadow : bool)
    (w : World) (calls : list Call) :
  manager w = initialize maxTextures autoMobilePipeline desktop selfShadow ->
  let w' := perform_all calls w in
  currentBatchNode (manager w') = None ->
  currentBatchDrawingContext (manager w') = CtxNull.
Proof.
  intros Hinit w'. subst w'.
  assert (Hok : batch_state_ok (manager w))
    by (rewrite Hinit; apply initialize_state_ok).
  clear Hinit. revert w Hok.
  induction calls as [|c calls IH]; intros w Hok; [exact Hok|].
  cbn. apply IH. by apply perform_state_ok.
Qed.

Lemma batch_pair_invariant_witness :
  let calls := [CallSetCurrentBatchNode (Some 1) (Ctx (sample_context 1));
                CallGetNode "Camera"; CallStartStandAloneRender] in
  currentBatchNode (manager (perform_all calls sample_world)) = None /\
  currentBatchDrawingContext (manager (perform_all calls sample_world)) = CtxNull.
Proof.
  intros calls.
  assert (Hnone : currentBatchNode (manager (perform_all calls sample_world)) = None)
    by (vm_compute; reflexivity).
  split; [exact Hnone|].
  exact (batch_pair_invariant (Finite 16) false true false sample_world calls
           eq_refl Hnone).
Defined.

Lemma setCurrentBatchNode_flush_throws_witness :
  let w := with_manager sample_world_batching
             (set_currentBatch sample_manager (Some 1) CtxUndefined) in
  exists message w',
    setCurrentBatchNode None CtxUndefined w = Throw (TypeError message) w' /\
    manager w' = manager w.
Proof.
  intros w.
  destruct (setCurrentBatchNode_flush_throws w 1 (sample_handler 2) None
              CtxUndefined eq_refl eq_refl ltac:(discriminate)
              ltac:(discriminate) ltac:(discriminate))
    as (message & w' & Hset & Hm & _).
  exists message, w'. split; [exact Hset | exact Hm].
Defined.

(** ** The further theorems on the sample states *)

Lemma batch_stores_vertices_witness :
  exists w' h',
    batch_call sample_mul sample_fround 1 sample_quad sample_world = Ok tt w' /\
    handlers w' !! 1 = Some h' /\
    take 4 (viewF32 h') = [Finite 0; Finite 64; Finite 32; Finite 32].
Proof.
  destruct (batch_stores_vertices sample_mul sample_fround sample_world 1
              (sample_handler 0) sample_quad eq_refl
              ltac:(cbn; lia) I ltac:(cbn; lia) eq_refl)
    as (w' & h' & Hcall & Hh' & Hview).
  exists w', h'. split; [exact Hcall|]. split; [exact Hh'|].
  rewrite Hview. reflexivity.
Defined.

Lemma batch_full_flush_context_witness :
  exists w',
    batch_call sample_mul sample_fround 1 sample_quad sample_world_batching =
      Ok tt w' /\
    drawCounts 1 (log w') = [18%Z].
Proof.
  destruct (batch_full_flush_context sample_mul sample_fround
              sample_world_batching 1 (sample_handler 2) sample_quad
              eq_refl eq_refl eq_refl)
    as (w' & h1 & Hcall & Hic & Hipi & _ & Hlog & _).
  exists w'. split; [exact Hcall|].
  rewrite Hlog, drawCounts_app, drawCounts_flush_events, Hic, Hipi. reflexivity.
Defined.


Lemma batch_conserves_instances_witness :
  exists w' h' drawn,
    batch_all sample_mul sample_fround 1
      [sample_quad; sample_quad; sample_quad; sample_quad] sample_world = Ok tt w' /\
    handlers w' !! 1 = Some h' /\
    (foldr Z.add 0%Z drawn + instanceCount h' * 6)%Z = 24%Z.
Proof.
  destruct (batch_conserves_instances sample_mul sample_fround sample_world 1
              (sample_handler 0)
              [sample_quad; sample_quad; sample_quad; sample_quad]
              eq_refl eq_refl eq_refl I)
    as (w' & h' & drawn & Hall & Hh' & _ & Hsum).
  exists w', h', drawn. split; [exact Hall|]. split; [exact Hh' | exact Hsum].
Defined.

Lemma pushDebug_popDebug_balanced_witness :
  exists w',
    for_each perform
      (brackets (DebugNode "Camera" [DebugNode "ListCompositor" []]))
      sample_world_recording = Ok tt w' /\
    recording w'
      (DebugNode render_tree_root
         [DebugNode "Camera" [DebugNode "ListCompositor" []]]) [].
Proof.
  destruct (pushDebug_popDebug_balanced
              (DebugNode "Camera" [DebugNode "ListCompositor" []])
              sample_world_recording (DebugNode render_tree_root [])
              (DebugNode render_tree_root []) []
              (conj eq_refl (conj eq_refl eq_refl)) eq_refl)
    as (w' & Hcalls & Hrec & _).
  exists w'. split; [exact Hcalls | exact Hrec].
Defined.

Lemma run_handler_lookup_witness :
  let result :=
    SubmitterTile.run (getTintAppendFloatAlpha sample_mul) sample_sub bool nat
      (fun _ _ _ options => options) sample_submitter (sample_context 1)
      {| SubmitterTile.go_tintFill := false;
         SubmitterTile.customRenderNodes := [];
         SubmitterTile.defaultRenderNodes := [("BatchHandlerTile", 1)] |}
      sample_texturer sample_transformer (Some sample_tinter) None Undefined in
  result =
  ([SubmitterTile.SubmitterOnRunBegin _ (sample_context 1); SubmitterTile.SetRenderOptions _],
   Some (TypeError "Cannot read properties of undefined (reading 'batch')")).
Proof.
  intros result.
  apply (proj1 (proj2 (run_handler_lookup (getTintAppendFloatAlpha sample_mul)
                         sample_sub bool nat (fun _ _ _ options => options)
                         sample_submitter (sample_context 1)
                         {| SubmitterTile.go_tintFill := false;
                            SubmitterTile.customRenderNodes := [];
                            SubmitterTile.defaultRenderNodes := [("BatchHandlerTile", 1)] |}
                         sample_texturer sample_transformer (Some sample_tinter)
                         None Undefined)));
    vm_compute; reflexivity.
Defined.

Lemma run_with_tinter_witness :
  let result :=
    SubmitterTile.run (fun rgb alpha => rgb) sample_sub bool nat
      (fun _ _ _ options => options) sample_submitter (sample_context 1)
      sample_gameObject sample_texturer sample_transformer (Some sample_tinter)
      None Undefined in
  snd result = None /\
  exists args,
    SubmitterTile.batchCalls bool (fst result) = [(1, args)] /\
    SubmitterTile.arg_tintFill _ args = true /\
    SubmitterTile.arg_tintTopLeft _ args = Finite 1.
Proof.
  intros result.
  destruct (run_with_tinter (fun rgb alpha => rgb) sample_sub bool nat
              (fun _ _ _ options => options) sample_submitter (sample_context 1)
              sample_gameObject sample_texturer sample_transformer sample_tinter
              None Undefined 1)
    as (Herr & _ & args & Hcalls & Hfill & HTL & _).
  { vm_compute. reflexivity. }
  split; [exact Herr|].
  exists args. split; [exact Hcalls|]. split; [exact Hfill | exact HTL].
Defined.

Lemma getNode_iff_hasNode_witness :
  hasNode (manager sample_world) "toString" true = true /\
  getNode "toString" sample_world =
    Ok (Some (JSObject.Inherited "toString")) sample_world /\
  getNode "SubmitterTile" sample_world = Ok None sample_world.
Proof.
  destruct (getNode_iff_hasNode sample_world "toString") as (_ & _ & Hinherited).
  destruct (getNode_iff_hasNode sample_world "SubmitterTile") as (_ & Hnull & _).
  destruct (Hinherited ltac:(vm_compute; reflexivity)) as [Hhas Hget].
  split; [exact Hhas|].
  split; [apply Hget; reflexivity | apply Hnull; vm_compute; reflexivity].
Defined.

(** A camera with a viewport of its own, run by a node that the sample
    manager constructed: the clone is entered, and [run] throws before
    anything is drawn or released. *)
Lemma run_context_discipline_witness :
  let camera :=
    {| Camera.camera_ref := 0; Camera.x := Finite 0; Camera.y := Finite 0;
       Camera.width := Finite 400; Camera.height := Finite 300;
       Camera._customViewport := true;
       Camera.backgroundColor :=
         {| Camera.alphaGL := one; Camera.red := Finite 0;
            Camera.green := Finite 0; Camera.blue := Finite 0;
            Camera.alpha := Finite 255 |};
       Camera.flashEffect_isRunning := false; Camera.dirty := true |} in
  let result :=
    Camera.run (fun r g b a => a) (Camera.nodes_of sample_manager) 1 2 [3; 4]
      camera None in
  fst (fst result) =
    [Camera.GetClone 1 2;
     Camera.SetScissorBox 2 (Finite 0) (Finite 0) (Finite 400) (Finite 300);
     Camera.Use 2] /\
  exists message, snd result = Some (TypeError message).
Proof.
  intros camera result.
  destruct (run_context_discipline (fun r g b a => a)
              (Camera.nodes_of sample_manager) sample_manager 1 2 [3; 4] camera None)
    as (_ & _ & _ & Hthrown).
  destruct (Hthrown eq_refl eq_refl) as (Hmessage & Hevents & _).
  split; [exact Hevents | exact Hmessage].
Defined.
